(** * Answer analyzer: a shallow embedding of [answer_analyzer.py]

    The module scores an interview answer along several axes and turns the
    scores into a bounded list of feedback strings.  The embedding follows
    the Python class [AnswerAnalyzer] method by method.

    Modelling conventions.
    - A Python [str] is a [string] of 8-bit characters; the character
      classes ([str.lower], [str.isalpha], [str.strip], the regular
      expression classes [\w], [\s], [\d]) are the ASCII ones.
    - A Python [int] is a [Z]; a Python [float] is the rational [Q] it
      denotes, so floating-point rounding error is not part of the model.
    - A Python [dict] is a [gmap string value]; a [set] of strings is a
      [gset string].
    - Code that can raise returns a [result]: [Ok v] or [Raise e].
    - The NLTK tokenizers, the stop-word list and the two sentiment models
      are third-party collaborators; they are the fields of the class
      [Collaborators]. *)

From Stdlib Require Import ZArith QArith Qround Qminmax Qabs Lia Lqa Ascii.
From stdpp Require Import gmap strings list fin_maps pretty.

Set Warnings "-register-all".

(** ** Python numbers *)

Module PyNum.

Inductive num := Int (z : Z) | Float (q : Q).

Definition to_Q (n : num) : Q :=
  match n with Int z => inject_Z z | Float q => q end.

Definition add (a b : num) : num :=
  match a, b with
  | Int x, Int y => Int (x + y)
  | _, _ => Float (to_Q a + to_Q b)
  end.

Definition sub (a b : num) : num :=
  match a, b with
  | Int x, Int y => Int (x - y)
  | _, _ => Float (to_Q a - to_Q b)
  end.

(** [a < b] and [a > b] on numbers of either kind. *)
Definition ltb (a b : num) : bool :=
  negb (Qle_bool (to_Q b) (to_Q a)).
Definition gtb (a b : num) : bool := ltb b a.

(** Python's two-argument [min] and [max] return the first argument
    unless the second is strictly better. *)
Definition min (a b : num) : num := if ltb b a then b else a.
Definition max (a b : num) : num := if gtb b a then b else a.

(** [a < b] on floats. *)
Definition Qltb (a b : Q) : bool := negb (Qle_bool b a).

(** Round to the nearest integer, ties to the even one. *)
Definition round_half_even (q : Q) : Z :=
  let n := Qfloor q in
  let frac := (q - inject_Z n)%Q in
  match (frac ?= 1 # 2)%Q with
  | Lt => n
  | Gt => (n + 1)%Z
  | Eq => if Z.even n then n else (n + 1)%Z
  end.

(** [round(x, d)] on a float, for [d >= 0] decimals. *)
Definition round_float (d : nat) (q : Q) : Q :=
  let p := Pos.pow 10 (Pos.of_nat d) in
  match d with
  | O => inject_Z (round_half_even q)
  | S _ => Qmake (round_half_even (q * inject_Z (Zpos p))) p
  end.

(** [round(x, d)] on a number: an [int] is returned unchanged. *)
Definition round (d : nat) (n : num) : num :=
  match n with
  | Int z => Int z
  | Float q => Float (round_float d q)
  end.

(** [a / b] on integers, as a float; the caller guards [b <> 0]. *)
Definition truediv (a b : Z) : Q := (inject_Z a / inject_Z b)%Q.

End PyNum.

(** ** Python strings *)

Module PyStr.

Definition code (c : ascii) : N := N_of_ascii c.

Definition between (lo hi : N) (c : ascii) : bool :=
  (lo <=? code c)%N && (code c <=? hi)%N.

Definition is_upper (c : ascii) : bool := between 65 90 c.
Definition is_lower (c : ascii) : bool := between 97 122 c.
Definition is_digit (c : ascii) : bool := between 48 57 c.
Definition is_alpha (c : ascii) : bool := is_upper c || is_lower c.
(** [\w]: letters, digits and the underscore. *)
Definition is_word (c : ascii) : bool :=
  is_alpha c || is_digit c || (code c =? 95)%N.
(** [str.isspace] and [\s]: tab to carriage return, the four separators
    0x1c to 0x1f, and the space. *)
Definition is_space (c : ascii) : bool := between 9 13 c || between 28 32 c.

Definition lower_char (c : ascii) : ascii :=
  if is_upper c then ascii_of_N (code c + 32) else c.

(** [s.lower()] *)
Fixpoint lower (s : string) : string :=
  match s with
  | EmptyString => EmptyString
  | String c s' => String (lower_char c) (lower s')
  end.

Fixpoint take (n : nat) (s : string) : string :=
  match n, s with
  | S n', String c s' => String c (take n' s')
  | _, _ => EmptyString
  end.

Fixpoint drop (n : nat) (s : string) : string :=
  match n, s with
  | S n', String _ s' => drop n' s'
  | _, _ => s
  end.

(** [s.startswith(sub)] *)
Definition startswith (sub s : string) : bool := String.prefix sub s.

(** Scan for non-overlapping occurrences from the left; [skip] is the
    number of characters still covered by the last occurrence found. *)
Fixpoint count_from (sub : string) (skip : nat) (s : string) : nat :=
  match s with
  | EmptyString => 0
  | String _ s' =>
      match skip with
      | S k => count_from sub k s'
      | O =>
          if startswith sub s
          then S (count_from sub (String.length sub - 1) s')
          else count_from sub 0 s'
      end
  end.

(** [s.count(sub)]: the number of non-overlapping occurrences. *)
Definition count (s sub : string) : nat :=
  match sub with
  | EmptyString => S (String.length s)
  | _ => count_from sub 0 s
  end.

(** [sub in s] *)
Fixpoint contains (sub s : string) : bool :=
  startswith sub s ||
  match s with
  | EmptyString => false
  | String _ s' => contains sub s'
  end.

Fixpoint all_chars (p : ascii -> bool) (s : string) : bool :=
  match s with
  | EmptyString => true
  | String c s' => p c && all_chars p s'
  end.

Fixpoint any_char (p : ascii -> bool) (s : string) : bool :=
  match s with
  | EmptyString => false
  | String c s' => p c || any_char p s'
  end.

(** [s.isalpha()]: non-empty and made of letters. *)
Definition isalpha (s : string) : bool :=
  match s with
  | EmptyString => false
  | _ => all_chars is_alpha s
  end.

(** [s.lstrip()], [s.rstrip()] and [s.strip()] *)
Fixpoint lstrip (s : string) : string :=
  match s with
  | EmptyString => EmptyString
  | String c s' => if is_space c then lstrip s' else s
  end.

Definition rstrip (s : string) : string :=
  String.rev (lstrip (String.rev s)).

Definition strip (s : string) : string := rstrip (lstrip s).

(** Truth value of a string: non-empty. *)
Definition truthy (s : string) : bool :=
  match s with EmptyString => false | _ => true end.

(** [bool(re.search(r'\d+', s))] *)
Definition search_digits (s : string) : bool := any_char is_digit s.

(** *** The pattern [\b(\w+)\s+\1\b]

    [findall] tries the pattern at each position from the left and
    resumes after a match.  At one position the matcher tries the group
    lengths from the longest run of word characters down to one, and for
    each the separator lengths from the longest run of white space down
    to one. *)

Fixpoint span (p : ascii -> bool) (s : string) : nat :=
  match s with
  | String c s' => if p c then S (span p s') else 0
  | EmptyString => 0
  end.

Definition head_is_word (s : string) : bool :=
  match s with
  | String c _ => is_word c
  | EmptyString => false
  end.

(** [\b] between a position whose previous character is a word character
    iff [before], and the rest [s]. *)
Definition boundary (before : bool) (s : string) : bool :=
  xorb before (head_is_word s).

Fixpoint try_separator (grp rest : string) (j : nat) : option nat :=
  match j with
  | O => None
  | S j' =>
      let after := drop j rest in
      if startswith grp after
         && boundary true (drop (String.length grp) after)
      then Some j
      else try_separator grp rest j'
  end.

Fixpoint try_group (s : string) (k : nat) : option nat :=
  match k with
  | O => None
  | S k' =>
      let grp := take k s in
      let rest := drop k s in
      match try_separator grp rest (span is_space rest) with
      | Some j => Some (k + j + k)
      | None => try_group s k'
      end
  end.

(** Length of the match of the pattern at the head of [s], if any. *)
Definition match_stutter (before : bool) (s : string) : option nat :=
  if boundary before s then try_group s (span is_word s) else None.

Fixpoint findall_stutter (before : bool) (skip : nat) (s : string) : nat :=
  match s with
  | EmptyString => 0
  | String c s' =>
      match skip with
      | S k => findall_stutter (is_word c) k s'
      | O =>
          match match_stutter before s with
          | Some len => S (findall_stutter (is_word c) (len - 1) s')
          | None => findall_stutter (is_word c) 0 s'
          end
      end
  end.

(** [len(re.findall(r'\b(\w+)\s+\1\b', s))] *)
Definition count_stutters (s : string) : nat := findall_stutter false 0 s.

End PyStr.

Arguments PyStr.startswith : simpl never.

(** ** Python values, dictionaries and exceptions *)

Inductive value :=
  | VNum (n : PyNum.num)
  | VBool (b : bool)
  | VStr (s : string)
  | VDict (d : gmap string value).

Abbreviation pydict := (gmap string value).

Inductive exn := KeyError (key : string) | TypeError | AttributeError.

Inductive result (A : Type) : Type := Ok (a : A) | Raise (e : exn).
Arguments Ok {A} a.
Arguments Raise {A} e.

#[global] Instance result_ret : MRet result := @Ok.
#[global] Instance result_bind : MBind result :=
  λ A B f m, match m with Ok a => f a | Raise e => Raise e end.

Definition VInt (z : Z) : value := VNum (PyNum.Int z).
Definition VFloat (q : Q) : value := VNum (PyNum.Float q).

Module Py.

(** [d[k]] *)
Definition getitem (d : pydict) (k : string) : result value :=
  match d !! k with
  | Some v => Ok v
  | None => Raise (KeyError k)
  end.

(** [v[k]] on a value that should be a dictionary. *)
Definition subscript (v : value) (k : string) : result value :=
  match v with
  | VDict d => getitem d k
  | _ => Raise TypeError
  end.

(** [v.get(k)]; [None] stands for Python's [None]. *)
Definition get (v : value) (k : string) : result (option value) :=
  match v with
  | VDict d => Ok (d !! k)
  | _ => Raise AttributeError
  end.

(** [v.get(k, dflt)] *)
Definition get_default (v : value) (k : string) (dflt : value)
  : result value :=
  o ← get v k; mret (default dflt o).

(** [k in d] *)
Definition has_key (d : pydict) (k : string) : bool :=
  bool_decide (is_Some (d !! k)).

(** A value used as a number; [True] and [False] count as 1 and 0. *)
Definition as_num (v : value) : result PyNum.num :=
  match v with
  | VNum n => Ok n
  | VBool b => Ok (PyNum.Int (if b then 1 else 0))
  | _ => Raise TypeError
  end.

(** [v < n] and [v > n] against a number. *)
Definition lt (v : value) (n : PyNum.num) : result bool :=
  x ← as_num v; mret (PyNum.ltb x n).
Definition gt (v : value) (n : PyNum.num) : result bool :=
  x ← as_num v; mret (PyNum.gtb x n).

(** [v == s] against a string; values of other types are unequal. *)
Definition eq_str (v : value) (s : string) : bool :=
  match v with
  | VStr t => bool_decide (t = s)
  | _ => false
  end.

(** [v in [s1, s2, ...]] *)
Definition in_strs (v : value) (l : list string) : bool :=
  existsb (eq_str v) l.

(** Truth value of a value. *)
Definition truthy (v : value) : bool :=
  match v with
  | VNum n => negb (Qeq_bool (PyNum.to_Q n) 0)
  | VBool b => b
  | VStr s => PyStr.truthy s
  | VDict d => negb (bool_decide (size d = 0))
  end.

(** Truth value of the result of [d.get(k)]. *)
Definition truthy_opt (o : option value) : bool :=
  match o with
  | Some v => truthy v
  | None => false
  end.

(** [sum(1 for p in l if p in s)] *)
Definition count_present (l : list string) (s : string) : Z :=
  Z.of_nat (length (filter (λ p, PyStr.contains p s = true) l)).

(** [any(p in s for p in l)] *)
Definition any_present (l : list string) (s : string) : bool :=
  existsb (λ p, PyStr.contains p s) l.

End Py.

(** ** Collaborators

    The tokenizers and the stop-word list come from NLTK, the polarity
    scores from VADER, polarity and subjectivity from TextBlob.
    [format_value] is the text an f-string renders for a value. *)

Record vader := { v_pos : Q; v_neg : Q; v_neu : Q; v_compound : Q }.
Record blob := { b_polarity : Q; b_subjectivity : Q }.

Class Collaborators := {
  word_tokenize : string → list string;
  sent_tokenize : string → list string;
  stop_words : gset string;
  polarity_scores : string → vader;
  blob_sentiment : string → blob;
  format_value : value → string
}.

(** ** The class [AnswerAnalyzer] *)

Section AnswerAnalyzer.

Context `{Collaborators}.

Local Open Scope Z_scope.

Definition filler_words : list string :=
  ["um"; "uh"; "like"; "you know"; "sort of"; "kind of";
   "i mean"; "actually"; "basically"; "literally"; "seriously";
   "honestly"; "right"; "okay"; "so"; "well"; "yeah"]%string.

Definition len {A} (l : list A) : Z := Z.of_nat (length l).

(** *** [_analyze_speech_features] *)

(** [sum(text_lower.count(filler) for filler in self.filler_words)] *)
Definition filler_count (text : string) : Z :=
  let text_lower := PyStr.lower text in
  foldr Z.add 0
    (map (λ filler, Z.of_nat (PyStr.count text_lower filler)) filler_words).

Definition speaking_rate (text : string) (duration : Q) : PyNum.num :=
  let words := word_tokenize (PyStr.lower text) in
  if PyNum.Qltb 0 duration
  then PyNum.Float (inject_Z (len words) / duration * 60)%Q
  else PyNum.Int 0.

(** The dictionary [word_freq] after the loop over [words]. *)
Definition word_freq (words : list string) : gmap string Z :=
  foldl (λ (freq : gmap string Z) word,
           if PyStr.isalpha word && (3 <? Z.of_nat (String.length word))
           then <[word := default 0 (freq !! word) + 1]> freq
           else freq)
        ∅ words.

Definition repetitions (text : string) : Z :=
  let words := word_tokenize (PyStr.lower text) in
  len (filter (λ kv : string * Z, 2 < kv.2) (map_to_list (word_freq words))).

Definition pause_indicators (text : string) : Z :=
  Z.of_nat (PyStr.count text "...") + Z.of_nat (PyStr.count text "..").

Definition stutters (text : string) : Z :=
  Z.of_nat (PyStr.count_stutters (PyStr.lower text)).

Definition fluency_score (text : string) (duration : Q) : Z :=
  let fluency_score := 100 in
  let fluency_score := fluency_score - Z.min (filler_count text * 5) 30 in
  let fluency_score := fluency_score - Z.min (stutters text * 10) 20 in
  let fluency_score :=
    fluency_score - Z.min (pause_indicators text * 5) 15 in
  let rate := speaking_rate text duration in
  let fluency_score :=
    if PyNum.gtb rate (PyNum.Int 0)
    then if PyNum.ltb rate (PyNum.Int 100) then fluency_score - 10
         else if PyNum.gtb rate (PyNum.Int 200) then fluency_score - 10
         else fluency_score
    else fluency_score in
  Z.max 0 (Z.min 100 fluency_score).

Definition _get_speaking_pace (rate : PyNum.num) : string :=
  if Qeq_bool (PyNum.to_Q rate) 0 then "unknown"
  else if PyNum.ltb rate (PyNum.Int 100) then "too slow"
  else if PyNum.ltb rate (PyNum.Int 130) then "slow"
  else if PyNum.ltb rate (PyNum.Int 160) then "optimal"
  else if PyNum.ltb rate (PyNum.Int 190) then "fast"
  else "too fast".

Definition _analyze_speech_features (text : string) (duration : Q)
  : pydict :=
  let rate := speaking_rate text duration in
  <["filler_word_count" := VInt (filler_count text)]>
  (<["speaking_rate" := VNum (PyNum.round 1 rate)]>
  (<["repetitions" := VInt (repetitions text)]>
  (<["stuttering_instances" := VInt (stutters text)]>
  (<["pause_indicators" := VInt (pause_indicators text)]>
  (<["fluency_score" := VInt (fluency_score text duration)]>
  (<["speaking_pace" := VStr (_get_speaking_pace rate)]> ∅)))))).

(** *** [_analyze_facial_expressions] *)

(** Truth value of the optional argument [video_data]: neither [None]
    nor an empty dictionary. *)
Definition video_truthy (video_data : option pydict) : bool :=
  match video_data with
  | Some d => negb (bool_decide (size d = 0%nat))
  | None => false
  end.

Definition facial_defaults : pydict :=
  <["confidence_level" := VInt 70]>
  (<["nervousness" := VStr "moderate"]>
  (<["eye_contact" := VStr "good"]>
  (<["expressions" := VStr "neutral"]> ∅))).

Definition _analyze_facial_expressions (video_data : option pydict)
  : result pydict :=
  match video_data with
  | Some d =>
      if video_truthy video_data then
        let eye_contact_pct :=
          default (VInt 60) (d !! "eye_contact_percentage") in
        let dominant_emotion :=
          default (VStr "neutral") (d !! "dominant_emotion") in
        let engagement := default (VInt 70) (d !! "engagement_score") in
        low ← Py.lt engagement (PyNum.Int 50);
        mid ← Py.lt engagement (PyNum.Int 70);
        let nervousness :=
          if (low : bool) then "high"
          else if (mid : bool) then "moderate" else "low" in
        confidence ← Py.as_num engagement;
        let confidence :=
          if Py.in_strs dominant_emotion ["happy"; "focused"]
          then PyNum.add confidence (PyNum.Int 10)
          else if Py.in_strs dominant_emotion ["sad"; "worried"]
          then PyNum.sub confidence (PyNum.Int 10)
          else confidence in
        let confidence :=
          PyNum.max (PyNum.Int 0) (PyNum.min (PyNum.Int 100) confidence) in
        pct ← Py.as_num eye_contact_pct;
        let eye_contact_quality :=
          if PyNum.gtb pct (PyNum.Int 70) then "excellent"
          else if PyNum.gtb pct (PyNum.Int 50) then "good"
          else "needs improvement" in
        eng ← Py.as_num engagement;
        mret (<["confidence_level" := VNum (PyNum.round 1 confidence)]>
             (<["nervousness" := VStr nervousness]>
             (<["eye_contact" := VStr eye_contact_quality]>
             (<["eye_contact_percentage" := VNum (PyNum.round 1 pct)]>
             (<["dominant_emotion" := dominant_emotion]>
             (<["engagement_score" := VNum (PyNum.round 1 eng)]>
                (∅ : pydict)))))))
      else mret facial_defaults
  | None => mret facial_defaults
  end.

(** *** [_analyze_text_metrics] *)

(** [[w for w in words if w.isalpha() and w not in self.stop_words]] *)
Definition content_words (words : list string) : list string :=
  filter (λ w, PyStr.isalpha w = true ∧ w ∉ stop_words) words.

Definition _analyze_text_metrics (text : string) : pydict :=
  let words := word_tokenize (PyStr.lower text) in
  let sentences := sent_tokenize text in
  let content_words := content_words words in
  let unique : gset string := list_to_set content_words in
  let avg_word_length :=
    match content_words with
    | [] => PyNum.Int 0
    | _ => PyNum.Float
             (PyNum.truediv
                (foldr Z.add 0
                   (map (λ w, Z.of_nat (String.length w)) content_words))
                (len content_words))
    end in
  let avg_sentence_length :=
    match sentences with
    | [] => PyNum.Int 0
    | _ => PyNum.Float (PyNum.truediv (len words) (len sentences))
    end in
  <["word_count" := VInt (len words)]>
  (<["sentence_count" := VInt (len sentences)]>
  (<["content_word_count" := VInt (len content_words)]>
  (<["avg_word_length" := VNum (PyNum.round 2 avg_word_length)]>
  (<["avg_sentence_length" := VNum (PyNum.round 2 avg_sentence_length)]>
  (<["unique_words" := VInt (Z.of_nat (size unique))]>
  (<["vocabulary_richness" :=
       match content_words with
       | [] => VInt 0
       | _ => VFloat (PyNum.round_float 3
                        (PyNum.truediv (Z.of_nat (size unique))
                                       (len content_words)))
       end]> ∅)))))).

(** *** [_analyze_content_quality] *)

Definition has_numbers (text : string) : bool := PyStr.search_digits text.

Definition has_examples (text : string) : bool :=
  Py.any_present
    ["for example"; "for instance"; "such as"; "like when"; "specifically"]
    (PyStr.lower text).

Definition has_quantification (text : string) : bool :=
  Py.any_present
    ["increased"; "decreased"; "improved"; "reduced"; "achieved";
     "percent"; "%"; "times"; "doubled"; "tripled"]
    (PyStr.lower text).

Definition has_situation (text : string) : bool :=
  Py.any_present ["situation"; "context"; "background"] (PyStr.lower text).

Definition has_task (text : string) : bool :=
  Py.any_present ["task"; "goal"; "objective"; "challenge"]
    (PyStr.lower text).

Definition has_action (text : string) : bool :=
  Py.any_present ["action"; "did"; "implemented"; "developed"]
    (PyStr.lower text).

Definition has_result (text : string) : bool :=
  Py.any_present ["result"; "outcome"; "impact"; "achievement"]
    (PyStr.lower text).

Definition quality_score (text : string) : Z :=
  let quality_score := 50 in
  let quality_score :=
    if has_numbers text then quality_score + 10 else quality_score in
  let quality_score :=
    if has_examples text then quality_score + 15 else quality_score in
  let quality_score :=
    if has_quantification text then quality_score + 15
    else quality_score in
  let quality_score :=
    if has_situation text then quality_score + 5 else quality_score in
  let quality_score :=
    if has_task text then quality_score + 5 else quality_score in
  let quality_score :=
    if has_action text then quality_score + 5 else quality_score in
  let quality_score :=
    if has_result text then quality_score + 10 else quality_score in
  Z.min 100 quality_score.

Definition _analyze_content_quality (text question : string) : pydict :=
  <["quality_score" := VInt (quality_score text)]>
  (<["has_specific_examples" := VBool (has_examples text)]>
  (<["has_quantifiable_results" := VBool (has_quantification text)]>
  (<["has_numbers" := VBool (has_numbers text)]>
  (<["uses_star_method" :=
       VBool (has_situation text && has_task text
              && has_action text && has_result text)]> ∅)))).

(** *** [_analyze_sentiment] *)

Definition sentiment_confidence (text : string) : PyNum.num :=
  let scores := polarity_scores text in
  let confidence := (50 + v_pos scores * 50 - v_neg scores * 30)%Q in
  PyNum.max (PyNum.Int 0)
    (PyNum.min (PyNum.Int 100) (PyNum.Float confidence)).

Definition _analyze_sentiment (text : string) : pydict :=
  let scores := polarity_scores text in
  let blob := blob_sentiment text in
  <["polarity" := VFloat (PyNum.round_float 3 (b_polarity blob))]>
  (<["subjectivity" := VFloat (PyNum.round_float 3 (b_subjectivity blob))]>
  (<["positive_score" := VFloat (PyNum.round_float 3 (v_pos scores))]>
  (<["negative_score" := VFloat (PyNum.round_float 3 (v_neg scores))]>
  (<["neutral_score" := VFloat (PyNum.round_float 3 (v_neu scores))]>
  (<["confidence_level" :=
       VNum (PyNum.round 1 (sentiment_confidence text))]>
  (<["enthusiasm_score" :=
       VFloat (PyNum.round_float 1 (v_pos scores * 100))]> ∅)))))).

(** *** [_analyze_relevance] *)

(** The set of lowercase alphabetic tokens of [text] that are not stop
    words. *)
Definition keyword_set (text : string) : gset string :=
  filter (λ w, PyStr.isalpha w = true ∧ w ∉ stop_words)
    (list_to_set (word_tokenize (PyStr.lower text)) : gset string).

Definition relevance (answer question : string) : PyNum.num :=
  let answer_words := keyword_set answer in
  let question_words := keyword_set question in
  let overlap := answer_words ∩ question_words in
  let relevance :=
    if bool_decide (size question_words = 0%nat)
    then PyNum.Int 50
    else PyNum.Float
           (PyNum.truediv (Z.of_nat (size overlap))
                          (Z.of_nat (size question_words)) * 100)%Q in
  PyNum.min (PyNum.Int 100)
    (PyNum.Float (PyNum.to_Q relevance * (15 # 10))%Q).

Definition _analyze_relevance (answer question : string) : pydict :=
  let answer_words := keyword_set answer in
  let question_words := keyword_set question in
  let overlap := answer_words ∩ question_words in
  <["relevance_score" := VNum (PyNum.round 1 (relevance answer question))]>
  (<["keyword_overlap" := VInt (Z.of_nat (size overlap))]>
  (<["directly_addresses_question" :=
       VBool (Qle_bool
                (inject_Z (Z.of_nat (size question_words)) * (3 # 10))
                (inject_Z (Z.of_nat (size overlap))))]> ∅)).

(** *** [_analyze_clarity] *)

Definition transitions : list string :=
  ["first"; "second"; "then"; "next"; "finally"; "additionally";
   "moreover"; "however"; "therefore"; "consequently"]%string.

(** [sum(1 for t in transitions if t in text_lower)] *)
Definition transition_count (text : string) : Z :=
  Py.count_present transitions (PyStr.lower text).

Definition avg_sentence_length (text : string) : PyNum.num :=
  let sentences := sent_tokenize text in
  match sentences with
  | [] => PyNum.Int 0
  | _ => PyNum.Float
           (PyNum.truediv (len (word_tokenize text)) (len sentences))
  end.

Definition clarity_score (text : string) : Z :=
  let clarity_score := 60 in
  let clarity_score := clarity_score + Z.min (transition_count text * 8) 24 in
  let avg := avg_sentence_length text in
  let clarity_score :=
    if PyNum.ltb (PyNum.Int 10) avg && PyNum.ltb avg (PyNum.Int 25)
    then clarity_score + 16
    else if PyNum.ltb avg (PyNum.Int 5) then clarity_score - 10
    else clarity_score in
  Z.max 0 (Z.min 100 clarity_score).

Definition _analyze_clarity (text : string) : pydict :=
  <["clarity_score" := VInt (clarity_score text)]>
  (<["has_structure" := VBool (0 <? transition_count text)]>
  (<["transition_words" := VInt (transition_count text)]> ∅)).

(** *** [_analyze_professionalism] *)

Definition professional_phrases : list string :=
  ["experience"; "responsible for"; "achieved"; "developed";
   "implemented"; "collaborated"; "managed"; "led"; "initiated"]%string.

Definition casual_words : list string :=
  ["gonna"; "wanna"; "kinda"; "sorta"; "yeah"; "stuff"; "things";
   "like"]%string.

Definition professional_count (text : string) : Z :=
  Py.count_present professional_phrases (PyStr.lower text).

Definition casual_count (text : string) : Z :=
  Py.count_present casual_words (PyStr.lower text).

Definition prof_score (text : string) : Z :=
  let prof_score := 70 in
  let prof_score := prof_score + professional_count text * 5 in
  let prof_score := prof_score - casual_count text * 10 in
  Z.max 0 (Z.min 100 prof_score).

Definition _analyze_professionalism (text : string) : pydict :=
  <["professionalism_score" := VInt (prof_score text)]>
  (<["professional_language" := VInt (professional_count text)]>
  (<["casual_language" := VInt (casual_count text)]> ∅)).

(** *** [_calculate_overall_score] *)

(** [analysis.get(part, {}).get(field, 70)] *)
Definition score_or_70 (analysis : pydict) (part field : string)
  : result value :=
  Py.get_default (default (VDict ∅) (analysis !! part)) field (VInt 70).

(** [analysis[part][field]] *)
Definition score_of (analysis : pydict) (part field : string)
  : result value :=
  sub ← Py.getitem analysis part; Py.subscript sub field.

(** [score * weight] with a float weight. *)
Definition weighted (score : value) (weight : Q) : result Q :=
  match score with
  | VNum n => Ok (PyNum.to_Q n * weight)%Q
  | VBool b => Ok ((if b then 1 else 0) * weight)%Q
  | _ => Raise TypeError
  end.

Definition _calculate_overall_score (analysis : pydict) : result Q :=
  content_quality ← score_of analysis "content_quality" "quality_score";
  relevance ← score_of analysis "relevance" "relevance_score";
  clarity ← score_of analysis "clarity" "clarity_score";
  sentiment ← score_of analysis "sentiment" "confidence_level";
  professionalism ←
    score_of analysis "professionalism" "professionalism_score";
  speech ← score_or_70 analysis "speech_features" "fluency_score";
  facial ← score_or_70 analysis "facial_expressions" "confidence_level";
  w1 ← weighted content_quality (25 # 100);
  w2 ← weighted relevance (20 # 100);
  w3 ← weighted clarity (15 # 100);
  w4 ← weighted sentiment (10 # 100);
  w5 ← weighted professionalism (10 # 100);
  w6 ← weighted speech (15 # 100);
  w7 ← weighted facial (5 # 100);
  let overall := (0 + w1 + w2 + w3 + w4 + w5 + w6 + w7)%Q in
  mret (PyNum.round_float 1 overall).

(** *** [_get_empty_analysis] *)

Definition _get_empty_analysis : pydict :=
  <["text_metrics" := VDict (<["word_count" := VInt 0]> ∅)]>
  (<["content_quality" := VDict (<["quality_score" := VInt 0]> ∅)]>
  (<["sentiment" := VDict (<["confidence_level" := VInt 0]> ∅)]>
  (<["relevance" := VDict (<["relevance_score" := VInt 0]> ∅)]>
  (<["clarity" := VDict (<["clarity_score" := VInt 0]> ∅)]>
  (<["professionalism" :=
       VDict (<["professionalism_score" := VInt 0]> ∅)]>
  (<["speech_features" := VDict (<["fluency_score" := VInt 0]> ∅)]>
  (<["facial_expressions" := VDict (<["confidence_level" := VInt 0]> ∅)]>
  (<["overall_score" := VInt 0]> ∅)))))))).

(** *** [analyze_answer] *)

(** [not answer or not answer.strip()] *)
Definition is_blank (answer : string) : bool :=
  negb (PyStr.truthy answer) || negb (PyStr.truthy (PyStr.strip answer)).

(** [self._analyze_facial_expressions(video_data) if video_data else {}] *)
Definition facial_analysis (video_data : option pydict) : result pydict :=
  if video_truthy video_data
  then _analyze_facial_expressions video_data
  else Ok ∅.

Definition analyze_answer (answer question : string)
    (video_data : option pydict) (audio_duration : Q) : result pydict :=
  if is_blank answer then mret _get_empty_analysis
  else
    let speech_analysis := _analyze_speech_features answer audio_duration in
    facial_analysis ← facial_analysis video_data;
    let analysis : pydict :=
      <["text_metrics" := VDict (_analyze_text_metrics answer)]>
      (<["content_quality" :=
           VDict (_analyze_content_quality answer question)]>
      (<["sentiment" := VDict (_analyze_sentiment answer)]>
      (<["relevance" := VDict (_analyze_relevance answer question)]>
      (<["clarity" := VDict (_analyze_clarity answer)]>
      (<["professionalism" := VDict (_analyze_professionalism answer)]>
      (<["speech_features" := VDict speech_analysis]>
      (<["facial_expressions" := VDict facial_analysis]>
      (<["overall_score" := VInt 0]> ∅)))))))) in
    overall ← _calculate_overall_score analysis;
    mret (<["overall_score" := VFloat overall]> analysis).

(** *** [get_feedback] *)

(** [feedback.append(msg)] when [cond] holds. *)
Definition append_if (cond : bool) (msg : string) (feedback : list string)
  : list string :=
  if cond then feedback ++ [msg] else feedback.

(** [if not feedback: feedback.append(...)] *)
Definition encourage_if_empty (feedback : list string) : list string :=
  match feedback with
  | [] => ["Excellent answer! Keep up the great work!"]
  | _ => feedback
  end.

Definition speech_feedback (analysis : pydict) (feedback : list string)
  : result (list string) :=
  if Py.has_key analysis "speech_features" then
    speech ← Py.getitem analysis "speech_features";
    fillers ← Py.subscript speech "filler_word_count";
    many ← Py.gt fillers (PyNum.Int 3);
    let feedback :=
      append_if many
        ("Reduce filler words (found " +:+ format_value fillers
         +:+ " instances of 'um', 'uh', 'like')") feedback in
    stutter ← Py.subscript speech "stuttering_instances";
    some ← Py.gt stutter (PyNum.Int 0);
    let feedback :=
      append_if some
        "Practice your answers to reduce stuttering and improve fluency"
        feedback in
    pace ← Py.subscript speech "speaking_pace";
    mret (append_if (Py.in_strs pace ["too slow"; "too fast"])
            ("Adjust your speaking pace (currently " +:+ format_value pace
             +:+ ") to 130-160 words/minute") feedback)
  else mret feedback.

Definition facial_feedback (analysis : pydict) (feedback : list string)
  : result (list string) :=
  if Py.has_key analysis "facial_expressions" then
    facial ← Py.getitem analysis "facial_expressions";
    eye ← Py.get_default facial "eye_contact_percentage" (VInt 100);
    low_eye ← Py.lt eye (PyNum.Int 50);
    let feedback :=
      append_if low_eye
        "Maintain better eye contact with the camera (look directly at it)"
        feedback in
    nervousness ← Py.get facial "nervousness";
    let feedback :=
      append_if
        (match nervousness with
         | Some v => Py.eq_str v "high"
         | None => false
         end)
        "Try to relax and appear more confident - take deep breaths before answering"
        feedback in
    engagement ← Py.get_default facial "engagement_score" (VInt 100);
    low_engagement ← Py.lt engagement (PyNum.Int 60);
    mret (append_if low_engagement
            "Show more enthusiasm and engagement through your facial expressions"
            feedback)
  else mret feedback.

Definition get_feedback (analysis : pydict) : result (list string) :=
  let feedback := [] in
  content ← Py.getitem analysis "content_quality";
  examples ← Py.get content "has_specific_examples";
  let feedback :=
    append_if (negb (Py.truthy_opt examples))
      "Add specific examples from your experience to illustrate your points"
      feedback in
  results ← Py.get content "has_quantifiable_results";
  let feedback :=
    append_if (negb (Py.truthy_opt results))
      "Include measurable results (percentages, numbers, metrics) to demonstrate impact"
      feedback in
  quality ← Py.subscript content "quality_score";
  low_quality ← Py.lt quality (PyNum.Int 60);
  let feedback :=
    append_if low_quality
      "Provide more detailed responses with concrete details and outcomes"
      feedback in
  feedback ← speech_feedback analysis feedback;
  feedback ← facial_feedback analysis feedback;
  relevance_score ← score_of analysis "relevance" "relevance_score";
  low_relevance ← Py.lt relevance_score (PyNum.Int 60);
  let feedback :=
    append_if low_relevance
      "Ensure your answer directly addresses what was asked in the question"
      feedback in
  clarity ← score_of analysis "clarity" "clarity_score";
  low_clarity ← Py.lt clarity (PyNum.Int 60);
  let feedback :=
    append_if low_clarity
      "Structure your answer better using transitions (first, then, finally)"
      feedback in
  professionalism ←
    score_of analysis "professionalism" "professionalism_score";
  low_professionalism ← Py.lt professionalism (PyNum.Int 60);
  let feedback :=
    append_if low_professionalism
      "Use more professional language and avoid casual expressions"
      feedback in
  word_count ← score_of analysis "text_metrics" "word_count";
  count ← Py.as_num word_count;
  let feedback :=
    if PyNum.ltb count (PyNum.Int 30)
    then feedback ++
         ["Provide longer, more detailed answers (aim for 50-150 words)"]
    else append_if (PyNum.gtb count (PyNum.Int 200))
           "Keep answers more concise and focused on key points" feedback in
  mret (take 5 (encourage_if_empty feedback)).

End AnswerAnalyzer.

(** ** A concrete set of collaborators

    A plain tokenizer (runs of word characters, every other visible
    character on its own), a sentence splitter on [.], [!] and [?], a short
    stop-word list and neutral sentiment models.  It is used to run the
    analyzer on concrete answers. *)

Module Plain.

Definition flush (cur : string) : list string :=
  match cur with EmptyString => [] | _ => [cur] end.

Fixpoint tokens (cur s : string) : list string :=
  match s with
  | EmptyString => flush cur
  | String c s' =>
      if PyStr.is_word c then tokens (cur +:+ String c "") s'
      else flush cur
           ++ (if PyStr.is_space c then [] else [String c ""])
           ++ tokens "" s'
  end.

Definition ends_sentence (c : ascii) : bool :=
  bool_decide (c = "."%char) || bool_decide (c = "!"%char)
  || bool_decide (c = "?"%char).

Fixpoint sentences (cur s : string) : list string :=
  match s with
  | EmptyString =>
      if PyStr.all_chars PyStr.is_space cur then [] else [cur]
  | String c s' =>
      if ends_sentence c
      then (cur +:+ String c "") :: sentences "" s'
      else sentences (cur +:+ String c "") s'
  end.

Definition stops : gset string :=
  list_to_set
    ["a"; "an"; "the"; "i"; "my"; "we"; "you"; "your"; "it"; "is"; "are";
     "was"; "what"; "with"; "and"; "of"; "in"; "to"; "for"; "on"]%string.

Definition format (v : value) : string :=
  match v with
  | VNum (PyNum.Int z) => pretty z
  | VNum (PyNum.Float q) => pretty (Qnum q) +:+ "/" +:+ pretty (Zpos (Qden q))
  | VBool b => if b then "True" else "False"
  | VStr s => s
  | VDict _ => "{...}"
  end.

#[global] Instance collaborators : Collaborators := {|
  word_tokenize := tokens "";
  sent_tokenize := sentences "";
  stop_words := stops;
  polarity_scores := λ _, {| v_pos := 0; v_neg := 0; v_neu := 1;
                              v_compound := 0 |};
  blob_sentiment := λ _, {| b_polarity := 0; b_subjectivity := 0 |};
  format_value := format
|}.

(** Sample inputs. *)
Definition built_answer : string := "I built it".
Definition built_question : string := "What did you build?".
Definition halting_answer : string := "um uh okay yeah we we built it...".
Definition stepwise_answer : string :=
  "First we plan, then we build, then we test.".
Definition python_question : string :=
  "What is your experience with Python?".
Definition python_answer : string := "I have experience with Python".
Definition attentive_video : option pydict :=
  Some (<["eye_contact_percentage" := VInt 80]>
       (<["dominant_emotion" := VStr "happy"]>
       (<["engagement_score" := VInt 95]> ∅))).

End Plain.

(** ** Looking up a score in a bundle *)

(** [bundle[part][name]], when both keys are present. *)
Definition field (bundle : pydict) (part name : string) : option value :=
  match bundle !! part with
  | Some (VDict d) => d !! name
  | _ => None
  end.

(** A number between 0 and 100. *)
Definition in_0_100 (v : value) : Prop :=
  ∃ n, v = VNum n ∧ (0 <= PyNum.to_Q n <= 100)%Q.

(** The score the aggregator uses for a part that may be missing: the
    neutral 70 stands in for an absent score. *)
Definition score_or_neutral (bundle : pydict) (part name : string) : value :=
  default (VInt 70) (field bundle part name).

(** The confidence the aggregator reads from a facial analysis. *)
Definition facial_or_70 (facial : pydict) : value :=
  default (VInt 70) (facial !! "confidence_level").

(** The weighted sum of the aggregator, in the order the code adds it up. *)
Definition weighted_sum (c r cl s p sp f : Q) : Q :=
  (0 + c * (25 # 100) + r * (20 # 100) + cl * (15 # 100) + s * (10 # 100)
   + p * (10 # 100) + sp * (15 # 100) + f * (5 # 100))%Q.

(** A number, as the comparisons and the arithmetic of the facial analyzer
    need it. *)
Definition is_number (v : value) : Prop :=
  match v with
  | VNum _ | VBool _ => True
  | _ => False
  end.

(** A video signal whose numeric fields, when present, hold numbers. *)
Definition video_well_typed (video_data : option pydict) : Prop :=
  match video_data with
  | Some d =>
      (∀ v, d !! "engagement_score" = Some v → is_number v)
      ∧ (∀ v, d !! "eye_contact_percentage" = Some v → is_number v)
  | None => True
  end.

(** The designated score [bundle[part][name]] is present and lies between
    0 and 100. *)
Definition score_in_range (bundle : pydict) (part name : string) : Prop :=
  ∃ v, field bundle part name = Some v ∧ in_0_100 v.


(** ** The fluency rule as the contract words it *)

Definition clamp_0_100 (z : Z) : Z := Z.max 0 (Z.min 100 z).

(** Words per minute of [words] tokens spoken in [duration] seconds. *)
Definition words_per_minute (words : Z) (duration : Q) : Q :=
  (inject_Z words / duration * 60)%Q.


(** ** The clarity and relevance rules as the contract words them *)

(** Total number of occurrences of the transition words in the lowercased
    text. *)
Definition transition_occurrences (text : string) : Z :=
  foldr Z.add 0%Z
    (map (λ t, Z.of_nat (PyStr.count (PyStr.lower text) t)) transitions).

(** Number of transition words that occur in the lowercased text. *)
Definition transitions_present (text : string) : Z :=
  Z.of_nat
    (length (filter (λ t, PyStr.contains t (PyStr.lower text) = true)
               transitions)).

(** Words per sentence, 0 when there is no sentence. *)
Definition mean_sentence_length (words sentences : Z) : Q :=
  if (sentences =? 0)%Z then 0%Q
  else (inject_Z words / inject_Z sentences)%Q.

(** Base 60, plus 8 per transition up to 24, plus 16 for a mean sentence
    length strictly between 10 and 25, minus 10 for one below 5; clamp. *)
Definition spec_clarity (count : Z) (avg : Q) : Z :=
  clamp_0_100
    (60 + Z.min (count * 8) 24
     + (if PyNum.Qltb 10 avg && PyNum.Qltb avg 25 then 16 else 0)
     - (if PyNum.Qltb avg 5 then 10 else 0))%Z.


(** ** Comparing bundles *)

(** The seven scores the aggregator reads, as part and field. *)
Definition designated_scores : list (string * string) :=
  [("content_quality", "quality_score"); ("relevance", "relevance_score");
   ("clarity", "clarity_score"); ("sentiment", "confidence_level");
   ("professionalism", "professionalism_score");
   ("speech_features", "fluency_score");
   ("facial_expressions", "confidence_level")]%string.

(** Both bundles hold the score, and the first holds the smaller number. *)
Definition score_le (a a' : pydict) (part name : string) : Prop :=
  ∃ n n', field a part name = Some (VNum n)
          ∧ field a' part name = Some (VNum n')
          ∧ (PyNum.to_Q n <= PyNum.to_Q n')%Q.

(** ** The class [VideoAnalyzer] of [video_analyzer.py]

    The camera and the two MediaPipe detectors are collaborators.  A
    captured frame is modelled by what the code reads from it and from the
    detectors run on it: its height, whether the face detector reports a
    detection, and the landmarks of the first face of the mesh, if any. *)

Module Video.

Record landmark := { lm_x : Q; lm_y : Q }.

Record frame := {
  height : Z;
  detections : bool;
  multi_face_landmarks : option (nat → landmark)
}.

(** The attributes of the analyzer that [analyze_frame] updates; the three
    histories are deques of at most 100 entries. *)
Record analyzer := {
  emotion_history : list string;
  eye_contact_history : list bool;
  posture_history : list string;
  total_frames : Z;
  face_detected_frames : Z
}.

Record analysis := {
  face_detected : bool;
  emotion : string;
  confidence : Q;
  eye_contact : bool;
  head_pose : string;
  facial_landmarks : option (nat → landmark)
}.

(** The state after [__init__]. *)
Definition init : analyzer :=
  {| emotion_history := []; eye_contact_history := [];
     posture_history := []; total_frames := 0; face_detected_frames := 0 |}.

(** [d.append(x)] on a [deque(maxlen=maxlen)]: a full deque drops its
    first entry. *)
Definition deque_append {A} (maxlen : nat) (d : list A) (x : A) : list A :=
  if decide (length d < maxlen) then d ++ [x] else drop 1 d ++ [x].

Definition _analyze_emotion (landmarks : nat → landmark) (h : Z)
  : string * Q :=
  let mouth_top := landmarks 13%nat in
  let mouth_bottom := landmarks 14%nat in
  let left_eye_top := landmarks 159%nat in
  let left_eye_bottom := landmarks 145%nat in
  let mouth_open :=
    (Qabs (lm_y mouth_top - lm_y mouth_bottom) * inject_Z h)%Q in
  let left_eye_open :=
    (Qabs (lm_y left_eye_top - lm_y left_eye_bottom) * inject_Z h)%Q in
  if PyNum.Qltb 15 mouth_open then ("happy", 75 # 100)%Q
  else if PyNum.Qltb 8 mouth_open then ("happy", 65 # 100)%Q
  else if PyNum.Qltb left_eye_open 5 then ("focused", 60 # 100)%Q
  else ("neutral", 80 # 100)%Q.

Definition _check_eye_contact (landmarks : nat → landmark) : bool :=
  let nose_tip := landmarks 1%nat in
  let left_eye := landmarks 33%nat in
  let right_eye := landmarks 263%nat in
  let eye_center_x := ((lm_x left_eye + lm_x right_eye) / 2)%Q in
  PyNum.Qltb (Qabs (lm_x nose_tip - eye_center_x)) (3 # 100).

Definition _analyze_head_pose (landmarks : nat → landmark) : string :=
  let nose_tip := landmarks 1%nat in
  let chin := landmarks 152%nat in
  let forehead := landmarks 10%nat in
  let face_height := Qabs (lm_y forehead - lm_y chin) in
  let nose_position :=
    if PyNum.Qltb 0 face_height
    then ((lm_y nose_tip - lm_y forehead) / face_height)%Q
    else (5 # 10)%Q in
  if PyNum.Qltb nose_position (4 # 10) then "looking_up"
  else if PyNum.Qltb (6 # 10) nose_position then "looking_down"
  else "centered".

(** [analyze_frame]: the new state of the analyzer and the analysis of the
    frame; [None] is the frame [None]. *)
Definition analyze_frame (self : analyzer) (frame : option frame)
  : analyzer * analysis :=
  let analysis :=
    {| face_detected := false; emotion := "neutral"; confidence := 0;
       eye_contact := false; head_pose := "neutral";
       facial_landmarks := None |} in
  match frame with
  | None => (self, analysis)
  | Some f =>
      if detections f then
        let detected := (face_detected_frames self + 1)%Z in
        match multi_face_landmarks f with
        | Some face_landmarks =>
            let '(emotion, confidence) :=
              _analyze_emotion face_landmarks (height f) in
            let eye_contact := _check_eye_contact face_landmarks in
            let head_pose := _analyze_head_pose face_landmarks in
            ({| emotion_history :=
                  deque_append 100 (emotion_history self) emotion;
                eye_contact_history :=
                  deque_append 100 (eye_contact_history self) eye_contact;
                posture_history :=
                  deque_append 100 (posture_history self) head_pose;
                total_frames := (total_frames self + 1)%Z;
                face_detected_frames := detected |},
             {| face_detected := true; emotion := emotion;
                confidence := confidence; eye_contact := eye_contact;
                head_pose := head_pose;
                facial_landmarks := Some face_landmarks |})
        | None =>
            ({| emotion_history := emotion_history self;
                eye_contact_history := eye_contact_history self;
                posture_history := posture_history self;
                total_frames := (total_frames self + 1)%Z;
                face_detected_frames := detected |},
             {| face_detected := true; emotion := "neutral";
                confidence := 0; eye_contact := false;
                head_pose := "neutral"; facial_landmarks := None |})
        end
      else
        ({| emotion_history := emotion_history self;
            eye_contact_history := eye_contact_history self;
            posture_history := posture_history self;
            total_frames := (total_frames self + 1)%Z;
            face_detected_frames := face_detected_frames self |},
         analysis)
  end.

(** The state after analysing a sequence of frames. *)
Definition run (self : analyzer) (frames : list (option frame)) : analyzer :=
  foldl (λ s f, (analyze_frame s f).1) self frames.

(** [sum(history)] on a history of booleans. *)
Definition sum_bools (history : list bool) : Z :=
  foldr (λ b acc, (Z.b2z b + acc)%Z) 0%Z history.

(** [max] on strings: the greater in the order of their characters. *)
Definition str_max (a b : string) : string :=
  if String.ltb a b then b else a.

(** [max(set(history), default=dflt) if history else dflt] *)
Definition max_or (history : list string) (dflt : string) : string :=
  match history with
  | [] => dflt
  | x :: rest => foldl str_max x rest
  end.

Definition _calculate_engagement_score (self : analyzer) : PyNum.num :=
  let score :=
    match eye_contact_history self with
    | [] => PyNum.Int 50
    | _ =>
        PyNum.Float
          (50 + PyNum.truediv (sum_bools (eye_contact_history self))
                  (Z.of_nat (length (eye_contact_history self))) * 25)%Q
    end in
  PyNum.min (PyNum.Int 100) (PyNum.max (PyNum.Int 0) score).

Definition get_session_summary (self : analyzer) : pydict :=
  let total := total_frames self in
  let face_rate :=
    if (0 <? total)%Z
    then VFloat (PyNum.truediv (face_detected_frames self) total * 100)%Q
    else VInt 0 in
  let eye_pct :=
    match eye_contact_history self with
    | [] => VInt 0
    | _ =>
        VFloat
          (PyNum.truediv (sum_bools (eye_contact_history self))
             (Z.of_nat (length (eye_contact_history self))) * 100)%Q
    end in
  <["total_frames_analyzed" := VInt total]>
  (<["face_detection_rate" := face_rate]>
  (<["eye_contact_percentage" := eye_pct]>
  (<["dominant_emotion" := VStr (max_or (emotion_history self) "neutral")]>
  (<["dominant_posture" := VStr (max_or (posture_history self) "centered")]>
  (<["engagement_score" := VNum (_calculate_engagement_score self)]>
     ∅))))).

(** The labels [_analyze_emotion] and [_analyze_head_pose] return. *)
Definition emotions : list string := ["happy"; "focused"; "neutral"]%string.
Definition postures : list string :=
  ["looking_up"; "looking_down"; "centered"]%string.

(** What holds of the analyzer after any sequence of frames. *)
Definition consistent (self : analyzer) : Prop :=
  (0 <= face_detected_frames self <= total_frames self)%Z
  ∧ length (emotion_history self) = length (eye_contact_history self)
  ∧ length (posture_history self) = length (eye_contact_history self)
  ∧ length (eye_contact_history self) ≤ 100
  ∧ (Z.of_nat (length (eye_contact_history self))
     <= face_detected_frames self)%Z
  ∧ Forall (λ e, e ∈ emotions) (emotion_history self)
  ∧ Forall (λ p, p ∈ postures) (posture_history self).

(** The emotion that wins [max] among the three labels: [neutral] over
    [happy] over [focused]. *)
Definition greatest_emotion (history : list string) : string :=
  if bool_decide ("neutral" ∈ history) then "neutral"
  else if bool_decide ("happy" ∈ history) then "happy"
  else match history with [] => "neutral" | _ => "focused" end.

End Video.

(** ** The web application of [app_fixed.py]

    The routes are functions of the session store [interview_sessions]
    and of the decoded request; a route that changes the store returns the
    new one.  A stored question is the dictionary the question generator
    made; [upload_documents] reads [q['question']] of every question before
    it stores the session, so the key is present.  The JSON body of
    [submit_answer] is a dictionary whose [answer], if present, is a
    string.  Printing is not modelled. *)

Module App.

Definition ALLOWED_EXTENSIONS : gset string := {[ "pdf"; "docx"; "txt" ]}.

(** [s.rsplit('.', 1)]: the text before the last dot and the text after
    it, or the whole string when it holds no dot. *)
Fixpoint rsplit_dot (s : string) : list string :=
  match s with
  | EmptyString => [EmptyString]
  | String c rest =>
      match rsplit_dot rest with
      | [stem; ext] => [String c stem; ext]
      | _ => if Ascii.eqb c "." then [EmptyString; rest] else [String c rest]
      end
  end.

(** [allowed_file]; [None] is the [IndexError] of the subscript [[1]]. *)
Definition allowed_file (filename : string) : option bool :=
  if PyStr.contains "." filename then
    ext ← rsplit_dot filename !! 1%nat;
    Some (bool_decide (PyStr.lower ext ∈ ALLOWED_EXTENSIONS))
  else Some false.

Record question := {
  q_question : string;
  q_category : option string;
  q_difficulty : option string;
  q_focus_area : option string
}.

(** An entry of [session_data['answers']]. *)
Record answer_record := {
  a_question : string;
  a_answer : string;
  a_duration : value;
  a_analysis : pydict;
  a_feedback : list string;
  a_timestamp : string
}.

Record session := {
  resume_text : string;
  jd_text : string;
  questions : list question;
  answers : list answer_record;
  current_question : nat;
  created_at : string
}.

(** The JSON body of a submission. *)
Record submission := {
  sub_answer : option string;
  sub_duration : option value
}.

(** What the [except Exception] clause of a route can catch. *)
Inductive app_exn := Analyzer (e : exn) | IndexError.

(** The responses of [get_question]: 400, 404, 500 with the exception
    caught, and the two 200 bodies. *)
Inductive question_response :=
  | NoSessionId
  | UnknownSession
  | QuestionError (e : app_exn)
  | Completed
  | Question (question_number total_questions : Z)
      (text category difficulty focus_area : string).

(** The responses of [submit_answer]: 404, 500 with the exception caught,
    and 200 with the score, the feedback and [is_complete]. *)
Inductive submit_response :=
  | InvalidSession
  | ServerError (e : app_exn)
  | Accepted (score : value) (feedback : list string) (is_complete : bool).

Definition get_question (interview_sessions : gmap string session)
    (session_id : string) : question_response :=
  if negb (PyStr.truthy session_id) || bool_decide (session_id = "")
  then NoSessionId
  else
    match interview_sessions !! session_id with
    | None => UnknownSession
    | Some session_data =>
        let current_idx := current_question session_data in
        let questions := questions session_data in
        if bool_decide (length questions ≤ current_idx) then Completed
        else
          match questions !! current_idx with
          | None => QuestionError IndexError
          | Some question =>
              Question (Z.of_nat current_idx + 1) (Z.of_nat (length questions))
                (q_question question)
                (default "Resume-Based" (q_category question))
                (default "intermediate" (q_difficulty question))
                (default "" (q_focus_area question))
          end
    end.

Section Routes.

Context `{Collaborators}.

(** [submit_answer]; [now] is [datetime.now().isoformat()]. *)
Definition submit_answer (now : string)
    (interview_sessions : gmap string session) (session_id : string)
    (data : submission) : submit_response * gmap string session :=
  match interview_sessions !! session_id with
  | None => (InvalidSession, interview_sessions)
  | Some session_data =>
      let answer_text := default "" (sub_answer data) in
      let duration := default (VInt 0) (sub_duration data) in
      let current_idx := current_question session_data in
      match questions session_data !! current_idx with
      | None => (ServerError IndexError, interview_sessions)
      | Some question =>
          match analyze_answer answer_text (q_question question) None 0 with
          | Raise e => (ServerError (Analyzer e), interview_sessions)
          | Ok analysis =>
              match get_feedback analysis with
              | Raise e => (ServerError (Analyzer e), interview_sessions)
              | Ok feedback =>
                  match Py.getitem analysis "overall_score" with
                  | Raise e => (ServerError (Analyzer e), interview_sessions)
                  | Ok score =>
                      let record :=
                        {| a_question := q_question question;
                           a_answer := answer_text;
                           a_duration := duration;
                           a_analysis := analysis;
                           a_feedback := feedback;
                           a_timestamp := now |} in
                      let session_data :=
                        {| resume_text := resume_text session_data;
                           jd_text := jd_text session_data;
                           questions := questions session_data;
                           answers := answers session_data ++ [record];
                           current_question := S current_idx;
                           created_at := created_at session_data |} in
                      let is_complete :=
                        bool_decide (length (questions session_data)
                                     ≤ current_question session_data) in
                      (Accepted score (take 3 feedback) is_complete,
                       <[session_id := session_data]> interview_sessions)
                  end
              end
          end
      end
  end.

(** Submitting a sequence of bodies to one session, one after the other,
    each at its own time; the responses are kept in order. *)
Fixpoint submit_all (interview_sessions : gmap string session)
    (session_id : string) (bodies : list (string * submission))
  : list submit_response * gmap string session :=
  match bodies with
  | [] => ([], interview_sessions)
  | (now, data) :: rest =>
      let '(response, store) :=
        submit_answer now interview_sessions session_id data in
      let '(responses, store) := submit_all store session_id rest in
      (response :: responses, store)
  end.

End Routes.

(** The session [upload_documents] stores for the generated questions. *)
Definition new_session (resume jd : string) (all_questions : list question)
    (now : string) : session :=
  {| resume_text := resume; jd_text := jd; questions := all_questions;
     answers := []; current_question := 0; created_at := now |}.

(** The number of answers recorded is the index of the current question. *)
Definition in_step (s : session) : Prop :=
  length (answers s) = current_question s.

End App.

(** ** The interview system of [interview_system.py]

    [interview_data] and the entries of its [questions] are records of
    the keys the code reads and writes; [setup_interview] creates every
    question with the keys [answer], [analysis] and [feedback].  The
    speech recogniser is a collaborator: what [listen] returned for a
    question is an argument.  Printing, speaking and sleeping are not
    modelled. *)

Module Interview.

Definition geb (a b : PyNum.num) : bool :=
  Qle_bool (PyNum.to_Q b) (PyNum.to_Q a).

Record q_data := {
  question : string;
  category : string;
  difficulty : string;
  focus_area : string;
  answer : string;
  analysis : pydict;
  feedback : list string;
  audio_analysis : option pydict
}.

Record interview_data := {
  timestamp : string;
  questions : list q_data;
  overall_score : PyNum.num;
  metrics : pydict;
  detailed_metrics : pydict;
  video_analysis : pydict;
  strengths : list string;
  improvements : list string
}.



(** [interview_data] after [__init__]. *)
Definition init (now : string) : interview_data :=
  {| timestamp := now; questions := []; overall_score := PyNum.Int 0;
     metrics := ∅; detailed_metrics := ∅; video_analysis := ∅;
     strengths := []; improvements := [] |}.

(** One branch of [_identify_strengths_improvements]:
    [if v >= high: strengths.append(..) elif v < low: improvements.append(..)] *)
Definition rate (v : value) (high low : Z) (strength improvement : string)
    (lists : list string * list string)
  : result (list string * list string) :=
  x ← Py.as_num v;
  if geb x (PyNum.Int high)
  then mret (lists.1 ++ [strength], lists.2)
  else if PyNum.ltb x (PyNum.Int low)
  then mret (lists.1, lists.2 ++ [improvement])
  else mret lists.

Definition _identify_strengths_improvements (self : interview_data)
  : result interview_data :=
  let metrics := metrics self in
  let video := video_analysis self in
  lists ← rate (default (VInt 0) (metrics !! "content_score")) 75 60
    "Strong content quality with good examples and details"
    "Provide more specific examples and quantifiable achievements"
    ([], []);
  lists ← rate (default (VInt 0) (metrics !! "clarity_score")) 75 60
    "Clear and articulate communication"
    "Improve clarity by reducing filler words and organizing thoughts better"
    lists;
  lists ← rate (default (VInt 0) (metrics !! "confidence_score")) 75 60
    "Confident and positive demeanor"
    "Build confidence through more preparation and practice"
    lists;
  lists ← rate (default (VInt 0) (metrics !! "professionalism_score")) 75 60
    "Professional language and tone"
    "Use more professional language and avoid casual expressions"
    lists;
  lists ← rate (default (VInt 0) (video !! "eye_contact_percentage")) 70 50
    "Good eye contact and engagement"
    "Maintain better eye contact with the camera"
    lists;
  mret {| timestamp := timestamp self;
          questions := questions self;
          overall_score := overall_score self;
          metrics := metrics;
          detailed_metrics := detailed_metrics self;
          video_analysis := video;
          strengths :=
            match lists.1 with
            | [] => ["Shows potential for growth"]
            | _ => lists.1
            end;
          improvements :=
            match lists.2 with
            | [] => ["Continue practicing"]
            | _ => lists.2
            end |}.





(** [self.config.get(key, dflt)] *)
Definition weight (config : pydict) (key : string) (dflt : Q) : value :=
  default (VFloat dflt) (config !! key).


(** The keys of [metrics]. *)
Definition score_keys : list string :=
  ["content_score"; "clarity_score"; "confidence_score";
   "professionalism_score"].


Section Questions.

Context `{Collaborators}.

(** What [run_interview] stores for a question that got no answer. *)
Definition unanswered (q : q_data) : q_data :=
  {| question := question q; category := category q;
     difficulty := difficulty q; focus_area := focus_area q;
     answer := "";
     analysis := _get_empty_analysis;
     feedback := ["No answer provided"];
     audio_analysis := audio_analysis q |}.

(** The body of the loop of [run_interview] from the return of [listen]:
    [answer_text] is the text heard, or [None]. *)
Definition record_answer (q : q_data) (answer_text : option string)
    (audio : pydict) : result q_data :=
  match answer_text with
  | Some text =>
      if PyStr.truthy text then
        analysis ← analyze_answer text (question q) None 0;
        feedback ← get_feedback analysis;
        _ ← Py.getitem analysis "overall_score";
        mret {| question := question q; category := category q;
                difficulty := difficulty q;
                focus_area := focus_area q;
                answer := text;
                analysis := analysis;
                feedback := feedback;
                audio_analysis := Some audio |}
      else mret (unanswered q)
  | None => mret (unanswered q)
  end.

(** The analysis of a question is the empty one of [setup_interview], or a
    bundle [analyze_answer] returned. *)
Definition analysed (q : q_data) : Prop :=
  analysis q = ∅
  ∨ ∃ answer question video_data duration,
      analyze_answer answer question video_data duration
      = Ok (analysis q).

End Questions.

End Interview.

(** ** The action items of [report_generator.py] *)

Module Report.

(** [data.get(part, {}).get(name, 100) < limit] *)
Definition below (data : pydict) (part name : string) (limit : Z)
  : result bool :=
  score ← Py.get_default (default (VDict ∅) (data !! part)) name (VInt 100);
  Py.lt score (PyNum.Int limit).

Definition _generate_action_items (data : pydict) : result (list string) :=
  let action_items := [] in
  low ← below data "metrics" "content_score" 70;
  let action_items :=
    if (low : bool)
    then action_items
         ++ ["Practice using the STAR method (Situation, Task, Action, Result) to structure your answers"]
    else action_items in
  low ← below data "metrics" "clarity_score" 70;
  let action_items :=
    if (low : bool)
    then action_items
         ++ ["Record yourself answering common questions and listen for clarity improvements"]
    else action_items in
  low ← below data "metrics" "confidence_score" 70;
  let action_items :=
    if (low : bool)
    then action_items
         ++ ["Build confidence by researching the company thoroughly and preparing answers in advance"]
    else action_items in
  low ← below data "video_analysis" "eye_contact_percentage" 60;
  let action_items :=
    if (low : bool)
    then action_items
         ++ ["Practice maintaining eye contact with the camera during mock interviews"]
    else action_items in
  let action_items :=
    match action_items with
    | [] =>
        ["Continue practicing with diverse question types";
         "Research industry-specific terminology and trends";
         "Refine your personal stories and achievements"]
    | _ => action_items
    end in
  mret (take 5 action_items).

(** The three items given when no rule applies. *)
Definition general_items : list string :=
  ["Continue practicing with diverse question types";
   "Research industry-specific terminology and trends";
   "Refine your personal stories and achievements"].

(** The readings the rules test, each with its limit. *)
Definition rules : list (string * string * Z) :=
  [("metrics", "content_score", 70%Z); ("metrics", "clarity_score", 70%Z);
   ("metrics", "confidence_score", 70%Z);
   ("video_analysis", "eye_contact_percentage", 60%Z)].

End Report.

(** ** Sample data *)

Module Sample.

(** A bundle whose seven scores are 80. *)
Definition even_bundle : pydict :=
  <["content_quality" := VDict (<["quality_score" := VInt 80]> ∅)]>
  (<["relevance" := VDict (<["relevance_score" := VInt 80]> ∅)]>
  (<["clarity" := VDict (<["clarity_score" := VInt 80]> ∅)]>
  (<["sentiment" := VDict (<["confidence_level" := VInt 80]> ∅)]>
  (<["professionalism" :=
       VDict (<["professionalism_score" := VInt 80]> ∅)]>
  (<["speech_features" := VDict (<["fluency_score" := VInt 80]> ∅)]>
  (<["facial_expressions" :=
       VDict (<["confidence_level" := VInt 80]> ∅)]> ∅)))))).

(** The facial analysis of the attentive video signal. *)
Definition attentive_facial : pydict :=
  <["confidence_level" := VInt 100]>
  (<["nervousness" := VStr "low"]>
  (<["eye_contact" := VStr "excellent"]>
  (<["eye_contact_percentage" := VInt 80]>
  (<["dominant_emotion" := VStr "happy"]>
  (<["engagement_score" := VInt 95]> ∅))))).

(** A video signal with none of the keys the facial analyzer reads. *)
Definition bare_video : pydict := <["total_frames_analyzed" := VInt 10]> ∅.

Definition question : App.question :=
  {| App.q_question := Plain.python_question;
     App.q_category := Some "technical";
     App.q_difficulty := None;
     App.q_focus_area := None |}.

(** A store with one session of one question, as [upload_documents] makes
    it. *)
Definition store : gmap string App.session :=
  {[ "s1" := App.new_session "resume" "job description" [question]
               "2024-01-01T10:00:00" ]}.

Definition blank_submission : App.submission :=
  {| App.sub_answer := Some "   "; App.sub_duration := Some (VInt 3) |}.

Definition submission : App.submission :=
  {| App.sub_answer := Some Plain.python_answer;
     App.sub_duration := Some (VInt 30) |}.


(** Interview data with its metrics set. *)
Definition scored_interview : Interview.interview_data :=
  {| Interview.timestamp := "2024-01-01 10:00:00";
     Interview.questions := [];
     Interview.overall_score := PyNum.Float 66;
     Interview.metrics :=
       <["content_score" := VFloat 80]>
       (<["clarity_score" := VFloat 55]>
       (<["confidence_score" := VFloat 70]>
       (<["professionalism_score" := VFloat 60]> ∅)));
     Interview.detailed_metrics := ∅;
     Interview.video_analysis := ∅;
     Interview.strengths := [];
     Interview.improvements := [] |}.

(** Report data with a low content score. *)
Definition report_data : pydict :=
  <["metrics" := VDict (<["content_score" := VFloat 55]> ∅)]> ∅.

End Sample.

(** * Properties *)

Example count_dots3 : PyStr.count "wait... ok" "..." = 1.
Proof. reflexivity. Qed.
Example count_dots2 : PyStr.count "wait... ok.." ".." = 2.
Proof. reflexivity. Qed.
Example count_nonoverlap : PyStr.count "aaaa" "aa" = 2.
Proof. reflexivity. Qed.
Example stutter_one : PyStr.count_stutters "um uh okay yeah we we built it" = 1.
Proof. reflexivity. Qed.
Example stutter_two : PyStr.count_stutters "um um um um" = 2.
Proof. reflexivity. Qed.
Example stutter_prefix : PyStr.count_stutters "the then" = 0.
Proof. reflexivity. Qed.
Example strip_blank : PyStr.strip "  " = "" /\ PyStr.strip " a b  " = "a b".
Proof. split; reflexivity. Qed.
Example round_ties :
  PyNum.round_float 1 (5 # 100) = (0 # 10)%Q /\
  PyNum.round_float 1 (15 # 100) = (2 # 10)%Q /\
  PyNum.round_float 1 (-(15 # 100)) = (-2 # 10)%Q.
Proof. repeat split; reflexivity. Qed.

Example plain_tokens :
  word_tokenize "what is your experience with python?"
  = ["what"; "is"; "your"; "experience"; "with"; "python"; "?"]%string.
Proof. reflexivity. Qed.

Example plain_sentences :
  sent_tokenize "I did it. It worked!" = ["I did it."; " It worked!"]%string.
Proof. reflexivity. Qed.

(** ** Numbers *)

Lemma round_half_even_bounds (lo hi : Z) (q : Q) :
  (inject_Z lo <= q <= inject_Z hi)%Q →
  (lo <= PyNum.round_half_even q <= hi)%Z.
Proof.
  intros [Hlo Hhi]. unfold PyNum.round_half_even.
  pose proof (Qfloor_le q) as Hfl.
  assert (Hn : (lo <= Qfloor q)%Z).
  { rewrite <- (Qfloor_Z lo). by apply Qfloor_resp_le. }
  assert (Hup : (inject_Z (Qfloor q) < q)%Q → (Qfloor q + 1 <= hi)%Z).
  { intros Hlt. cut (Qfloor q < hi)%Z; [lia|].
    rewrite Zlt_Qlt. eapply Qlt_le_trans; eauto. }
  destruct (q - inject_Z (Qfloor q) ?= 1 # 2)%Q eqn:Hc.
  - apply Qeq_alt in Hc. destruct (Z.even (Qfloor q)).
    + split; [done|]. rewrite Zle_Qle. eapply Qle_trans; eauto.
    + split; [lia|]. apply Hup. lra.
  - split; [done|]. rewrite Zle_Qle. eapply Qle_trans; eauto.
  - apply Qgt_alt in Hc. split; [lia|]. apply Hup. lra.
Qed.

Lemma round_float_1_bounds (q : Q) :
  (0 <= q <= 100)%Q → (0 <= PyNum.round_float 1 q <= 100)%Q.
Proof.
  intros [H0 H100]. unfold PyNum.round_float.
  change (Z.pos (10 ^ Pos.of_nat 1)) with 10%Z.
  change (10 ^ Pos.of_nat 1)%positive with 10%positive.
  destruct (round_half_even_bounds 0 1000 (q * inject_Z 10)) as [Hl Hu].
  { change (inject_Z 0) with 0%Q. change (inject_Z 1000) with 1000%Q.
    change (inject_Z 10) with 10%Q. split; lra. }
  unfold Qle; simpl. lia.
Qed.

Lemma round_half_even_proper (q q' : Q) :
  (q == q')%Q → PyNum.round_half_even q = PyNum.round_half_even q'.
Proof.
  intros Heq. unfold PyNum.round_half_even.
  rewrite (Qfloor_comp _ _ Heq).
  assert (Hc : ((q - inject_Z (Qfloor q') ?= 1 # 2) = (q' - inject_Z (Qfloor q') ?= 1 # 2))%Q).
  { apply Qcompare_comp; [by rewrite Heq | done]. }
  by rewrite Hc.
Qed.


Lemma ltb_lt a b : PyNum.ltb a b = true ↔ (PyNum.to_Q a < PyNum.to_Q b)%Q.
Proof.
  unfold PyNum.ltb. rewrite negb_true_iff, <- not_true_iff_false, Qle_bool_iff.
  split; [apply Qnot_le_lt | apply Qlt_not_le].
Qed.

Lemma clamp_bounds n :
  (0 <= PyNum.to_Q (PyNum.max (PyNum.Int 0) (PyNum.min (PyNum.Int 100) n))
   <= 100)%Q.
Proof.
  unfold PyNum.max, PyNum.min, PyNum.gtb.
  destruct (PyNum.ltb n (PyNum.Int 100)) eqn:Hhi.
  - apply ltb_lt in Hhi. simpl in Hhi.
    destruct (PyNum.ltb (PyNum.Int 0) n) eqn:Hlo.
    + apply ltb_lt in Hlo. simpl in Hlo.
      change (inject_Z 0) with 0%Q in Hlo.
      change (inject_Z 100) with 100%Q in Hhi. lra.
    + simpl. done.
  - destruct (PyNum.ltb (PyNum.Int 0) (PyNum.Int 100)); simpl; done.
Qed.

Lemma round_bounds n :
  (0 <= PyNum.to_Q n <= 100)%Q → (0 <= PyNum.to_Q (PyNum.round 1 n) <= 100)%Q.
Proof.
  destruct n as [z|q]; simpl; [done|]. apply round_float_1_bounds.
Qed.

Lemma int_bounds z : (0 <= z <= 100)%Z → (0 <= PyNum.to_Q (PyNum.Int z) <= 100)%Q.
Proof.
  intros [H0 H1]. simpl. change 0%Q with (inject_Z 0).
  change 100%Q with (inject_Z 100). by rewrite <- !Zle_Qle.
Qed.


(** ** Strings *)

Lemma lstrip_all_space s :
  PyStr.all_chars PyStr.is_space s = true → PyStr.lstrip s = "".
Proof.
  induction s as [|c s IH]; simpl; [done|].
  intros [Hc Hs]%andb_prop. rewrite Hc. auto.
Qed.

Lemma lstrip_empty_all_space s :
  PyStr.lstrip s = "" → PyStr.all_chars PyStr.is_space s = true.
Proof.
  induction s as [|c s IH]; simpl; [done|].
  destruct (PyStr.is_space c); [auto | discriminate].
Qed.

Lemma rev_app_all_chars p s1 s2 :
  PyStr.all_chars p (String.rev_app s1 s2)
  = PyStr.all_chars p s1 && PyStr.all_chars p s2.
Proof.
  revert s2. induction s1 as [|c s1 IH]; intros s2; simpl; [done|].
  rewrite IH. simpl. destruct (p c), (PyStr.all_chars p s1); simpl; auto.
Qed.

Lemma rev_all_chars p s :
  PyStr.all_chars p (String.rev s) = PyStr.all_chars p s.
Proof.
  unfold String.rev. rewrite rev_app_all_chars. simpl. apply andb_true_r.
Qed.

Lemma rev_app_empty s1 s2 : String.rev_app s1 s2 = "" → s1 = "" ∧ s2 = "".
Proof.
  revert s2. induction s1 as [|c s1 IH]; intros s2; simpl; [done|].
  intros [_ ?]%IH. discriminate.
Qed.

Lemma lstrip_suffix_all_space s :
  PyStr.all_chars PyStr.is_space (PyStr.lstrip s)
  = PyStr.all_chars PyStr.is_space s.
Proof.
  induction s as [|c s IH]; simpl; [done|].
  destruct (PyStr.is_space c) eqn:Hc; simpl; [done|]. by rewrite Hc.
Qed.

(** [answer.strip()] is empty exactly when [answer] is made of white space
    only (the empty string included). *)
Lemma strip_empty_iff s :
  PyStr.strip s = "" ↔ PyStr.all_chars PyStr.is_space s = true.
Proof.
  unfold PyStr.strip, PyStr.rstrip. split.
  - intros Hs. unfold String.rev at 1 in Hs.
    apply rev_app_empty in Hs as [Hs _].
    apply lstrip_empty_all_space in Hs.
    rewrite rev_all_chars, lstrip_suffix_all_space in Hs. done.
  - intros Hs.
    rewrite (lstrip_all_space (String.rev (PyStr.lstrip s))); [done|].
    by rewrite rev_all_chars, lstrip_suffix_all_space.
Qed.

(** *** Counting runs of dots *)

Lemma startswith_cons_ne sub c d s :
  c ≠ d → PyStr.startswith (String c sub) (String d s) = false.
Proof.
  intros Hne. unfold PyStr.startswith. simpl String.prefix.
  destruct (ascii_dec c d); [done|reflexivity].
Qed.

Lemma startswith_cons_eq sub c s :
  PyStr.startswith (String c sub) (String c s) = PyStr.startswith sub s.
Proof.
  unfold PyStr.startswith. simpl String.prefix.
  destruct (ascii_dec c c); [done|congruence].
Qed.

Lemma startswith_empty s : PyStr.startswith "" s = true.
Proof. by destruct s. Qed.

(** Whether [s] starts with two dots depends on its first two characters
    only. *)
Lemma startswith_two_dots_head c c' x y :
  PyStr.startswith ".." (String c (String c' x))
  = PyStr.startswith ".." (String c (String c' y)).
Proof.
  destruct (ascii_dec "."%char c) as [<-|Hc].
  2: { by rewrite !startswith_cons_ne. }
  rewrite !startswith_cons_eq.
  destruct (ascii_dec "."%char c') as [<-|Hc'].
  2: { by rewrite !startswith_cons_ne. }
  by rewrite !startswith_cons_eq, !startswith_empty.
Qed.

(** A pattern that begins with two dots occurs only where two dots are. *)
Lemma startswith_two_dots sub s :
  PyStr.startswith (String "." (String "." sub)) s = true →
  PyStr.startswith ".." s = true.
Proof.
  destruct s as [|a [|b s]]; [done| |].
  - unfold PyStr.startswith. simpl String.prefix.
    by destruct (ascii_dec "." a).
  - destruct (ascii_dec "."%char a) as [<-|Ha].
    2: { by rewrite startswith_cons_ne. }
    destruct (ascii_dec "."%char b) as [<-|Hb].
    2: { rewrite startswith_cons_eq. by rewrite startswith_cons_ne. }
    intros _. by rewrite !startswith_cons_eq, startswith_empty.
Qed.

Lemma count_from_no_dots sub skip s :
  PyStr.contains ".." s = false →
  PyStr.count_from (String "." (String "." sub)) skip s = 0%nat.
Proof.
  revert skip. induction s as [|c s IH]; intros skip Hs; [done|].
  simpl in Hs. apply orb_false_elim in Hs as [Hhead Htail].
  simpl. destruct skip as [|k]; [|by apply IH].
  destruct (PyStr.startswith (String "." (String "." sub)) (String c s))
    eqn:Hsw.
  - apply startswith_two_dots in Hsw. congruence.
  - by apply IH.
Qed.

Lemma count_from_skip_prefix sub pre rest :
  PyStr.contains ".." (pre +:+ ".") = false →
  PyStr.count_from (String "." (String "." sub)) 0 (pre +:+ rest)
  = PyStr.count_from (String "." (String "." sub)) 0 rest.
Proof.
  induction pre as [|c pre IH]; intros Hpre; [done|].
  simpl in Hpre. apply orb_false_elim in Hpre as [Hhead Htail].
  change (String c pre +:+ rest) with (String c (pre +:+ rest)).
  simpl.
  destruct (PyStr.startswith (String "." (String "." sub))
              (String c (pre +:+ rest))) eqn:Hsw.
  - apply startswith_two_dots in Hsw.
    destruct pre as [|c' pre].
    + destruct (ascii_dec "."%char c) as [<-|Hc].
      * by rewrite startswith_cons_eq in Hhead.
      * by rewrite startswith_cons_ne in Hsw.
    + change (String c' pre +:+ ?x) with (String c' (pre +:+ x)) in *.
      rewrite (startswith_two_dots_head c c' _ (pre +:+ rest)) in Hhead.
      congruence.
  - by apply IH.
Qed.

Lemma contains_tail sub c s :
  PyStr.contains sub (String c s) = false → PyStr.contains sub s = false.
Proof. simpl. by intros [_ ?]%orb_false_elim. Qed.

(** A text with one ["..."] and no other run of dots holds one ["..."] and
    one [".."]. *)
Lemma count_single_ellipsis pre post :
  PyStr.contains ".." (pre +:+ ".") = false →
  PyStr.contains ".." (String "." post) = false →
  PyStr.count (pre +:+ "..." +:+ post) "..." = 1%nat
  ∧ PyStr.count (pre +:+ "..." +:+ post) ".." = 1%nat.
Proof.
  intros Hpre Hpost. unfold PyStr.count.
  rewrite (count_from_skip_prefix "." pre), (count_from_skip_prefix "" pre)
    by done.
  change ("..." +:+ post) with (String "." (String "." (String "." post))).
  split.
  - simpl. rewrite !startswith_cons_eq, startswith_empty.
    rewrite (count_from_no_dots "." 0 post); [done|].
    by apply contains_tail in Hpost.
  - simpl. rewrite !startswith_cons_eq.
    assert (Hhead : PyStr.startswith "." post = false).
    { simpl in Hpost. apply orb_false_elim in Hpost as [Hhead _].
      by rewrite startswith_cons_eq in Hhead. }
    rewrite Hhead, (count_from_no_dots "" 0 post); [done|].
    by apply contains_tail in Hpost.
Qed.

Section Properties.

Context `{Collaborators}.

Local Open Scope Z_scope.

(** The guard of [analyze_answer] fires exactly on answers made of white
    space only. *)
Lemma is_blank_iff answer :
  is_blank answer = true ↔ PyStr.all_chars PyStr.is_space answer = true.
Proof.
  unfold is_blank. rewrite <- strip_empty_iff.
  destruct answer as [|c s]; simpl; [done|].
  destruct (PyStr.strip (String c s)); simpl; split; congruence.
Qed.

(** ** The placeholder bundle *)

(** C3. If the answer is empty or made of white space only, then for
    every question, video signal and duration [analyze_answer] returns,
    without raising, the placeholder bundle of [_get_empty_analysis]: no
    analyzer runs, each designated score of the bundle is 0 and
    [overall_score] is 0. *)
Theorem analyze_answer_blank answer question video_data duration :
  PyStr.all_chars PyStr.is_space answer = true →
  analyze_answer answer question video_data duration
    = Ok _get_empty_analysis
  ∧ field _get_empty_analysis "content_quality" "quality_score"
    = Some (VInt 0)
  ∧ field _get_empty_analysis "relevance" "relevance_score" = Some (VInt 0)
  ∧ field _get_empty_analysis "clarity" "clarity_score" = Some (VInt 0)
  ∧ field _get_empty_analysis "sentiment" "confidence_level"
    = Some (VInt 0)
  ∧ field _get_empty_analysis "professionalism" "professionalism_score"
    = Some (VInt 0)
  ∧ field _get_empty_analysis "speech_features" "fluency_score"
    = Some (VInt 0)
  ∧ field _get_empty_analysis "facial_expressions" "confidence_level"
    = Some (VInt 0)
  ∧ _get_empty_analysis !! "overall_score" = Some (VInt 0).
Proof.
  intros Hblank%is_blank_iff. split.
  - unfold analyze_answer. by rewrite Hblank.
  - repeat split; reflexivity.
Qed.

(** ** The bundle of a non-blank answer *)

Lemma score_of_field analysis part name v :
  field analysis part name = Some v → score_of analysis part name = Ok v.
Proof.
  unfold field, score_of, Py.getitem.
  destruct (analysis !! part) as [[| | |d]|]; try done.
  simpl. unfold Py.getitem. by intros ->.
Qed.

Lemma score_or_70_field analysis part name v :
  field analysis part name = Some v → score_or_70 analysis part name = Ok v.
Proof.
  unfold field, score_or_70, Py.get_default.
  destruct (analysis !! part) as [[| | |d]|]; try done.
  simpl. by intros ->.
Qed.

(** The aggregator on a bundle that holds all seven scores. *)
Lemma calculate_overall_score_present analysis n1 n2 n3 n4 n5 n6 n7 :
  field analysis "content_quality" "quality_score" = Some (VNum n1) →
  field analysis "relevance" "relevance_score" = Some (VNum n2) →
  field analysis "clarity" "clarity_score" = Some (VNum n3) →
  field analysis "sentiment" "confidence_level" = Some (VNum n4) →
  field analysis "professionalism" "professionalism_score"
    = Some (VNum n5) →
  field analysis "speech_features" "fluency_score" = Some (VNum n6) →
  field analysis "facial_expressions" "confidence_level" = Some (VNum n7) →
  _calculate_overall_score analysis
  = Ok (PyNum.round_float 1
          (weighted_sum (PyNum.to_Q n1) (PyNum.to_Q n2) (PyNum.to_Q n3)
             (PyNum.to_Q n4) (PyNum.to_Q n5) (PyNum.to_Q n6)
             (PyNum.to_Q n7))).
Proof.
  intros H1 H2 H3 H4 H5 H6 H7. unfold _calculate_overall_score.
  rewrite (score_of_field _ _ _ _ H1), (score_of_field _ _ _ _ H2),
    (score_of_field _ _ _ _ H3), (score_of_field _ _ _ _ H4),
    (score_of_field _ _ _ _ H5), (score_or_70_field _ _ _ _ H6),
    (score_or_70_field _ _ _ _ H7).
  reflexivity.
Qed.

(** What [analyze_answer] returns for an answer that passes the guard,
    given the facial analysis [fd] and the confidence [nf] the aggregator
    reads from it. *)
Lemma analyze_answer_nonblank answer question video_data duration fd nf :
  is_blank answer = false →
  facial_analysis video_data = Ok fd →
  facial_or_70 fd = VNum nf →
  ∃ b,
    analyze_answer answer question video_data duration = Ok b
    ∧ b !! "text_metrics" = Some (VDict (_analyze_text_metrics answer))
    ∧ b !! "content_quality"
      = Some (VDict (_analyze_content_quality answer question))
    ∧ b !! "sentiment" = Some (VDict (_analyze_sentiment answer))
    ∧ b !! "relevance" = Some (VDict (_analyze_relevance answer question))
    ∧ b !! "clarity" = Some (VDict (_analyze_clarity answer))
    ∧ b !! "professionalism"
      = Some (VDict (_analyze_professionalism answer))
    ∧ b !! "speech_features"
      = Some (VDict (_analyze_speech_features answer duration))
    ∧ b !! "facial_expressions" = Some (VDict fd)
    ∧ b !! "overall_score"
      = Some (VFloat
                (PyNum.round_float 1
                   (weighted_sum
                      (inject_Z (quality_score answer))
                      (PyNum.to_Q
                         (PyNum.round 1 (relevance answer question)))
                      (inject_Z (clarity_score answer))
                      (PyNum.to_Q
                         (PyNum.round 1 (sentiment_confidence answer)))
                      (inject_Z (prof_score answer))
                      (inject_Z (fluency_score answer duration))
                      (PyNum.to_Q nf)))).
Proof.
  intros Hblank Hfd Hnf. unfold analyze_answer. rewrite Hblank, Hfd.
  simpl.
  match goal with |- context [_calculate_overall_score ?a] =>
    set (analysis := a) end.
  assert (Hov : _calculate_overall_score analysis
     = Ok (PyNum.round_float 1
             (weighted_sum
                (inject_Z (quality_score answer))
                (PyNum.to_Q (PyNum.round 1 (relevance answer question)))
                (inject_Z (clarity_score answer))
                (PyNum.to_Q (PyNum.round 1 (sentiment_confidence answer)))
                (inject_Z (prof_score answer))
                (inject_Z (fluency_score answer duration))
                (PyNum.to_Q nf)))).
  { unfold _calculate_overall_score.
    rewrite (score_of_field analysis "content_quality" "quality_score"
               (VInt (quality_score answer))) by reflexivity.
    rewrite (score_of_field analysis "relevance" "relevance_score"
               (VNum (PyNum.round 1 (relevance answer question))))
      by reflexivity.
    rewrite (score_of_field analysis "clarity" "clarity_score"
               (VInt (clarity_score answer))) by reflexivity.
    rewrite (score_of_field analysis "sentiment" "confidence_level"
               (VNum (PyNum.round 1 (sentiment_confidence answer))))
      by reflexivity.
    rewrite (score_of_field analysis "professionalism"
               "professionalism_score" (VInt (prof_score answer)))
      by reflexivity.
    assert (Hsp : score_or_70 analysis "speech_features" "fluency_score"
                  = Ok (VInt (fluency_score answer duration)))
      by reflexivity.
    assert (Hfa : score_or_70 analysis "facial_expressions"
                    "confidence_level" = Ok (VNum nf)).
    { rewrite <- Hnf. reflexivity. }
    rewrite Hsp, Hfa. reflexivity. }
  rewrite Hov. eexists. split; [reflexivity|].
  repeat split; reflexivity.
Qed.

(** ** The facial analysis *)

Lemma as_num_number v : is_number v → ∃ n, Py.as_num v = Ok n.
Proof. destruct v; simpl; try done; eauto. Qed.

(** Whenever the facial analysis returns, the confidence the aggregator
    reads from it is a number between 0 and 100. *)
Lemma facial_analysis_confidence video_data fd :
  facial_analysis video_data = Ok fd →
  ∃ nf, facial_or_70 fd = VNum nf ∧ (0 <= PyNum.to_Q nf <= 100)%Q.
Proof.
  unfold facial_analysis.
  destruct (video_truthy video_data) eqn:Htruthy.
  - destruct video_data as [d|]; [|done].
    unfold _analyze_facial_expressions. rewrite Htruthy.
    destruct (Py.lt _ (PyNum.Int 50)) as [low|]; [|done].
    destruct (Py.lt _ (PyNum.Int 70)) as [mid|]; [|done].
    destruct (Py.as_num (default (VInt 70) _)) as [eng|]; [|done].
    destruct (Py.as_num (default (VInt 60) _)) as [pct|]; [|done].
    simpl. intros [= <-]. unfold facial_or_70.
    rewrite lookup_insert_eq. simpl. eexists. split; [done|].
    apply round_bounds, clamp_bounds.
  - intros [= <-]. exists (PyNum.Int 70). split; [done|].
    by apply int_bounds.
Qed.

(** A well-typed video signal never makes the facial analysis raise. *)
Lemma facial_analysis_total video_data :
  video_well_typed video_data → ∃ fd, facial_analysis video_data = Ok fd.
Proof.
  intros Hwt. unfold facial_analysis.
  destruct (video_truthy video_data) eqn:Htruthy; [|eauto].
  destruct video_data as [d|]; [|done]. destruct Hwt as [Heng Hpct].
  unfold _analyze_facial_expressions. rewrite Htruthy.
  assert (He : is_number (default (VInt 70) (d !! "engagement_score"))).
  { destruct (d !! "engagement_score") eqn:E; simpl; auto. }
  assert (Hp : is_number
                 (default (VInt 60) (d !! "eye_contact_percentage"))).
  { destruct (d !! "eye_contact_percentage") eqn:E; simpl; auto. }
  apply as_num_number in He as [e He], Hp as [p Hp].
  unfold Py.lt. rewrite He, Hp. simpl. eauto.
Qed.

Lemma facial_analysis_present video_data fd :
  video_truthy video_data = true →
  facial_analysis video_data = Ok fd →
  is_Some (fd !! "confidence_level").
Proof.
  unfold facial_analysis. intros Htruthy. rewrite Htruthy.
  destruct video_data as [d|]; [|done].
  unfold _analyze_facial_expressions. rewrite Htruthy.
  destruct (Py.lt _ (PyNum.Int 50)) as [low|]; [|done].
  destruct (Py.lt _ (PyNum.Int 70)) as [mid|]; [|done].
  destruct (Py.as_num (default (VInt 70) _)) as [eng|]; [|done].
  destruct (Py.as_num (default (VInt 60) _)) as [pct|]; [|done].
  simpl. intros [= <-]. rewrite lookup_insert_eq. eauto.
Qed.

(** ** Ranges of the scores *)

Lemma quality_score_bounds text : 0 <= quality_score text <= 100.
Proof.
  unfold quality_score.
  destruct (has_numbers text), (has_examples text),
    (has_quantification text), (has_situation text), (has_task text),
    (has_action text), (has_result text); lia.
Qed.

Lemma clarity_score_bounds text : 0 <= clarity_score text <= 100.
Proof. unfold clarity_score. lia. Qed.

Lemma prof_score_bounds text : 0 <= prof_score text <= 100.
Proof. unfold prof_score. lia. Qed.

Lemma fluency_score_bounds text duration :
  0 <= fluency_score text duration <= 100.
Proof. unfold fluency_score. lia. Qed.

Lemma truediv_nonneg a b : 0 <= a → 0 <= b → (0 <= PyNum.truediv a b)%Q.
Proof.
  intros Ha Hb. unfold PyNum.truediv, Qdiv.
  apply Qmult_le_0_compat.
  - change 0%Q with (inject_Z 0). by rewrite <- Zle_Qle.
  - apply Qinv_le_0_compat. change 0%Q with (inject_Z 0).
    by rewrite <- Zle_Qle.
Qed.

Lemma relevance_bounds answer question :
  (0 <= PyNum.to_Q (relevance answer question) <= 100)%Q.
Proof.
  unfold relevance.
  set (rel := if bool_decide _ then _ else _).
  assert (Hrel : (0 <= PyNum.to_Q rel)%Q).
  { subst rel. case_bool_decide; simpl; [done|].
    match goal with |- context [PyNum.truediv ?a ?b] =>
      assert (0 <= PyNum.truediv a b)%Q by (apply truediv_nonneg; lia)
    end.
    lra. }
  unfold PyNum.min.
  destruct (PyNum.ltb _ (PyNum.Int 100)) eqn:Hlt.
  - apply ltb_lt in Hlt. simpl in *.
    change (inject_Z 100) with 100%Q in Hlt. lra.
  - simpl. done.
Qed.

Lemma weighted_sum_bounds c r cl s p sp f :
  (0 <= c <= 100 → 0 <= r <= 100 → 0 <= cl <= 100 → 0 <= s <= 100 →
   0 <= p <= 100 → 0 <= sp <= 100 → 0 <= f <= 100 →
   0 <= weighted_sum c r cl s p sp f <= 100)%Q.
Proof. unfold weighted_sum. intros. lra. Qed.

Lemma in_0_100_int z : 0 <= z <= 100 → in_0_100 (VInt z).
Proof. intros Hz. exists (PyNum.Int z). split; [done|]. by apply int_bounds. Qed.

Lemma field_of_part (b d : pydict) part name :
  b !! part = Some (VDict d) → field b part name = d !! name.
Proof. unfold field. by intros ->. Qed.

(** C1. For every answer, question, well-typed video signal and
    duration, [analyze_answer] returns a bundle in which the content
    [quality_score], the [relevance_score], the [clarity_score], the
    sentiment [confidence_level], the [professionalism_score] and the
    speech [fluency_score] are present and lie in [0,100], the facial
    [confidence_level] lies in [0,100] whenever the bundle holds one (it
    does when a video signal is supplied), and [overall_score] lies in
    [0,100]. *)
Theorem scores_in_range answer question video_data duration :
  video_well_typed video_data →
  ∃ b,
    analyze_answer answer question video_data duration = Ok b
    ∧ score_in_range b "content_quality" "quality_score"
    ∧ score_in_range b "relevance" "relevance_score"
    ∧ score_in_range b "clarity" "clarity_score"
    ∧ score_in_range b "sentiment" "confidence_level"
    ∧ score_in_range b "professionalism" "professionalism_score"
    ∧ score_in_range b "speech_features" "fluency_score"
    ∧ (∀ v, field b "facial_expressions" "confidence_level" = Some v →
            in_0_100 v)
    ∧ (video_truthy video_data = true →
       score_in_range b "facial_expressions" "confidence_level")
    ∧ (∃ v, b !! "overall_score" = Some v ∧ in_0_100 v).
Proof.
  intros Hwt. destruct (is_blank answer) eqn:Hblank.
  - exists _get_empty_analysis. split.
    { unfold analyze_answer. by rewrite Hblank. }
    assert (Hzero : in_0_100 (VInt 0)) by (apply in_0_100_int; lia).
    repeat split; try (by eexists; split; [reflexivity|]).
    intros v. change (field _ _ _) with (Some (VInt 0)). by intros [= <-].
  - destruct (facial_analysis_total _ Hwt) as [fd Hfd].
    destruct (facial_analysis_confidence _ _ Hfd) as (nf & Hnf & Hnfb).
    destruct (analyze_answer_nonblank answer question video_data duration
                fd nf Hblank Hfd Hnf)
      as (b & Hb & Htm & Hcq & Hse & Hre & Hcl & Hpr & Hsp & Hfa & Hov).
    assert (Hfacial : ∀ v, field b "facial_expressions" "confidence_level"
                           = Some v → in_0_100 v).
    { intros v. rewrite (field_of_part _ _ _ _ Hfa). intros Hv.
      unfold facial_or_70 in Hnf. rewrite Hv in Hnf. simpl in Hnf.
      exists nf. done. }
    exists b. split; [done|]. repeat split.
    + exists (VInt (quality_score answer)).
      rewrite (field_of_part _ _ _ _ Hcq). split; [reflexivity|].
      apply in_0_100_int, quality_score_bounds.
    + exists (VNum (PyNum.round 1 (relevance answer question))).
      rewrite (field_of_part _ _ _ _ Hre). split; [reflexivity|].
      eexists. split; [done|]. apply round_bounds, relevance_bounds.
    + exists (VInt (clarity_score answer)).
      rewrite (field_of_part _ _ _ _ Hcl). split; [reflexivity|].
      apply in_0_100_int, clarity_score_bounds.
    + exists (VNum (PyNum.round 1 (sentiment_confidence answer))).
      rewrite (field_of_part _ _ _ _ Hse). split; [reflexivity|].
      eexists. split; [done|]. apply round_bounds, clamp_bounds.
    + exists (VInt (prof_score answer)).
      rewrite (field_of_part _ _ _ _ Hpr). split; [reflexivity|].
      apply in_0_100_int, prof_score_bounds.
    + exists (VInt (fluency_score answer duration)).
      rewrite (field_of_part _ _ _ _ Hsp). split; [reflexivity|].
      apply in_0_100_int, fluency_score_bounds.
    + done.
    + intros Htruthy.
      destruct (facial_analysis_present _ _ Htruthy Hfd) as [v Hv].
      exists v. rewrite (field_of_part _ _ _ _ Hfa). split; [done|].
      apply Hfacial. by rewrite (field_of_part _ _ _ _ Hfa).
    + eexists. split; [exact Hov|]. eexists. split; [done|]. simpl.
      apply round_float_1_bounds, weighted_sum_bounds;
        try (apply (int_bounds _ (quality_score_bounds _))
             || apply (int_bounds _ (clarity_score_bounds _))
             || apply (int_bounds _ (prof_score_bounds _))
             || apply (int_bounds _ (fluency_score_bounds _ _))
             || apply round_bounds, relevance_bounds
             || apply round_bounds, clamp_bounds
             || done).
Qed.

(** ** The facial part without a video signal *)

(** C4 (amended). For every answer that passes the guard, analysed with
    no video signal (none, or an empty one), the facial-expressions part
    of the bundle returned by [analyze_answer] is the empty dictionary, and
    the aggregator reads the neutral confidence 70 for it.  The fixed
    defaults [confidence_level: 70, nervousness: moderate, eye_contact:
    good, expressions: neutral] are what [_analyze_facial_expressions]
    returns when it is called without a video signal. *)
Theorem analyze_answer_no_video answer question video_data duration :
  is_blank answer = false →
  video_truthy video_data = false →
  (∃ b, analyze_answer answer question video_data duration = Ok b
        ∧ b !! "facial_expressions" = Some (VDict ∅)
        ∧ score_or_neutral b "facial_expressions" "confidence_level"
          = VInt 70)
  ∧ _analyze_facial_expressions video_data
    = Ok (<["confidence_level" := VInt 70]>
         (<["nervousness" := VStr "moderate"]>
         (<["eye_contact" := VStr "good"]>
         (<["expressions" := VStr "neutral"]> ∅)))).
Proof.
  intros Hblank Htruthy. split.
  - assert (Hfd : facial_analysis video_data = Ok ∅).
    { unfold facial_analysis. by rewrite Htruthy. }
    destruct (analyze_answer_nonblank answer question video_data duration
                ∅ (PyNum.Int 70) Hblank Hfd eq_refl)
      as (b & Hb & _ & _ & _ & _ & _ & _ & _ & Hfa & _).
    exists b. repeat split; [done..|].
    unfold score_or_neutral. by rewrite (field_of_part _ _ _ _ Hfa).
  - unfold _analyze_facial_expressions.
    destruct video_data as [d|]; [|done]. by rewrite Htruthy.
Qed.

(** ** The aggregator *)


Lemma analyze_answer_raises answer question video_data duration e :
  is_blank answer = false →
  facial_analysis video_data = Raise e →
  analyze_answer answer question video_data duration = Raise e.
Proof.
  intros Hblank Hfd. unfold analyze_answer. by rewrite Hblank, Hfd.
Qed.


(** ** The fluency score *)

Lemma Qltb_lt a b : PyNum.Qltb a b = true ↔ (a < b)%Q.
Proof.
  unfold PyNum.Qltb.
  rewrite negb_true_iff, <- not_true_iff_false, Qle_bool_iff.
  split; [apply Qnot_le_lt | apply Qlt_not_le].
Qed.



(** C7 (amended). For a text with exactly 4 filler-word occurrences in
    its lowercased form, exactly 1 stutter, exactly one ["..."] and no
    other run of dots, analysed with duration 0, the analyzer reports 2
    pause indicators (the ["..."] counts once as ["..."] and once for the
    [".."] inside it) and the fluency score is 100 - 20 - 10 - 10 = 60. *)
Theorem fluency_single_ellipsis text pre post :
  text = pre +:+ "..." +:+ post →
  PyStr.contains ".." (pre +:+ ".") = false →
  PyStr.contains ".." (String "." post) = false →
  filler_count text = 4 →
  stutters text = 1 →
  _analyze_speech_features text 0 !! "pause_indicators" = Some (VInt 2)
  ∧ _analyze_speech_features text 0 !! "fluency_score" = Some (VInt 60).
Proof.
  intros -> Hpre Hpost Hfillers Hstutter.
  set (text := pre +:+ "..." +:+ post) in *.
  destruct (count_single_ellipsis pre post Hpre Hpost) as [H3 H2].
  assert (Hpauses : pause_indicators text = 2).
  { unfold pause_indicators. fold text in H3, H2. by rewrite H3, H2. }
  split.
  - change (_analyze_speech_features text 0 !! "pause_indicators")
      with (Some (VInt (pause_indicators text))).
    by rewrite Hpauses.
  - change (_analyze_speech_features text 0 !! "fluency_score")
      with (Some (VInt (fluency_score text 0))).
    unfold fluency_score, speaking_rate.
    rewrite Hfillers, Hstutter, Hpauses. reflexivity.
Qed.

(** ** The clarity score *)

Lemma avg_sentence_length_mean text :
  PyNum.to_Q (avg_sentence_length text)
  = mean_sentence_length (len (word_tokenize text))
      (len (sent_tokenize text)).
Proof.
  unfold avg_sentence_length, mean_sentence_length, len.
  by destruct (sent_tokenize text).
Qed.

(** C8 (amended). For every answer that passes the guard, the transition
    count of the clarity analyzer is the number of the ten transition
    words that occur at least once, as a substring, in the lowercased
    text; [clarity_score] is the clamp to [0,100] of 60 plus
    min(count * 8, 24), plus 16 if the mean sentence length is strictly
    between 10 and 25 words, minus 10 if it is below 5; and
    [has_structure] holds iff the count is positive. *)
Theorem clarity_formula text :
  is_blank text = false →
  _analyze_clarity text !! "transition_words"
    = Some (VInt (transitions_present text))
  ∧ _analyze_clarity text !! "clarity_score"
    = Some (VInt (spec_clarity (transitions_present text)
                    (mean_sentence_length (len (word_tokenize text))
                       (len (sent_tokenize text)))))
  ∧ _analyze_clarity text !! "has_structure"
    = Some (VBool (bool_decide (0 < transitions_present text))).
Proof.
  intros _. split; [reflexivity|]. split.
  - change (_analyze_clarity text !! "clarity_score")
      with (Some (VInt (clarity_score text))).
    do 2 f_equal. unfold clarity_score, spec_clarity.
    change (transition_count text) with (transitions_present text).
    rewrite <- avg_sentence_length_mean.
    set (avg := avg_sentence_length text).
    change (PyNum.ltb (PyNum.Int 10) avg)
      with (PyNum.Qltb 10 (PyNum.to_Q avg)).
    change (PyNum.ltb avg (PyNum.Int 25))
      with (PyNum.Qltb (PyNum.to_Q avg) 25).
    change (PyNum.ltb avg (PyNum.Int 5))
      with (PyNum.Qltb (PyNum.to_Q avg) 5).
    destruct (PyNum.Qltb 10 (PyNum.to_Q avg)) eqn:H10;
      destruct (PyNum.Qltb (PyNum.to_Q avg) 25) eqn:H25;
      destruct (PyNum.Qltb (PyNum.to_Q avg) 5) eqn:H5;
      simpl andb; unfold clamp_0_100; try lia.
    all: apply Qltb_lt in H10, H5; lra.
  - change (_analyze_clarity text !! "has_structure")
      with (Some (VBool (0 <? transitions_present text))).
    do 2 f_equal. destruct (Z.ltb_spec 0 (transitions_present text)).
    + by rewrite bool_decide_eq_true_2.
    + rewrite bool_decide_eq_false_2; [done|lia].
Qed.

(** ** The relevance score *)




(** C10. For every answer that passes the guard, when the question has
    no content word left after the stop words and the non-alphabetic
    tokens are removed, the relevance analyzer reports
    [directly_addresses_question] as true and a [relevance_score] of
    75.0. *)
Theorem relevance_without_question_words answer question :
  is_blank answer = false →
  keyword_set question = ∅ →
  (∃ r,
     _analyze_relevance answer question !! "relevance_score"
       = Some (VNum r)
     ∧ (PyNum.to_Q r == 75)%Q)
  ∧ _analyze_relevance answer question !! "directly_addresses_question"
    = Some (VBool true)
  ∧ _analyze_relevance answer question !! "keyword_overlap"
    = Some (VInt 0).
Proof.
  intros _ Hq.
  assert (Hov : keyword_set answer ∩ keyword_set question = ∅).
  { rewrite Hq. apply intersection_empty_r_L. }
  split; [|split].
  - eexists. split; [reflexivity|].
    unfold relevance. rewrite Hq. reflexivity.
  - change (_analyze_relevance answer question
              !! "directly_addresses_question")
      with (Some (VBool
                    (Qle_bool
                       (inject_Z (Z.of_nat (size (keyword_set question)))
                        * (3 # 10))
                       (inject_Z
                          (Z.of_nat
                             (size (keyword_set answer
                                    ∩ keyword_set question))))))).
    rewrite Hov, Hq. reflexivity.
  - change (_analyze_relevance answer question !! "keyword_overlap")
      with (Some (VInt (Z.of_nat (size (keyword_set answer
                                         ∩ keyword_set question))))).
    rewrite Hov. reflexivity.
Qed.

(** ** Feedback *)

Lemma feedback_length (feedback : list string) :
  (1 <= length (take 5 (encourage_if_empty feedback)) <= 5)%nat.
Proof.
  destruct feedback as [|msg feedback]; [simpl; lia|].
  rewrite length_take. simpl length. lia.
Qed.

(** The facial analysis is empty or holds the six measured fields. *)
Lemma facial_analysis_shape video_data fd :
  facial_analysis video_data = Ok fd →
  fd = ∅
  ∨ ∃ conf nerv eye pct emo eng,
      fd = <["confidence_level" := VNum conf]>
           (<["nervousness" := VStr nerv]>
           (<["eye_contact" := VStr eye]>
           (<["eye_contact_percentage" := VNum pct]>
           (<["dominant_emotion" := emo]>
           (<["engagement_score" := VNum eng]> ∅))))).
Proof.
  unfold facial_analysis.
  destruct (video_truthy video_data) eqn:Htruthy; [|intros [= <-]; by left].
  destruct video_data as [d|]; [|done].
  unfold _analyze_facial_expressions. rewrite Htruthy.
  destruct (Py.lt _ (PyNum.Int 50)) as [low|]; [|done].
  destruct (Py.lt _ (PyNum.Int 70)) as [mid|]; [|done].
  destruct (Py.as_num (default (VInt 70) _)) as [eng|]; [|done].
  destruct (Py.as_num (default (VInt 60) _)) as [pct|]; [|done].
  simpl. intros [= <-]. right. by repeat eexists.
Qed.

Lemma feedback_ok_intro (r : result (list string)) :
  match r with
  | Ok feedback => (1 <= length feedback <= 5)%nat
  | Raise _ => False
  end →
  ∃ feedback, r = Ok feedback ∧ (1 <= length feedback <= 5)%nat.
Proof. destruct r; [eauto|done]. Qed.

(** On every bundle produced for an answer that passes the guard,
    [get_feedback] returns between one and five strings. *)
Lemma get_feedback_nonblank answer question video_data duration b :
  is_blank answer = false →
  analyze_answer answer question video_data duration = Ok b →
  ∃ feedback, get_feedback b = Ok feedback
              ∧ (1 <= length feedback <= 5)%nat.
Proof.
  intros Hblank Hb.
  destruct (facial_analysis video_data) as [fd|e] eqn:Hfd.
  2: { rewrite (analyze_answer_raises _ _ _ _ e Hblank Hfd) in Hb.
       discriminate. }
  unfold analyze_answer in Hb. rewrite Hblank, Hfd in Hb. simpl in Hb.
  destruct (_calculate_overall_score _) as [overall|] eqn:Hov; [|done].
  simpl in Hb. injection Hb as <-.
  destruct (facial_analysis_shape _ _ Hfd)
    as [->|(conf & nerv & eye & pct & emo & eng & ->)].
  - apply feedback_ok_intro. hnf. apply feedback_length.
  - apply feedback_ok_intro. hnf. apply feedback_length.
Qed.

(** C2 (failing input). On the placeholder bundle that [analyze_answer]
    returns for an empty or white-space answer, [get_feedback] does not
    return a list of one to five strings: it raises [KeyError] on the key
    [filler_word_count], which the placeholder's [speech_features] part
    lacks. *)
Theorem get_feedback_placeholder_raises answer question video_data
    duration :
  PyStr.all_chars PyStr.is_space answer = true →
  ∃ b, analyze_answer answer question video_data duration = Ok b
       ∧ get_feedback b = Raise (KeyError "filler_word_count").
Proof.
  intros Hblank%is_blank_iff. exists _get_empty_analysis. split.
  - unfold analyze_answer. by rewrite Hblank.
  - reflexivity.
Qed.

End Properties.

(** * The properties on concrete answers *)

(** C1 on a short answer with an attentive video signal. *)
Lemma scores_in_range_witness :
  video_well_typed Plain.attentive_video
  ∧ ∃ b,
      analyze_answer Plain.built_answer Plain.built_question
        Plain.attentive_video 30 = Ok b
      ∧ score_in_range b "speech_features" "fluency_score"
      ∧ score_in_range b "facial_expressions" "confidence_level"
      ∧ (∃ v, b !! "overall_score" = Some v ∧ in_0_100 v).
Proof.
  assert (Hwt : video_well_typed Plain.attentive_video).
  { split; intros v Hv; vm_compute in Hv; injection Hv as <-; exact I. }
  split; [exact Hwt|].
  destruct (scores_in_range Plain.built_answer Plain.built_question
              Plain.attentive_video 30 Hwt)
    as (b & Hb & _ & _ & _ & _ & _ & Hsp & _ & Hfa & Hov).
  exists b. repeat split; [exact Hb|exact Hsp| |exact Hov].
  apply Hfa. reflexivity.
Defined.

(** C3 on an answer of three spaces. *)
Lemma analyze_answer_blank_witness :
  PyStr.all_chars PyStr.is_space "   " = true
  ∧ analyze_answer "   " Plain.built_question None 0
    = Ok _get_empty_analysis.
Proof.
  split; [reflexivity|].
  apply (analyze_answer_blank "   " Plain.built_question None 0).
  reflexivity.
Defined.

(** C4 (amended) on a short answer without a video signal. *)
Lemma analyze_answer_no_video_witness :
  is_blank Plain.built_answer = false
  ∧ video_truthy None = false
  ∧ ∃ b, analyze_answer Plain.built_answer Plain.built_question None 0 = Ok b
         ∧ b !! "facial_expressions" = Some (VDict ∅)
         ∧ score_or_neutral b "facial_expressions" "confidence_level"
           = VInt 70.
Proof.
  split; [reflexivity|]. split; [reflexivity|].
  apply (analyze_answer_no_video Plain.built_answer Plain.built_question
           None 0); reflexivity.
Defined.

(** C4 (counterexample). Without a video signal the facial-expressions
    part of the bundle is the empty dictionary, not the neutral defaults. *)
Lemma facial_defaults_not_in_bundle :
  is_blank Plain.built_answer = false
  ∧ ∃ b, analyze_answer Plain.built_answer Plain.built_question None 0 = Ok b
         ∧ b !! "facial_expressions" = Some (VDict ∅)
         ∧ b !! "facial_expressions" ≠ Some (VDict facial_defaults).
Proof.
  split; [reflexivity|].
  destruct (analyze_answer_nonblank Plain.built_answer Plain.built_question
              None 0 ∅ (PyNum.Int 70) eq_refl eq_refl eq_refl)
    as (b & Hb & _ & _ & _ & _ & _ & _ & _ & Hfacial & _).
  exists b. split; [exact Hb|]. split; [exact Hfacial|].
  rewrite Hfacial. intros [= Heq].
Qed.



(** Eleven tokens in three seconds are 220 words per minute: 100 - 20 - 10
    - 10 - 10 = 50. *)
Example fluency_fast_speech :
  _analyze_speech_features Plain.halting_answer 3 !! "fluency_score"
  = Some (VInt 50).
Proof. vm_compute. reflexivity. Qed.

(** C7 (amended) on a halting answer that ends in one ["..."]. *)
Lemma fluency_single_ellipsis_witness :
  Plain.halting_answer = "um uh okay yeah we we built it" +:+ "..." +:+ ""
  ∧ PyStr.contains ".." ("um uh okay yeah we we built it" +:+ ".") = false
  ∧ PyStr.contains ".." (String "." "") = false
  ∧ filler_count Plain.halting_answer = 4%Z
  ∧ stutters Plain.halting_answer = 1%Z
  ∧ _analyze_speech_features Plain.halting_answer 0 !! "pause_indicators"
    = Some (VInt 2)
  ∧ _analyze_speech_features Plain.halting_answer 0 !! "fluency_score"
    = Some (VInt 60).
Proof.
  split; [reflexivity|]. split; [reflexivity|]. split; [reflexivity|].
  split; [reflexivity|]. split; [reflexivity|].
  apply (fluency_single_ellipsis Plain.halting_answer
           "um uh okay yeah we we built it" ""); reflexivity.
Defined.

(** C7 (counterexample). A text with 4 filler occurrences, 1 stutter and one
    ["..."], analysed with duration 0, has fluency score 60, not 65. *)
Lemma fluency_ellipsis_not_65 :
  filler_count Plain.halting_answer = 4%Z
  ∧ stutters Plain.halting_answer = 1%Z
  ∧ PyStr.count Plain.halting_answer "..." = 1%nat
  ∧ PyStr.contains "." "um uh okay yeah we we built it" = false
  ∧ Plain.halting_answer = "um uh okay yeah we we built it" +:+ "..."
  ∧ _analyze_speech_features Plain.halting_answer 0 !! "fluency_score"
    = Some (VInt 60)
  ∧ _analyze_speech_features Plain.halting_answer 0 !! "fluency_score"
    ≠ Some (VInt 65).
Proof.
  repeat split; try reflexivity.
  intros Heq. vm_compute in Heq. discriminate Heq.
Qed.

(** C8 (amended) on an answer that uses [then] twice. *)
Lemma clarity_formula_witness :
  is_blank Plain.stepwise_answer = false
  ∧ _analyze_clarity Plain.stepwise_answer !! "transition_words"
    = Some (VInt (transitions_present Plain.stepwise_answer))
  ∧ _analyze_clarity Plain.stepwise_answer !! "clarity_score"
    = Some (VInt (spec_clarity (transitions_present Plain.stepwise_answer)
                    (mean_sentence_length
                       (len (word_tokenize Plain.stepwise_answer))
                       (len (sent_tokenize Plain.stepwise_answer)))))
  ∧ _analyze_clarity Plain.stepwise_answer !! "has_structure"
    = Some (VBool (bool_decide (0 < transitions_present
                                       Plain.stepwise_answer)%Z)).
Proof.
  split; [reflexivity|].
  apply (clarity_formula Plain.stepwise_answer). reflexivity.
Defined.

(** C8 (counterexample). The transition words occur three times in the
    text, yet the analyzer counts 2 (the words present) and scores 92 where
    the occurrence count gives 100. *)
Lemma transition_count_not_occurrences :
  is_blank Plain.stepwise_answer = false
  ∧ transition_occurrences Plain.stepwise_answer = 3%Z
  ∧ _analyze_clarity Plain.stepwise_answer !! "transition_words"
    = Some (VInt 2)
  ∧ _analyze_clarity Plain.stepwise_answer !! "clarity_score"
    = Some (VInt 92)
  ∧ spec_clarity (transition_occurrences Plain.stepwise_answer)
      (mean_sentence_length (len (word_tokenize Plain.stepwise_answer))
         (len (sent_tokenize Plain.stepwise_answer))) = 100%Z.
Proof. repeat split; vm_compute; reflexivity. Qed.

(** An answer that repeats both content words of the question overlaps in 2
    words, scores 100 and addresses the question. *)
Example relevance_python :
  _analyze_relevance Plain.python_answer Plain.python_question
    !! "keyword_overlap" = Some (VInt 2)
  ∧ _analyze_relevance Plain.python_answer Plain.python_question
      !! "relevance_score" = Some (VNum (PyNum.Int 100))
  ∧ _analyze_relevance Plain.python_answer Plain.python_question
      !! "directly_addresses_question" = Some (VBool true).
Proof. repeat split; vm_compute; reflexivity. Qed.

(** C10 on the empty question. *)
Lemma relevance_without_question_words_witness :
  is_blank Plain.built_answer = false
  ∧ keyword_set "" = ∅
  ∧ (∃ r,
       _analyze_relevance Plain.built_answer "" !! "relevance_score"
         = Some (VNum r)
       ∧ (PyNum.to_Q r == 75)%Q)
  ∧ _analyze_relevance Plain.built_answer ""
      !! "directly_addresses_question" = Some (VBool true).
Proof.
  assert (Hq : keyword_set "" = ∅) by (vm_compute; reflexivity).
  split; [reflexivity|]. split; [exact Hq|].
  destruct (relevance_without_question_words Plain.built_answer ""
              eq_refl Hq) as (Hr & Hd & _).
  split; [exact Hr|exact Hd].
Defined.

(** C2 (failing input) on the empty answer. *)
Lemma get_feedback_placeholder_raises_witness :
  PyStr.all_chars PyStr.is_space "" = true
  ∧ ∃ b, analyze_answer "" Plain.built_question None 0 = Ok b
         ∧ get_feedback b = Raise (KeyError "filler_word_count").
Proof.
  split; [reflexivity|].
  apply (get_feedback_placeholder_raises "" Plain.built_question None 0).
  reflexivity.
Defined.

(** The feedback for a halting answer: the first five rules that fire. *)
Example get_feedback_halting :
  (analyze_answer Plain.halting_answer Plain.python_question None 0
   ≫= get_feedback)
  = Ok ["Add specific examples from your experience to illustrate your points";
        "Include measurable results (percentages, numbers, metrics) to demonstrate impact";
        "Provide more detailed responses with concrete details and outcomes";
        "Reduce filler words (found 4 instances of 'um', 'uh', 'like')";
        "Practice your answers to reduce stuttering and improve fluency"].
Proof. vm_compute. reflexivity. Qed.

(** * Further properties of the analyzers *)

(** ** Substrings and occurrence counts *)

Lemma startswith_nil_r sub : PyStr.startswith sub "" = true → sub = "".
Proof. by destruct sub. Qed.

Lemma startswith_cons_inv c sub d s :
  PyStr.startswith (String c sub) (String d s) = true →
  c = d ∧ PyStr.startswith sub s = true.
Proof.
  destruct (ascii_dec c d) as [->|Hne].
  - rewrite startswith_cons_eq. done.
  - by rewrite startswith_cons_ne.
Qed.

Lemma startswith_app sub a b :
  PyStr.startswith sub a = true → PyStr.startswith sub (a +:+ b) = true.
Proof.
  revert a. induction sub as [|c sub IH]; intros a Ha.
  - apply startswith_empty.
  - destruct a as [|d a]; [by apply startswith_nil_r in Ha|].
    apply startswith_cons_inv in Ha as [-> Ha].
    change (String d a +:+ b) with (String d (a +:+ b)).
    rewrite startswith_cons_eq. by apply IH.
Qed.

Lemma contains_app_l sub a b :
  PyStr.contains sub a = true → PyStr.contains sub (a +:+ b) = true.
Proof.
  induction a as [|c a IH].
  - simpl. rewrite orb_false_r. intros ->%startswith_nil_r.
    destruct b; simpl; by rewrite ?startswith_empty.
  - change (String c a +:+ b) with (String c (a +:+ b)). simpl.
    intros [Hhead|Htail]%orb_prop.
    + assert (Happ : PyStr.startswith sub (String c (a +:+ b)) = true)
        by exact (startswith_app _ (String c a) b Hhead).
      by rewrite Happ.
    + rewrite (IH Htail). apply orb_true_r.
Qed.

Lemma contains_app_r sub a b :
  PyStr.contains sub b = true → PyStr.contains sub (a +:+ b) = true.
Proof.
  intros Hb. induction a as [|c a IH]; [done|].
  change (String c a +:+ b) with (String c (a +:+ b)). simpl.
  rewrite IH. apply orb_true_r.
Qed.

Lemma lower_app a b : PyStr.lower (a +:+ b) = PyStr.lower a +:+ PyStr.lower b.
Proof. induction a as [|c a IH]; simpl; [done|]. by rewrite IH. Qed.

Lemma any_char_app p a b :
  PyStr.any_char p (a +:+ b) = PyStr.any_char p a || PyStr.any_char p b.
Proof.
  induction a as [|c a IH]; simpl; [done|]. rewrite IH. apply orb_assoc.
Qed.

(** [sub in s] holds exactly when [s.count(sub)] is positive. *)
Lemma count_pos_iff_contains s sub :
  (0 < PyStr.count s sub)%nat ↔ PyStr.contains sub s = true.
Proof.
  destruct sub as [|c sub].
  - simpl. split; [intros _|lia].
    destruct s; simpl; by rewrite ?startswith_empty.
  - unfold PyStr.count. induction s as [|d s IH].
    + simpl. split; [lia|done].
    + simpl. destruct (PyStr.startswith (String c sub) (String d s)) eqn:Hsw.
      * simpl. split; [done|lia].
      * simpl. exact IH.
Qed.

Lemma count_zero_iff_not_contains s sub :
  PyStr.count s sub = 0%nat ↔ PyStr.contains sub s = false.
Proof.
  rewrite <- not_true_iff_false, <- count_pos_iff_contains. lia.
Qed.

Lemma contains_three_dots_two s :
  PyStr.contains "..." s = true → PyStr.contains ".." s = true.
Proof.
  induction s as [|c s IH]; [done|]. simpl.
  intros [Hhead|Htail]%orb_prop.
  - by rewrite (startswith_two_dots "." _ Hhead).
  - rewrite (IH Htail). apply orb_true_r.
Qed.

(** ** Rounding is monotone *)

Lemma round_half_even_cases (q : Q) :
  ((q - inject_Z (Qfloor q) < 1 # 2)%Q
   ∧ PyNum.round_half_even q = Qfloor q)
  ∨ ((q - inject_Z (Qfloor q) == 1 # 2)%Q
     ∧ PyNum.round_half_even q
       = if Z.even (Qfloor q) then Qfloor q else (Qfloor q + 1)%Z)
  ∨ ((1 # 2 < q - inject_Z (Qfloor q))%Q
     ∧ PyNum.round_half_even q = (Qfloor q + 1)%Z).
Proof.
  unfold PyNum.round_half_even.
  destruct (q - inject_Z (Qfloor q) ?= 1 # 2)%Q eqn:Hc.
  - right. left. split; [by apply Qeq_alt|done].
  - left. split; [by apply Qlt_alt|done].
  - right. right. split; [by apply Qgt_alt|done].
Qed.

Lemma round_half_even_mono (q q' : Q) :
  (q <= q')%Q → (PyNum.round_half_even q <= PyNum.round_half_even q')%Z.
Proof.
  intros Hle.
  pose proof (Qfloor_resp_le _ _ Hle) as Hfl.
  destruct (round_half_even_cases q) as [[Hf ->]|[[Hf ->]|[Hf ->]]];
    destruct (round_half_even_cases q') as [[Hf' ->]|[[Hf' ->]|[Hf' ->]]];
    destruct (Z.eq_dec (Qfloor q) (Qfloor q')) as [Heq|Hne];
    try rewrite <- Heq in *;
    destruct (Z.even (Qfloor q)); try destruct (Z.even (Qfloor q'));
    try lia; lra.
Qed.

Lemma round_float_mono d (q q' : Q) :
  (q <= q')%Q → (PyNum.round_float d q <= PyNum.round_float d q')%Q.
Proof.
  intros Hle. unfold PyNum.round_float. destruct d as [|d].
  - rewrite <- Zle_Qle. by apply round_half_even_mono.
  - set (p := (10 ^ Pos.of_nat (S d))%positive).
    assert (Hm : (PyNum.round_half_even (q * inject_Z (Z.pos p))
                  <= PyNum.round_half_even (q' * inject_Z (Z.pos p)))%Z).
    { apply round_half_even_mono. apply Qmult_le_compat_r; [done|].
      change 0%Q with (inject_Z 0). rewrite <- Zle_Qle. lia. }
    unfold Qle. simpl. nia.
Qed.

Lemma round_half_even_int (z : Z) : PyNum.round_half_even (inject_Z z) = z.
Proof.
  unfold PyNum.round_half_even. rewrite Qfloor_Z.
  assert (Hc : (inject_Z z - inject_Z z ?= 1 # 2)%Q = Lt).
  { apply (proj1 (Qlt_alt _ _)). generalize (inject_Z z). intros x. lra. }
  by rewrite Hc.
Qed.

(** Rounding leaves an integer unchanged. *)
Lemma round_float_int d (z : Z) :
  (PyNum.round_float d (inject_Z z) == inject_Z z)%Q.
Proof.
  unfold PyNum.round_float. destruct d as [|d].
  - by rewrite round_half_even_int.
  - set (p := (10 ^ Pos.of_nat (S d))%positive).
    rewrite (round_half_even_proper _ (inject_Z (z * Z.pos p))).
    + rewrite round_half_even_int. unfold Qeq. simpl. lia.
    + by rewrite inject_Z_mult.
Qed.

Lemma round_float_le_int d q (z : Z) :
  (q <= inject_Z z)%Q → (PyNum.round_float d q <= inject_Z z)%Q.
Proof.
  intros Hle. rewrite <- (round_float_int d z). by apply round_float_mono.
Qed.

Lemma round_float_ge_int d q (z : Z) :
  (inject_Z z <= q)%Q → (inject_Z z <= PyNum.round_float d q)%Q.
Proof.
  intros Hle. rewrite <- (round_float_int d z). by apply round_float_mono.
Qed.

Lemma round_mono n n' :
  (PyNum.to_Q n <= PyNum.to_Q n')%Q →
  (PyNum.to_Q (PyNum.round 1 n) <= PyNum.to_Q (PyNum.round 1 n'))%Q.
Proof.
  intros Hle.
  destruct n as [z|q], n' as [z'|q'];
    cbn [PyNum.round PyNum.to_Q] in *; [done| | |].
  - by apply round_float_ge_int.
  - by apply round_float_le_int.
  - by apply round_float_mono.
Qed.

Lemma size_list_to_set_le (l : list string) :
  size (list_to_set l : gset string) ≤ length l.
Proof.
  induction l as [|x l IH]; [by rewrite list_to_set_nil, size_empty|].
  rewrite list_to_set_cons, size_union_alt, size_singleton. simpl.
  pose proof (subseteq_size (list_to_set l ∖ {[x]} : gset string)
                (list_to_set l)) as Hsub.
  assert (size (list_to_set l ∖ {[x]} : gset string)
          ≤ size (list_to_set l : gset string))
    by (apply Hsub; intros y [Hy _]%elem_of_difference; exact Hy).
  lia.
Qed.

Lemma count_present_le_occurrences (l : list string) (s : string) :
  (Py.count_present l s
   <= foldr Z.add 0%Z (map (λ t, Z.of_nat (PyStr.count s t)) l))%Z.
Proof.
  unfold Py.count_present. induction l as [|t l IH]; [done|].
  rewrite filter_cons. simpl foldr.
  destruct (decide (PyStr.contains t s = true)) as [Hin|Hout].
  - apply count_pos_iff_contains in Hin. simpl length. lia.
  - lia.
Qed.

Lemma occurrences_nonneg (l : list string) (s : string) :
  (0 <= foldr Z.add 0%Z (map (λ t, Z.of_nat (PyStr.count s t)) l))%Z.
Proof. induction l as [|t l IH]; simpl; lia. Qed.

Lemma count_present_zero_iff (l : list string) (s : string) :
  Py.count_present l s = 0%Z
  ↔ foldr Z.add 0%Z (map (λ t, Z.of_nat (PyStr.count s t)) l) = 0%Z.
Proof.
  unfold Py.count_present. induction l as [|t l IH]; [done|].
  rewrite filter_cons. simpl foldr.
  pose proof (occurrences_nonneg l s).
  destruct (decide (PyStr.contains t s = true)) as [Hin|Hout].
  - apply count_pos_iff_contains in Hin. simpl length. lia.
  - apply not_true_iff_false, count_zero_iff_not_contains in Hout.
    rewrite Hout. simpl. exact IH.
Qed.

Lemma count_present_elem (l : list string) (s t : string) :
  t ∈ l → PyStr.contains t s = true → (1 <= Py.count_present l s)%Z.
Proof.
  intros Hl Hs. unfold Py.count_present.
  assert (Hin : t ∈ filter (λ p, PyStr.contains p s = true) l)
    by (by apply list_elem_of_filter).
  destruct (filter _ l); [by apply not_elem_of_nil in Hin|]. simpl. lia.
Qed.

Lemma occurrences_elem (l : list string) (s t : string) :
  t ∈ l →
  (Z.of_nat (PyStr.count s t)
   <= foldr Z.add 0%Z (map (λ t, Z.of_nat (PyStr.count s t)) l))%Z.
Proof.
  induction l as [|u l IH]; [by intros ?%not_elem_of_nil|].
  pose proof (occurrences_nonneg l s). simpl.
  intros [->|Hin]%elem_of_cons; [lia|]. specialize (IH Hin). lia.
Qed.

Section MoreProperties.

Context `{Collaborators}.

Local Open Scope Z_scope.

(** ** The speech analyzer *)

(** X1. The fluency score of the speech analyzer never falls below 25: the
    four deductions are capped at 30, 20, 15 and 10, so the clamp at 0
    never fires. *)
Theorem fluency_score_range text duration :
  ∃ score,
    _analyze_speech_features text duration !! "fluency_score"
      = Some (VInt score)
    ∧ 25 <= score <= 100.
Proof.
  exists (fluency_score text duration). split; [reflexivity|].
  unfold fluency_score. cbv zeta.
  repeat match goal with
         | |- context [if ?b then _ else _] => destruct b
         end; lia.
Qed.

(** X2. The speech analyzer reports no pause indicator exactly for texts
    without two adjacent dots, and at least two for a text that holds
    three dots in a row. *)
Theorem pause_indicators_zero_iff text duration :
  (_analyze_speech_features text duration !! "pause_indicators"
   = Some (VInt 0)
   ↔ PyStr.contains ".." text = false)
  ∧ (PyStr.contains "..." text = true → 2 <= pause_indicators text).
Proof.
  change (_analyze_speech_features text duration !! "pause_indicators")
    with (Some (VInt (pause_indicators text))).
  unfold pause_indicators. split.
  - rewrite <- count_zero_iff_not_contains. split.
    + intros [= Hsum]. unfold PyStr.count. lia.
    + intros Htwo.
      assert (Hthree : PyStr.count text "..." = 0%nat).
      { apply count_zero_iff_not_contains, not_true_iff_false.
        intros Hin%contains_three_dots_two.
        apply count_zero_iff_not_contains in Htwo. congruence. }
      by rewrite Htwo, Hthree.
  - intros Hthree.
    pose proof (contains_three_dots_two _ Hthree) as Htwo.
    apply count_pos_iff_contains in Hthree, Htwo. lia.
Qed.

(** X3. A casual [like] or [yeah] is counted twice: whenever either occurs
    in the lowercased text, the professionalism analyzer counts a casual
    word and the speech analyzer counts a filler. *)
Theorem casual_like_is_filler text duration :
  PyStr.contains "like" (PyStr.lower text) = true
  ∨ PyStr.contains "yeah" (PyStr.lower text) = true →
  ∃ casual fillers,
    _analyze_professionalism text !! "casual_language" = Some (VInt casual)
    ∧ _analyze_speech_features text duration !! "filler_word_count"
      = Some (VInt fillers)
    ∧ 1 <= casual ∧ 1 <= fillers.
Proof.
  intros Hin. exists (casual_count text), (filler_count text).
  split; [reflexivity|]. split; [reflexivity|].
  unfold casual_count, filler_count.
  destruct Hin as [Hin|Hin].
  - split.
    + apply (count_present_elem _ _ "like"); [|done].
      unfold casual_words. repeat constructor.
    + apply count_pos_iff_contains in Hin.
      pose proof (occurrences_elem filler_words (PyStr.lower text) "like")
        as Hsum.
      assert (Hmem : "like" ∈ filler_words)
        by (unfold filler_words; repeat constructor).
      specialize (Hsum Hmem). lia.
  - split.
    + apply (count_present_elem _ _ "yeah"); [|done].
      unfold casual_words. repeat constructor.
    + apply count_pos_iff_contains in Hin.
      pose proof (occurrences_elem filler_words (PyStr.lower text) "yeah")
        as Hsum.
      assert (Hmem : "yeah" ∈ filler_words)
        by (unfold filler_words; repeat constructor).
      specialize (Hsum Hmem). lia.
Qed.

(** ** The clarity analyzer *)

(** X4. The transition count of the clarity analyzer never exceeds the
    number of occurrences of the transition words in the lowercased text,
    is at most 10, and is 0 exactly when no transition word occurs. *)
Theorem transition_count_le_occurrences text :
  ∃ count,
    _analyze_clarity text !! "transition_words" = Some (VInt count)
    ∧ 0 <= count <= 10
    ∧ count <= transition_occurrences text
    ∧ (count = 0 ↔ transition_occurrences text = 0).
Proof.
  exists (transition_count text). split; [reflexivity|].
  unfold transition_count, transition_occurrences. repeat split.
  - unfold Py.count_present. lia.
  - unfold Py.count_present.
    pose proof (length_filter
                  (λ p, PyStr.contains p (PyStr.lower text) = true)
                  transitions) as Hlen.
    change (length transitions) with 10%nat in Hlen. lia.
  - apply count_present_le_occurrences.
  - apply count_present_zero_iff.
  - apply count_present_zero_iff.
Qed.

(** X5. For a text whose sentences average fewer than 5 tokens the clarity
    advice of [get_feedback] can fire: [clarity_score] is below 60 exactly
    when at most one transition word is present and the mean sentence
    length is below 5; it is never below 50. *)
Theorem clarity_score_low_iff text :
  ∃ score,
    _analyze_clarity text !! "clarity_score" = Some (VInt score)
    ∧ 50 <= score <= 100
    ∧ (score < 60
       ↔ transitions_present text <= 1
         ∧ (mean_sentence_length (len (word_tokenize text))
              (len (sent_tokenize text)) < 5)%Q).
Proof.
  exists (clarity_score text). split; [reflexivity|].
  rewrite <- avg_sentence_length_mean.
  unfold clarity_score. cbv zeta.
  change (transition_count text) with (transitions_present text).
  assert (Hcount : 0 <= transitions_present text)
    by (unfold transitions_present; lia).
  set (avg := avg_sentence_length text).
  change (PyNum.ltb (PyNum.Int 10) avg)
    with (PyNum.Qltb 10 (PyNum.to_Q avg)).
  change (PyNum.ltb avg (PyNum.Int 25))
    with (PyNum.Qltb (PyNum.to_Q avg) 25).
  change (PyNum.ltb avg (PyNum.Int 5))
    with (PyNum.Qltb (PyNum.to_Q avg) 5).
  assert (Hlow : PyNum.Qltb (PyNum.to_Q avg) 5 = true
                 → PyNum.Qltb 10 (PyNum.to_Q avg) = false).
  { intros Hlt%Qltb_lt. apply not_true_iff_false. intros Hgt%Qltb_lt. lra. }
  destruct (PyNum.Qltb (PyNum.to_Q avg) 5) eqn:H5.
  - rewrite (Hlow eq_refl). simpl andb. cbv iota.
    apply Qltb_lt in H5. split; [lia|]. split; [intros; split; [lia|done]|].
    intros [Hone _]. lia.
  - assert (Hnot : ¬ (PyNum.to_Q avg < 5)%Q).
    { intros Hlt%Qltb_lt. congruence. }
    destruct (PyNum.Qltb 10 (PyNum.to_Q avg) && PyNum.Qltb (PyNum.to_Q avg) 25);
      (split; [lia|]); (split; [intros; exfalso; lia|]);
      intros [_ Hlt]; contradiction.
Qed.

(** ** The content-quality analyzer *)

Lemma quality_score_sum text :
  quality_score text
  = Z.min 100
      (50 + 10 * Z.b2z (has_numbers text) + 15 * Z.b2z (has_examples text)
       + 15 * Z.b2z (has_quantification text)
       + 5 * Z.b2z (has_situation text) + 5 * Z.b2z (has_task text)
       + 5 * Z.b2z (has_action text) + 10 * Z.b2z (has_result text)).
Proof.
  unfold quality_score.
  destruct (has_numbers text), (has_examples text),
    (has_quantification text), (has_situation text), (has_task text),
    (has_action text), (has_result text); reflexivity.
Qed.

Lemma any_present_app l a b :
  Py.any_present l (PyStr.lower a) = true
  ∨ Py.any_present l (PyStr.lower b) = true →
  Py.any_present l (PyStr.lower (a +:+ b)) = true.
Proof.
  unfold Py.any_present. rewrite lower_app, !existsb_exists.
  intros [(p & Hp & Hin)|(p & Hp & Hin)]; exists p; split; auto.
  - by apply contains_app_l.
  - by apply contains_app_r.
Qed.

Lemma b2z_le (x y : bool) : (x = true → y = true) → Z.b2z x <= Z.b2z y.
Proof.
  destruct x, y; simpl; intros Hxy; try lia.
Qed.

(** X6. The content quality score lies between 50 and 100, is at least 75
    for an answer that uses the STAR method, and never drops when text is
    added before or after the answer. *)
Theorem quality_score_grows text question more :
  ∃ score before after star,
    _analyze_content_quality text question !! "quality_score"
      = Some (VInt score)
    ∧ _analyze_content_quality (more +:+ text) question !! "quality_score"
      = Some (VInt before)
    ∧ _analyze_content_quality (text +:+ more) question !! "quality_score"
      = Some (VInt after)
    ∧ _analyze_content_quality text question !! "uses_star_method"
      = Some (VBool star)
    ∧ 50 <= score <= 100
    ∧ (star = true → 75 <= score)
    ∧ score <= before ∧ score <= after.
Proof.
  exists (quality_score text), (quality_score (more +:+ text)),
    (quality_score (text +:+ more)),
    (has_situation text && has_task text && has_action text
     && has_result text).
  repeat (split; [reflexivity|]).
  rewrite !quality_score_sum. split; [|split; [|split]].
  - destruct (has_numbers text), (has_examples text),
      (has_quantification text), (has_situation text), (has_task text),
      (has_action text), (has_result text); simpl; lia.
  - destruct (has_situation text), (has_task text), (has_action text),
      (has_result text); try discriminate; intros _.
    destruct (has_numbers text), (has_examples text),
      (has_quantification text); simpl; lia.
  - pose proof (b2z_le (has_numbers text) (has_numbers (more +:+ text))).
    pose proof (b2z_le (has_examples text) (has_examples (more +:+ text))).
    pose proof (b2z_le (has_quantification text)
                  (has_quantification (more +:+ text))).
    pose proof (b2z_le (has_situation text) (has_situation (more +:+ text))).
    pose proof (b2z_le (has_task text) (has_task (more +:+ text))).
    pose proof (b2z_le (has_action text) (has_action (more +:+ text))).
    pose proof (b2z_le (has_result text) (has_result (more +:+ text))).
    assert (Z.b2z (has_numbers text) <= Z.b2z (has_numbers (more +:+ text))).
    { apply b2z_le. unfold has_numbers, PyStr.search_digits.
      rewrite any_char_app. intros ->. apply orb_true_r. }
    repeat match goal with
           | Hle : (_ = true → _ = true) → _ |- _ =>
               specialize (Hle ltac:(intros; apply any_present_app; auto))
           end.
    lia.
  - pose proof (b2z_le (has_examples text) (has_examples (text +:+ more))).
    pose proof (b2z_le (has_quantification text)
                  (has_quantification (text +:+ more))).
    pose proof (b2z_le (has_situation text) (has_situation (text +:+ more))).
    pose proof (b2z_le (has_task text) (has_task (text +:+ more))).
    pose proof (b2z_le (has_action text) (has_action (text +:+ more))).
    pose proof (b2z_le (has_result text) (has_result (text +:+ more))).
    assert (Z.b2z (has_numbers text) <= Z.b2z (has_numbers (text +:+ more))).
    { apply b2z_le. unfold has_numbers, PyStr.search_digits.
      rewrite any_char_app. by intros ->. }
    repeat match goal with
           | Hle : (_ = true → _ = true) → _ |- _ =>
               specialize (Hle ltac:(intros; apply any_present_app; auto))
           end.
    lia.
Qed.

(** ** The sentiment analyzer *)


(** ** The text metrics *)

(** X8. In the text metrics the unique content words never outnumber the
    content words, which never outnumber the tokens; the vocabulary
    richness lies between 0 and 1; and there is a unique content word
    whenever there is a content word. *)
Theorem text_metrics_invariants text :
  ∃ words content_count unique richness,
    _analyze_text_metrics text !! "word_count" = Some (VInt words)
    ∧ _analyze_text_metrics text !! "content_word_count"
      = Some (VInt content_count)
    ∧ _analyze_text_metrics text !! "unique_words" = Some (VInt unique)
    ∧ _analyze_text_metrics text !! "vocabulary_richness"
      = Some (VNum richness)
    ∧ 0 <= unique <= content_count
    ∧ content_count <= words
    ∧ (0 < content_count → 0 < unique)
    ∧ (0 <= PyNum.to_Q richness <= 1)%Q.
Proof.
  set (tokens := word_tokenize (PyStr.lower text)).
  set (cw := content_words tokens).
  exists (len tokens), (len cw),
    (Z.of_nat (size (list_to_set cw : gset string))),
    (match cw with
     | [] => PyNum.Int 0
     | _ => PyNum.Float
              (PyNum.round_float 3
                 (PyNum.truediv
                    (Z.of_nat (size (list_to_set cw : gset string)))
                    (len cw)))
     end).
  split; [reflexivity|]. split; [reflexivity|].
  split; [reflexivity|]. split.
  { transitivity
      (Some (match cw with
             | [] => VInt 0
             | _ => VFloat
                      (PyNum.round_float 3
                         (PyNum.truediv
                            (Z.of_nat (size (list_to_set cw : gset string)))
                            (len cw)))
             end)); [reflexivity|].
    by destruct cw. }
  pose proof (size_list_to_set_le cw) as Huniq.
  assert (Hcw : (length cw ≤ length tokens)%nat).
  { subst cw. unfold content_words. apply length_filter. }
  unfold len. split; [lia|]. split; [lia|]. split.
  - intros Hpos. destruct cw as [|w cw'] eqn:Ecw; [simpl in Hpos; lia|].
    assert (Hin : w ∈ (list_to_set (w :: cw') : gset string)).
    { apply elem_of_list_to_set. constructor. }
    assert (size (list_to_set (w :: cw') : gset string) ≠ 0%nat).
    { intros Hz%size_empty_iff. rewrite Hz in Hin.
      by apply not_elem_of_empty in Hin. }
    lia.
  - destruct cw as [|w cw'] eqn:Ecw.
    + simpl. done.
    + cbn [PyNum.to_Q].
      set (u := Z.of_nat (size (list_to_set (w :: cw') : gset string))).
      set (c := len (w :: cw')).
      assert (Hc : 0 < c) by (subst c; unfold len; simpl; lia).
      assert (Hu : 0 <= u <= c) by (subst u c; unfold len; lia).
      assert (Hq : (0 <= PyNum.truediv u c <= 1)%Q).
      { unfold PyNum.truediv. split.
        - apply Qle_shift_div_l.
          + change 0%Q with (inject_Z 0). by rewrite <- Zlt_Qlt.
          + rewrite Qmult_0_l. change 0%Q with (inject_Z 0).
            rewrite <- Zle_Qle. lia.
        - apply Qle_shift_div_r.
          + change 0%Q with (inject_Z 0). by rewrite <- Zlt_Qlt.
          + rewrite Qmult_1_l. rewrite <- Zle_Qle. lia. }
      split.
      * apply (round_float_ge_int 3 _ 0). unfold inject_Z at 1.
        apply Hq.
      * apply (round_float_le_int 3 _ 1). unfold inject_Z at 1.
        apply Hq.
Qed.

(** ** The aggregator *)

Lemma quality_score_ge_50 text : 50 <= quality_score text.
Proof.
  rewrite quality_score_sum.
  destruct (has_numbers text), (has_examples text),
    (has_quantification text), (has_situation text), (has_task text),
    (has_action text), (has_result text); simpl; lia.
Qed.

Lemma clarity_score_ge_50 text : 50 <= clarity_score text.
Proof.
  unfold clarity_score. cbv zeta.
  assert (0 <= transition_count text)
    by (unfold transition_count, Py.count_present; lia).
  repeat match goal with
         | |- context [if ?b then _ else _] => destruct b
         end; lia.
Qed.

Lemma fluency_score_ge_25 text duration : 25 <= fluency_score text duration.
Proof.
  unfold fluency_score. cbv zeta.
  repeat match goal with
         | |- context [if ?b then _ else _] => destruct b
         end; lia.
Qed.

Lemma inject_Z_le_compat (a b : Z) : a <= b → (inject_Z a <= inject_Z b)%Q.
Proof. intros. by rewrite <- Zle_Qle. Qed.

(** X9. An [overall_score] of 0 marks the placeholder: for every bundle
    [analyze_answer] returns, the overall score is 0 exactly when the
    answer was blank, and for any other answer it is at least 23.8 (quality
    and clarity are at least 50 and fluency at least 25). *)
Theorem overall_score_zero_iff_blank answer question video_data duration b :
  analyze_answer answer question video_data duration = Ok b →
  ∃ overall,
    b !! "overall_score" = Some (VNum overall)
    ∧ ((PyNum.to_Q overall == 0)%Q ↔ is_blank answer = true)
    ∧ (is_blank answer = false →
       (238 # 10 <= PyNum.to_Q overall <= 100)%Q).
Proof.
  intros Hb. destruct (is_blank answer) eqn:Hblank.
  - unfold analyze_answer in Hb. rewrite Hblank in Hb. injection Hb as <-.
    exists (PyNum.Int 0). split; [reflexivity|]. split; [done|done].
  - destruct (facial_analysis video_data) as [fd|e] eqn:Hfd.
    2: { rewrite (analyze_answer_raises _ _ _ _ e Hblank Hfd) in Hb.
         discriminate. }
    destruct (facial_analysis_confidence _ _ Hfd) as (nf & Hnf & Hnfb).
    destruct (analyze_answer_nonblank answer question video_data duration
                fd nf Hblank Hfd Hnf)
      as (b' & Hb' & _ & _ & _ & _ & _ & _ & _ & _ & Hov).
    rewrite Hb in Hb'. injection Hb' as <-.
    eexists. split; [exact Hov|]. cbn [PyNum.to_Q].
    set (ws := weighted_sum _ _ _ _ _ _ _).
    assert (Hq : (50 <= inject_Z (quality_score answer))%Q).
    { change 50%Q with (inject_Z 50).
      apply inject_Z_le_compat, quality_score_ge_50. }
    assert (Hc : (50 <= inject_Z (clarity_score answer))%Q).
    { change 50%Q with (inject_Z 50).
      apply inject_Z_le_compat, clarity_score_ge_50. }
    assert (Hf : (25 <= inject_Z (fluency_score answer duration))%Q).
    { change 25%Q with (inject_Z 25).
      apply inject_Z_le_compat, fluency_score_ge_25. }
    pose proof (int_bounds _ (quality_score_bounds answer)) as [_ Hq'].
    pose proof (int_bounds _ (clarity_score_bounds answer)) as [_ Hc'].
    pose proof (int_bounds _ (fluency_score_bounds answer duration))
      as [_ Hf'].
    pose proof (int_bounds _ (prof_score_bounds answer)) as Hp.
    pose proof (round_bounds _ (relevance_bounds answer question)) as Hr.
    pose proof (round_bounds _ (clamp_bounds
                    (PyNum.Float
                       (50 + v_pos (polarity_scores answer) * 50
                        - v_neg (polarity_scores answer) * 30)%Q))) as Hs.
    fold (sentiment_confidence answer) in Hs.
    cbn [PyNum.to_Q] in Hq', Hc', Hf', Hp.
    assert (Hws : (2375 # 100 <= ws <= 100)%Q).
    { subst ws. unfold weighted_sum. lra. }
    assert (Hlow : (238 # 10 <= PyNum.round_float 1 ws)%Q).
    { change (238 # 10)%Q with (PyNum.round_float 1 (2375 # 100)).
      apply round_float_mono. lra. }
    assert (Hhigh : (PyNum.round_float 1 ws <= 100)%Q).
    { apply (round_float_le_int 1 ws 100). unfold inject_Z. lra. }
    split; [|done]. split; [|done].
    intros Hzero. rewrite Hzero in Hlow. exfalso. revert Hlow. by compute.
Qed.

(** X10. Raising any of the seven scores of a bundle never lowers what the
    aggregator returns. *)
Theorem calculate_overall_score_mono (a a' : pydict) :
  (∀ part name, (part, name) ∈ designated_scores → score_le a a' part name) →
  ∃ overall overall',
    _calculate_overall_score a = Ok overall
    ∧ _calculate_overall_score a' = Ok overall'
    ∧ (overall <= overall')%Q.
Proof.
  intros Hle.
  assert (Hmem : ∀ p, p ∈ designated_scores → score_le a a' p.1 p.2).
  { intros [part name] Hin. by apply Hle. }
  unfold designated_scores in Hmem.
  rewrite <- Forall_forall in Hmem.
  repeat match goal with
         | Hall : Forall _ (_ :: _) |- _ =>
             apply Forall_cons in Hall as [(? & ? & ? & ? & ?) Hall]
         end.
  simpl in *. eexists _, _.
  split; [by apply calculate_overall_score_present|].
  split; [by apply calculate_overall_score_present|].
  apply round_float_mono. unfold weighted_sum. lra.
Qed.

(** ** The facial analyzer *)

(** X11. A video signal that is not empty but holds none of the three
    keys the analyzer reads is analysed with the per-field defaults:
    confidence 70, low nervousness, good eye contact at 60 percent, a
    neutral emotion and engagement 70. *)
Theorem facial_missing_keys (d : pydict) :
  size d ≠ 0%nat →
  d !! "eye_contact_percentage" = None →
  d !! "dominant_emotion" = None →
  d !! "engagement_score" = None →
  _analyze_facial_expressions (Some d)
  = Ok (<["confidence_level" := VInt 70]>
       (<["nervousness" := VStr "low"]>
       (<["eye_contact" := VStr "good"]>
       (<["eye_contact_percentage" := VInt 60]>
       (<["dominant_emotion" := VStr "neutral"]>
       (<["engagement_score" := VInt 70]> ∅)))))).
Proof.
  intros Hsize Heye Hemotion Hengagement.
  unfold _analyze_facial_expressions, video_truthy.
  rewrite bool_decide_eq_false_2 by done.
  rewrite Heye, Hemotion, Hengagement. reflexivity.
Qed.

Lemma as_num_cases v :
  (∃ n, Py.as_num v = Ok n ∧ is_number v)
  ∨ (Py.as_num v = Raise TypeError ∧ ¬ is_number v).
Proof. destruct v; simpl; eauto. Qed.

(** The facial analysis raises exactly on a video signal that is not
    empty and holds a non-number where a number is read, and then it raises
    [TypeError]. *)
Lemma facial_analysis_raises_iff video_data e :
  facial_analysis video_data = Raise e
  ↔ e = TypeError ∧ video_truthy video_data = true
    ∧ ¬ video_well_typed video_data.
Proof.
  unfold facial_analysis.
  destruct (video_truthy video_data) eqn:Htruthy.
  2: { split; [done|]. intros (_ & ? & _). done. }
  destruct video_data as [d|]; [|done].
  unfold _analyze_facial_expressions. rewrite Htruthy.
  unfold video_well_typed, Py.lt.
  destruct (as_num_cases (default (VInt 70) (d !! "engagement_score")))
    as [(eng & -> & Heng)|[-> Heng]].
  - destruct (as_num_cases
                (default (VInt 60) (d !! "eye_contact_percentage")))
      as [(pct & -> & Hpct)|[-> Hpct]].
    + simpl. split; [done|]. intros (_ & _ & Hnot). exfalso. apply Hnot.
      split; intros v Hv; rewrite Hv in *; done.
    + simpl. split.
      * intros [= <-]. repeat split. intros [_ Hwt]. apply Hpct.
        destruct (d !! "eye_contact_percentage") as [v|] eqn:Hv;
          [by apply Hwt|done].
      * by intros (-> & _).
  - simpl. split.
    + intros [= <-]. repeat split. intros [Hwt _]. apply Heng.
      destruct (d !! "engagement_score") as [v|] eqn:Hv;
        [by apply Hwt|done].
    + by intros (-> & _).
Qed.

(** X12. [analyze_answer] raises exactly when the answer is not blank and
    the video signal is not empty and holds a non-number under
    [engagement_score] or [eye_contact_percentage]; the exception is then
    [TypeError].  A blank answer never raises, whatever the video
    signal. *)
Theorem analyze_answer_raises_iff answer question video_data duration e :
  analyze_answer answer question video_data duration = Raise e
  ↔ e = TypeError ∧ is_blank answer = false
    ∧ video_truthy video_data = true ∧ ¬ video_well_typed video_data.
Proof.
  destruct (is_blank answer) eqn:Hblank.
  - unfold analyze_answer. rewrite Hblank. split; [done|].
    intros (_ & ? & _). done.
  - destruct (facial_analysis video_data) as [fd|e'] eqn:Hfd.
    + destruct (facial_analysis_confidence _ _ Hfd) as (nf & Hnf & _).
      destruct (analyze_answer_nonblank answer question video_data duration
                  fd nf Hblank Hfd Hnf) as (b & -> & _).
      split; [done|]. intros (-> & _ & Hrest).
      assert (Hraise : facial_analysis video_data = Raise TypeError)
        by (by apply facial_analysis_raises_iff).
      congruence.
    + rewrite (analyze_answer_raises _ _ _ _ e' Hblank Hfd).
      apply facial_analysis_raises_iff in Hfd as (-> & Htruthy & Hwt).
      split.
      * by intros [= <-].
      * by intros (-> & _).
Qed.

Lemma to_Q_add a b :
  (PyNum.to_Q (PyNum.add a b) == PyNum.to_Q a + PyNum.to_Q b)%Q.
Proof.
  destruct a, b; simpl; try reflexivity. by rewrite inject_Z_plus.
Qed.

Lemma to_Q_sub a b :
  (PyNum.to_Q (PyNum.sub a b) == PyNum.to_Q a - PyNum.to_Q b)%Q.
Proof.
  destruct a, b; simpl; try reflexivity.
  unfold Z.sub. by rewrite inject_Z_plus, inject_Z_opp.
Qed.

Lemma clamp_le n c :
  (PyNum.to_Q n <= c)%Q → (0 <= c)%Q →
  (PyNum.to_Q (PyNum.max (PyNum.Int 0) (PyNum.min (PyNum.Int 100) n)) <= c)%Q.
Proof.
  intros Hn Hc. unfold PyNum.max, PyNum.min, PyNum.gtb.
  destruct (PyNum.ltb n (PyNum.Int 100)) eqn:Hhi.
  - destruct (PyNum.ltb (PyNum.Int 0) n); [done|]. simpl. done.
  - apply not_true_iff_false in Hhi. rewrite ltb_lt in Hhi.
    apply Qnot_lt_le in Hhi. simpl in Hhi.
    change (PyNum.ltb (PyNum.Int 0) (PyNum.Int 100)) with true. simpl.
    by apply Qle_trans with (PyNum.to_Q n).
Qed.

Lemma clamp_ge n c :
  (c <= PyNum.to_Q n)%Q → (c <= 100)%Q →
  (c <= PyNum.to_Q (PyNum.max (PyNum.Int 0) (PyNum.min (PyNum.Int 100) n)))%Q.
Proof.
  intros Hn Hc. unfold PyNum.max, PyNum.min, PyNum.gtb.
  destruct (PyNum.ltb n (PyNum.Int 100)) eqn:Hhi.
  - destruct (PyNum.ltb (PyNum.Int 0) n) eqn:Hlo; [done|].
    apply not_true_iff_false in Hlo. rewrite ltb_lt in Hlo.
    apply Qnot_lt_le in Hlo. simpl in *.
    by apply Qle_trans with (PyNum.to_Q n).
  - change (PyNum.ltb (PyNum.Int 0) (PyNum.Int 100)) with true. simpl. done.
Qed.

(** X13. The two readings of the engagement agree: when the facial
    analysis reports high nervousness its confidence is at most 60, and
    when it reports low nervousness its confidence is at least 60. *)
Theorem nervousness_bounds_confidence video_data fd label :
  video_truthy video_data = true →
  facial_analysis video_data = Ok fd →
  fd !! "nervousness" = Some (VStr label) →
  ∃ confidence,
    fd !! "confidence_level" = Some (VNum confidence)
    ∧ (label = "high" → (PyNum.to_Q confidence <= 60)%Q)
    ∧ (label = "low" → (60 <= PyNum.to_Q confidence)%Q)
    ∧ (label = "high" ∨ label = "moderate" ∨ label = "low").
Proof.
  unfold facial_analysis. intros Htruthy. rewrite Htruthy.
  destruct video_data as [d|]; [|done].
  unfold _analyze_facial_expressions. rewrite Htruthy. unfold Py.lt.
  destruct (Py.as_num (default (VInt 70) _)) as [eng|]; [|done].
  destruct (Py.as_num (default (VInt 60) _)) as [pct|]; [|done].
  cbn [mbind result_bind mret result_ret].
  set (raw := if Py.in_strs _ _ then _ else _).
  intros [= <-]. rewrite lookup_insert_ne by done.
  rewrite lookup_insert_eq. intros [= <-].
  rewrite lookup_insert_eq. eexists. split; [reflexivity|].
  assert (Hraw : (PyNum.to_Q eng - 10 <= PyNum.to_Q raw
                  <= PyNum.to_Q eng + 10)%Q).
  { subst raw. destruct (Py.in_strs _ ["happy"; "focused"]).
    - rewrite to_Q_add. cbn [PyNum.to_Q]. unfold inject_Z. lra.
    - destruct (Py.in_strs _ ["sad"; "worried"]).
      + rewrite to_Q_sub. cbn [PyNum.to_Q]. unfold inject_Z. lra.
      + lra. }
  destruct (PyNum.ltb eng (PyNum.Int 50)) eqn:Hlow.
  - apply ltb_lt in Hlow. cbn [PyNum.to_Q] in Hlow. unfold inject_Z in Hlow.
    split; [|split; [done|by left]].
    intros _. change 60%Q with (PyNum.to_Q (PyNum.round 1 (PyNum.Int 60))).
    apply round_mono, clamp_le; cbn [PyNum.to_Q]; unfold inject_Z; lra.
  - destruct (PyNum.ltb eng (PyNum.Int 70)) eqn:Hmid.
    + split; [done|]. split; [done|]. right. by left.
    + apply not_true_iff_false in Hmid. rewrite ltb_lt in Hmid.
      apply Qnot_lt_le in Hmid. cbn [PyNum.to_Q] in Hmid.
      unfold inject_Z in Hmid.
      split; [done|]. split; [|right; by right].
      intros _. change 60%Q with (PyNum.to_Q (PyNum.round 1 (PyNum.Int 60))).
      apply round_mono, clamp_ge; cbn [PyNum.to_Q]; unfold inject_Z; lra.
Qed.

(** ** Pace and fluency *)

(** X14. The pace label and the fluency deduction use different bounds:
    at a rate from 190 to 200 words per minute the speech analyzer labels
    the pace [too fast], yet the fluency score carries no deduction for
    pace. *)
Theorem too_fast_without_deduction text duration :
  (0 < duration)%Q →
  (190 <= words_per_minute (len (word_tokenize (PyStr.lower text))) duration
   <= 200)%Q →
  _analyze_speech_features text duration !! "speaking_pace"
    = Some (VStr "too fast")
  ∧ _analyze_speech_features text duration !! "fluency_score"
    = Some (VInt (100 - Z.min (filler_count text * 5) 30
                  - Z.min (stutters text * 10) 20
                  - Z.min (pause_indicators text * 5) 15)).
Proof.
  intros Hduration [Hlo Hhi].
  change (_analyze_speech_features text duration !! "speaking_pace")
    with (Some (VStr (_get_speaking_pace (speaking_rate text duration)))).
  change (_analyze_speech_features text duration !! "fluency_score")
    with (Some (VInt (fluency_score text duration))).
  unfold fluency_score, speaking_rate.
  fold (words_per_minute (len (word_tokenize (PyStr.lower text))) duration)
    in *.
  set (rate := words_per_minute _ _) in *.
  assert (Hknown : PyNum.Qltb 0 duration = true) by (by apply Qltb_lt).
  rewrite Hknown. cbv zeta.
  assert (Hcmp : ∀ z : Z,
            PyNum.ltb (PyNum.Float rate) (PyNum.Int z)
            = PyNum.Qltb rate (inject_Z z)) by done.
  assert (Hlt : ∀ z : Z, (inject_Z z <= rate)%Q →
            PyNum.ltb (PyNum.Float rate) (PyNum.Int z) = false).
  { intros z Hz. rewrite Hcmp. apply not_true_iff_false.
    intros Hlt%Qltb_lt. lra. }
  split.
  - unfold _get_speaking_pace.
    assert (Hzero : Qeq_bool (PyNum.to_Q (PyNum.Float rate)) 0 = false).
    { apply not_true_iff_false. intros Hz%Qeq_bool_iff.
      cbn [PyNum.to_Q] in Hz. lra. }
    rewrite Hzero, !Hlt by (unfold inject_Z; lra). reflexivity.
  - assert (Hgt0 : PyNum.gtb (PyNum.Float rate) (PyNum.Int 0) = true).
    { apply ltb_lt. cbn [PyNum.to_Q]. unfold inject_Z. lra. }
    assert (Hgt200 : PyNum.gtb (PyNum.Float rate) (PyNum.Int 200) = false).
    { apply not_true_iff_false. intros Hgt%ltb_lt. cbn [PyNum.to_Q] in Hgt.
      unfold inject_Z in Hgt. lra. }
    rewrite Hgt0, Hlt, Hgt200 by (unfold inject_Z; lra).
    assert (0 <= filler_count text).
    { unfold filler_count. apply occurrences_nonneg. }
    assert (0 <= stutters text) by (unfold stutters; lia).
    assert (0 <= pause_indicators text) by (unfold pause_indicators; lia).
    do 2 f_equal. lia.
Qed.

(** ** Feedback *)

Lemma append_if_head cond msg feedback first rest :
  feedback = first :: rest →
  ∃ rest', append_if cond msg feedback = first :: rest'.
Proof. intros ->. unfold append_if. destruct cond; simpl; eauto. Qed.

Ltac result_step Hres :=
  match type of Hres with
  | context [match ?r with Ok _ => _ | Raise _ => _ end] =>
      let E := fresh "Estep" in
      destruct r eqn:E; [|discriminate Hres]
  end.

Lemma speech_feedback_head analysis feedback feedback' first rest :
  speech_feedback analysis feedback = Ok feedback' →
  feedback = first :: rest →
  ∃ rest', feedback' = first :: rest'.
Proof.
  intros Hres ->. unfold speech_feedback in Hres.
  destruct (Py.has_key analysis "speech_features");
    [|injection Hres as <-; eauto].
  unfold mbind, result_bind, mret, result_ret in Hres.
  repeat result_step Hres. injection Hres as <-.
  unfold append_if.
  repeat match goal with
         | |- context [if ?c then _ else _] => destruct c
         end; simpl; eauto.
Qed.

Lemma facial_feedback_head analysis feedback feedback' first rest :
  facial_feedback analysis feedback = Ok feedback' →
  feedback = first :: rest →
  ∃ rest', feedback' = first :: rest'.
Proof.
  intros Hres ->. unfold facial_feedback in Hres.
  destruct (Py.has_key analysis "facial_expressions");
    [|injection Hres as <-; eauto].
  unfold mbind, result_bind, mret, result_ret in Hres.
  repeat result_step Hres. injection Hres as <-.
  unfold append_if.
  repeat match goal with
         | |- context [if ?c then _ else _] => destruct c
         end; simpl; eauto.
Qed.

(** X15. The rules of [get_feedback] are ranked: whenever it returns on a
    bundle whose content analysis reports no specific example, the first
    string of the list is the advice to add examples, whatever else
    fires and whatever the cut to five strings drops. *)
Theorem get_feedback_examples_first analysis content feedback :
  analysis !! "content_quality" = Some (VDict content) →
  Py.truthy_opt (content !! "has_specific_examples") = false →
  get_feedback analysis = Ok feedback →
  ∃ rest,
    feedback
    = "Add specific examples from your experience to illustrate your points"
      :: rest.
Proof.
  intros Hcontent Hexamples Hres. unfold get_feedback in Hres.
  unfold Py.getitem in Hres at 1. rewrite Hcontent in Hres.
  unfold mbind, result_bind, mret, result_ret in Hres.
  cbn [Py.get] in Hres. rewrite Hexamples in Hres.
  cbn [negb append_if app] in Hres.
  repeat result_step Hres. injection Hres as <-.
  match goal with
  | Hs : speech_feedback _ ?fb = Ok _ |- _ =>
      assert (Hfb : ∃ rest, fb
        = "Add specific examples from your experience to illustrate your points"
          :: rest)
  end.
  { unfold append_if.
    repeat match goal with
           | |- context [if ?c then _ else _] => destruct c
           end; simpl; eauto. }
  destruct Hfb as [rest0 Hfb].
  match goal with
  | Hs : speech_feedback _ _ = Ok ?l |- _ =>
      destruct (speech_feedback_head _ _ _ _ _ Hs Hfb) as [rest1 ->]
  end.
  match goal with
  | Hf : facial_feedback _ _ = Ok ?l |- _ =>
      destruct (facial_feedback_head _ _ _ _ _ Hf eq_refl) as [rest2 ->]
  end.
  unfold append_if.
  repeat match goal with
         | |- context [if ?c then _ else _] => destruct c
         end; simpl; eauto.
Qed.

End MoreProperties.

(** * The video analyzer *)

Lemma length_deque_append {A} (d : list A) (x : A) (maxlen : nat) :
  length d ≤ maxlen → 0 < maxlen →
  length (Video.deque_append maxlen d x)
  = (if decide (length d < maxlen) then S (length d) else length d)
  ∧ length (Video.deque_append maxlen d x) ≤ maxlen.
Proof.
  intros Hlen Hpos. unfold Video.deque_append.
  destruct (decide (length d < maxlen)) as [Hlt|Hge].
  - rewrite length_app. simpl. lia.
  - rewrite length_app, length_drop. simpl. lia.
Qed.

Lemma Forall_deque_append {A} (P : A → Prop) (d : list A) (x : A) maxlen :
  Forall P d → P x → Forall P (Video.deque_append maxlen d x).
Proof.
  intros Hd Hx. unfold Video.deque_append.
  destruct (decide _); apply Forall_app; split; auto using Forall_drop.
Qed.

Lemma analyze_emotion_label landmarks h :
  (Video._analyze_emotion landmarks h).1 ∈ Video.emotions.
Proof.
  unfold Video._analyze_emotion, Video.emotions. cbv zeta.
  repeat match goal with
         | |- context [if ?c then _ else _] => destruct c
         end; simpl; repeat constructor.
Qed.

Lemma analyze_head_pose_label landmarks :
  Video._analyze_head_pose landmarks ∈ Video.postures.
Proof.
  unfold Video._analyze_head_pose, Video.postures. cbv zeta.
  repeat match goal with
         | |- context [if ?c then _ else _] => destruct c
         end; simpl; repeat constructor.
Qed.

Lemma analyze_frame_consistent self frame :
  Video.consistent self → Video.consistent (Video.analyze_frame self frame).1.
Proof.
  intros Hself. unfold Video.analyze_frame.
  destruct frame as [f|]; [|exact Hself].
  destruct Hself as (Hframes & Hemo & Hpos & Hlen & Hface & Hemos & Hposs).
  destruct (Video.detections f).
  - destruct (Video.multi_face_landmarks f) as [lms|].
    + pose proof (analyze_emotion_label lms (Video.height f)) as Hlabel.
      destruct (Video._analyze_emotion lms (Video.height f))
        as [emotion confidence].
      simpl in Hlabel.
      destruct (length_deque_append (Video.emotion_history self) emotion 100)
        as [He He']; [lia..|].
      destruct (length_deque_append (Video.eye_contact_history self)
                  (Video._check_eye_contact lms) 100)
        as [Hc Hc']; [lia..|].
      destruct (length_deque_append (Video.posture_history self)
                  (Video._analyze_head_pose lms) 100)
        as [Hp Hp']; [lia..|].
      unfold Video.consistent. simpl.
      rewrite He, Hp, Hc, Hemo, Hpos in *.
      repeat split; try lia.
      * destruct (decide _); lia.
      * by apply Forall_deque_append.
      * apply Forall_deque_append; [done|apply analyze_head_pose_label].
    + unfold Video.consistent. simpl. repeat split; try done; lia.
  - unfold Video.consistent. simpl. repeat split; try done; lia.
Qed.

Lemma run_preserves self (frames : list (option Video.frame)) :
  Video.consistent self → Video.consistent (Video.run self frames).
Proof.
  unfold Video.run. revert self.
  induction frames as [|f frames IH]; intros self Hself; [done|].
  simpl. apply IH. by apply analyze_frame_consistent.
Qed.

Lemma init_consistent : Video.consistent Video.init.
Proof.
  unfold Video.consistent, Video.init. simpl. repeat split; try lia; done.
Qed.

(** X16. After any sequence of frames analysed from the initial state, the
    analyzer has seen no more face frames than frames, its three histories
    have the same length, at most 100 and at most the number of face
    frames, and they hold only the labels the classifiers return. *)
Theorem run_consistent (frames : list (option Video.frame)) :
  Video.consistent (Video.run Video.init frames).
Proof. apply run_preserves, init_consistent. Qed.

Lemma sum_bools_bounds (history : list bool) :
  (0 <= Video.sum_bools history <= Z.of_nat (length history))%Z.
Proof.
  induction history as [|b history IH]; simpl; [lia|].
  destruct b; simpl Z.b2z; lia.
Qed.

Lemma truediv_fraction (a b : Z) :
  (0 <= a <= b)%Z → (0 < b)%Z → (0 <= PyNum.truediv a b <= 1)%Q.
Proof.
  intros Ha Hb. unfold PyNum.truediv.
  assert (0 < inject_Z b)%Q
    by (change 0%Q with (inject_Z 0); by rewrite <- Zlt_Qlt).
  split.
  - apply Qle_shift_div_l; [done|]. rewrite Qmult_0_l.
    change 0%Q with (inject_Z 0). rewrite <- Zle_Qle. lia.
  - apply Qle_shift_div_r; [done|]. rewrite Qmult_1_l.
    rewrite <- Zle_Qle. lia.
Qed.

Lemma eye_fraction (history : list bool) :
  history ≠ [] →
  (0 <= PyNum.truediv (Video.sum_bools history)
          (Z.of_nat (length history)) <= 1)%Q.
Proof.
  intros Hne. apply truediv_fraction.
  - apply sum_bools_bounds.
  - destruct history; [done|]. simpl. lia.
Qed.

Lemma engagement_score_range self :
  (50 <= PyNum.to_Q (Video._calculate_engagement_score self) <= 75)%Q.
Proof.
  unfold Video._calculate_engagement_score.
  destruct (Video.eye_contact_history self) as [|b history] eqn:Ehist.
  - by compute.
  - pose proof (eye_fraction (b :: history) ltac:(done)) as Hf.
    set (f := PyNum.truediv _ _) in *.
    unfold PyNum.max, PyNum.min, PyNum.gtb.
    assert (Hpos : PyNum.ltb (PyNum.Int 0) (PyNum.Float (50 + f * 25))
                   = true).
    { apply ltb_lt. cbn [PyNum.to_Q]. unfold inject_Z. lra. }
    rewrite Hpos.
    assert (Hlt : PyNum.ltb (PyNum.Float (50 + f * 25)) (PyNum.Int 100)
                  = true).
    { apply ltb_lt. cbn [PyNum.to_Q]. unfold inject_Z. lra. }
    rewrite Hlt. cbn [PyNum.to_Q]. lra.
Qed.

(** X17. For the analyzer state after any sequence of frames, the session
    summary reports a face detection rate and an eye contact percentage
    between 0 and 100 and an engagement score between 50 and 75. *)
Theorem session_summary_ranges (frames : list (option Video.frame)) :
  ∃ rate eye engagement,
    Video.get_session_summary (Video.run Video.init frames)
      !! "face_detection_rate" = Some (VNum rate)
    ∧ Video.get_session_summary (Video.run Video.init frames)
        !! "eye_contact_percentage" = Some (VNum eye)
    ∧ Video.get_session_summary (Video.run Video.init frames)
        !! "engagement_score" = Some (VNum engagement)
    ∧ (0 <= PyNum.to_Q rate <= 100)%Q
    ∧ (0 <= PyNum.to_Q eye <= 100)%Q
    ∧ (50 <= PyNum.to_Q engagement <= 75)%Q.
Proof.
  pose proof (run_preserves _ frames init_consistent) as Hcons.
  set (self := Video.run Video.init frames) in *.
  destruct Hcons as (Hframes & _).
  exists (if (0 <? Video.total_frames self)%Z
          then PyNum.Float
                 (PyNum.truediv (Video.face_detected_frames self)
                    (Video.total_frames self) * 100)%Q
          else PyNum.Int 0),
    (match Video.eye_contact_history self with
     | [] => PyNum.Int 0
     | _ => PyNum.Float
              (PyNum.truediv (Video.sum_bools (Video.eye_contact_history self))
                 (Z.of_nat (length (Video.eye_contact_history self))) * 100)%Q
     end),
    (Video._calculate_engagement_score self).
  split.
  { unfold Video.get_session_summary. cbv zeta.
    rewrite lookup_insert_ne by done. rewrite lookup_insert_eq.
    by destruct (0 <? Video.total_frames self)%Z. }
  split.
  { unfold Video.get_session_summary. cbv zeta.
    rewrite !lookup_insert_ne by done. rewrite lookup_insert_eq.
    by destruct (Video.eye_contact_history self). }
  split; [reflexivity|]. split; [|split].
  - destruct (Z.ltb_spec 0 (Video.total_frames self)) as [Hpos|Hzero].
    + pose proof (truediv_fraction (Video.face_detected_frames self)
                    (Video.total_frames self) Hframes Hpos) as Hf.
      cbn [PyNum.to_Q]. lra.
    + by compute.
  - destruct (Video.eye_contact_history self) as [|b history] eqn:Ehist.
    + by compute.
    + pose proof (eye_fraction (b :: history) ltac:(done)) as Hf.
      cbn [PyNum.to_Q]. lra.
  - apply engagement_score_range.
Qed.

Lemma greatest_emotion_fold (acc : string) (history : list string) :
  acc ∈ Video.emotions →
  Forall (λ e, e ∈ Video.emotions) history →
  foldl Video.str_max acc history = Video.greatest_emotion (acc :: history).
Proof.
  revert acc. induction history as [|e history IH]; intros acc Hacc Hall.
  - unfold Video.emotions in Hacc.
    repeat (apply elem_of_cons in Hacc as [->|Hacc]; [by vm_compute|]).
    by apply not_elem_of_nil in Hacc.
  - apply Forall_cons in Hall as [He Hall]. simpl foldl.
    assert (Hmax : Video.str_max acc e ∈ Video.emotions).
    { unfold Video.str_max. by destruct (String.ltb acc e). }
    rewrite (IH _ Hmax Hall). unfold Video.greatest_emotion.
    unfold Video.emotions in Hacc, He.
    repeat (apply elem_of_cons in Hacc as [->|Hacc]);
      try (by apply not_elem_of_nil in Hacc);
      repeat (apply elem_of_cons in He as [->|He]);
      try (by apply not_elem_of_nil in He);
      match goal with
      | |- context [Video.str_max ?a ?b] =>
          let t := eval vm_compute in (Video.str_max a b) in
          change (Video.str_max a b) with t
      end;
      repeat case_bool_decide; try reflexivity; exfalso;
      repeat match goal with
             | Hm : context [_ ∈ _ :: _] |- _ => rewrite elem_of_cons in Hm
             end;
      intuition discriminate.
Qed.

(** X19. The dominant emotion of the session summary is not the most
    frequent one: after any sequence of frames it is [neutral] as soon as
    the history holds one [neutral] entry (or none at all), [happy] if it
    holds a [happy] entry and no [neutral] one, and [focused] otherwise. *)
Theorem dominant_emotion_is_greatest (frames : list (option Video.frame)) :
  Video.get_session_summary (Video.run Video.init frames)
    !! "dominant_emotion"
  = Some (VStr (Video.greatest_emotion
                  (Video.emotion_history (Video.run Video.init frames)))).
Proof.
  pose proof (run_preserves _ frames init_consistent) as Hcons.
  set (self := Video.run Video.init frames) in *.
  destruct Hcons as (_ & _ & _ & _ & _ & Hemotions & _).
  unfold Video.get_session_summary. cbv zeta.
  rewrite !lookup_insert_ne by done. rewrite lookup_insert_eq.
  do 2 f_equal. unfold Video.max_or.
  destruct (Video.emotion_history self) as [|e history]; [done|].
  apply Forall_cons in Hemotions as [He Hall].
  by apply greatest_emotion_fold.
Qed.

Section VideoSignal.

Context `{Collaborators}.

Lemma analyze_answer_total answer question video_data duration :
  video_well_typed video_data →
  ∃ b, analyze_answer answer question video_data duration = Ok b.
Proof.
  intros Hwt. destruct (is_blank answer) eqn:Hblank.
  - exists _get_empty_analysis. unfold analyze_answer. by rewrite Hblank.
  - destruct (facial_analysis_total _ Hwt) as [fd Hfd].
    destruct (facial_analysis_confidence _ _ Hfd) as (nf & Hnf & _).
    destruct (analyze_answer_nonblank answer question video_data duration
                fd nf Hblank Hfd Hnf) as (b & Hb & _).
    eauto.
Qed.

(** X18. The session summary of the video analyzer is a video signal the
    answer analyzer accepts: after any sequence of frames it is not empty,
    its numeric fields hold numbers, [analyze_answer] given it never
    raises, and the facial analysis of it never reports high
    nervousness. *)
Theorem session_summary_accepted (frames : list (option Video.frame))
    answer question duration :
  video_truthy
    (Some (Video.get_session_summary (Video.run Video.init frames))) = true
  ∧ video_well_typed
      (Some (Video.get_session_summary (Video.run Video.init frames)))
  ∧ (∃ b,
       analyze_answer answer question
         (Some (Video.get_session_summary (Video.run Video.init frames)))
         duration = Ok b)
  ∧ (∃ fd label,
       facial_analysis
         (Some (Video.get_session_summary (Video.run Video.init frames)))
       = Ok fd
       ∧ fd !! "nervousness" = Some (VStr label)
       ∧ label ≠ "high").
Proof.
  set (self := Video.run Video.init frames).
  set (summary := Video.get_session_summary self).
  assert (Heng : summary !! "engagement_score"
                 = Some (VNum (Video._calculate_engagement_score self)))
    by reflexivity.
  assert (Heye : ∃ eye, summary !! "eye_contact_percentage"
                        = Some (VNum eye)).
  { subst summary. unfold Video.get_session_summary. cbv zeta.
    rewrite !lookup_insert_ne by done. rewrite lookup_insert_eq.
    destruct (Video.eye_contact_history self); eauto. }
  destruct Heye as [eye Heye].
  assert (Htruthy : video_truthy (Some summary) = true).
  { unfold video_truthy. apply negb_true_iff, bool_decide_eq_false_2.
    intros Hsize%map_size_empty_iff. rewrite Hsize in Heng. done. }
  assert (Hwt : video_well_typed (Some summary)).
  { split; intros v Hv.
    - rewrite Heng in Hv. injection Hv as <-. exact I.
    - rewrite Heye in Hv. injection Hv as <-. exact I. }
  split; [exact Htruthy|]. split; [exact Hwt|].
  split; [by apply analyze_answer_total|].
  pose proof (engagement_score_range self) as [Hlow _].
  unfold facial_analysis. rewrite Htruthy.
  unfold _analyze_facial_expressions. rewrite Htruthy, Heng, Heye.
  unfold Py.lt.
  cbn [from_option id Py.as_num mbind result_bind mret result_ret].
  assert (Hnot : PyNum.ltb (Video._calculate_engagement_score self)
                   (PyNum.Int 50) = false).
  { apply not_true_iff_false. intros Hlt%ltb_lt. cbn [PyNum.to_Q] in Hlt.
    unfold inject_Z in Hlt. lra. }
  eexists _, _. split; [reflexivity|].
  rewrite lookup_insert_ne by done. rewrite lookup_insert_eq.
  split; [reflexivity|]. rewrite Hnot.
  by destruct (PyNum.ltb _ (PyNum.Int 70)).
Qed.

End VideoSignal.

(** ** Uploaded file names *)

Lemma contains_dot_cons c s :
  PyStr.contains "." (String c s) = Ascii.eqb c "." || PyStr.contains "." s.
Proof.
  cbn [PyStr.contains]. f_equal.
  destruct (Ascii.eqb_spec c ".") as [->|Hne].
  - by rewrite startswith_cons_eq, startswith_empty.
  - apply startswith_cons_ne. congruence.
Qed.

Lemma rsplit_dot_none s :
  PyStr.contains "." s = false → App.rsplit_dot s = [s].
Proof.
  induction s as [|c s IH]; [done|].
  rewrite contains_dot_cons. intros [Hc Hs]%orb_false_elim.
  cbn [App.rsplit_dot]. rewrite (IH Hs), Hc. done.
Qed.

Lemma rsplit_dot_last stem ext :
  PyStr.contains "." ext = false →
  App.rsplit_dot (stem +:+ "." +:+ ext) = [stem; ext].
Proof.
  intros Hext. induction stem as [|c stem IH].
  - change ("" +:+ "." +:+ ext) with (String "." ext).
    cbn [App.rsplit_dot]. by rewrite (rsplit_dot_none _ Hext).
  - change (String c stem +:+ "." +:+ ext)
      with (String c (stem +:+ "." +:+ ext)).
    cbn [App.rsplit_dot]. by rewrite IH.
Qed.

Lemma contains_dot_split s :
  PyStr.contains "." s = true →
  ∃ stem ext, s = stem +:+ "." +:+ ext ∧ PyStr.contains "." ext = false.
Proof.
  induction s as [|c s IH]; [done|].
  rewrite contains_dot_cons.
  destruct (PyStr.contains "." s) eqn:Hs.
  - intros _. destruct (IH eq_refl) as (stem & ext & -> & Hext).
    by exists (String c stem), ext.
  - rewrite orb_false_r. intros ->%Ascii.eqb_eq. by exists "", s.
Qed.

Lemma contains_dot_app stem ext :
  PyStr.contains "." (stem +:+ "." +:+ ext) = true.
Proof.
  apply contains_app_r. change ("." +:+ ext) with (String "." ext).
  by rewrite contains_dot_cons.
Qed.

(** X20. [allowed_file] never raises: the subscript [[1]] is only
    evaluated on a name that holds a dot.  It accepts exactly the names
    [stem.ext] whose text after the last dot is, in lower case, [pdf],
    [docx] or [txt]; only the last extension counts, and a name without a
    dot is refused. *)
Theorem allowed_file_last_extension (filename : string) :
  (∃ b, App.allowed_file filename = Some b)
  ∧ (App.allowed_file filename = Some true
     ↔ ∃ stem ext,
         filename = stem +:+ "." +:+ ext
         ∧ PyStr.contains "." ext = false
         ∧ (PyStr.lower ext = "pdf" ∨ PyStr.lower ext = "docx"
            ∨ PyStr.lower ext = "txt")).
Proof.
  assert (Hmem : ∀ e : string,
             e ∈ App.ALLOWED_EXTENSIONS ↔ e = "pdf" ∨ e = "docx" ∨ e = "txt").
  { intros e. unfold App.ALLOWED_EXTENSIONS.
    rewrite !elem_of_union, !elem_of_singleton. tauto. }
  unfold App.allowed_file.
  destruct (PyStr.contains "." filename) eqn:Hdot.
  - destruct (contains_dot_split _ Hdot) as (stem & ext & -> & Hext).
    rewrite (rsplit_dot_last _ _ Hext). cbn. split; [eauto|].
    split.
    + intros [= Hin%bool_decide_eq_true_1]. exists stem, ext.
      by rewrite <- Hmem.
    + intros (stem' & ext' & Heq & Hext' & Hlow).
      assert (Hsame : [stem; ext] = [stem'; ext']).
      { rewrite <- (rsplit_dot_last _ _ Hext), Heq.
        by apply rsplit_dot_last. }
      injection Hsame as _ <-.
      f_equal. apply bool_decide_eq_true_2. by rewrite Hmem.
  - split; [eauto|]. split; [done|].
    intros (stem & ext & -> & _). by rewrite contains_dot_app in Hdot.
Qed.

(** ** The callers of the analyzer *)

Section Callers.

Context `{Collaborators}.

(** The four scores the callers average, and the overall score, in any
    bundle [analyze_answer] returns. *)
Lemma bundle_scores answer question video_data duration b :
  analyze_answer answer question video_data duration = Ok b →
  ∃ c cl s p o,
    field b "content_quality" "quality_score" = Some (VNum c)
    ∧ field b "clarity" "clarity_score" = Some (VNum cl)
    ∧ field b "sentiment" "confidence_level" = Some (VNum s)
    ∧ field b "professionalism" "professionalism_score" = Some (VNum p)
    ∧ b !! "overall_score" = Some (VNum o)
    ∧ (0 <= PyNum.to_Q c <= 100)%Q ∧ (0 <= PyNum.to_Q cl <= 100)%Q
    ∧ (0 <= PyNum.to_Q s <= 100)%Q ∧ (0 <= PyNum.to_Q p <= 100)%Q
    ∧ (0 <= PyNum.to_Q o <= 100)%Q.
Proof.
  intros Hb. destruct (is_blank answer) eqn:Hblank.
  - unfold analyze_answer in Hb. rewrite Hblank in Hb. injection Hb as <-.
    exists (PyNum.Int 0), (PyNum.Int 0), (PyNum.Int 0), (PyNum.Int 0),
      (PyNum.Int 0).
    repeat split; reflexivity || (by apply int_bounds) || done.
  - destruct (facial_analysis video_data) as [fd|e] eqn:Hfd.
    2: { rewrite (analyze_answer_raises _ _ _ _ e Hblank Hfd) in Hb.
         discriminate. }
    destruct (facial_analysis_confidence _ _ Hfd) as (nf & Hnf & Hnfb).
    destruct (analyze_answer_nonblank answer question video_data duration
                fd nf Hblank Hfd Hnf)
      as (b' & Hb' & _ & Hcq & Hse & _ & Hcl & Hpr & _ & _ & Hov).
    rewrite Hb in Hb'. injection Hb' as <-.
    exists (PyNum.Int (quality_score answer)),
      (PyNum.Int (clarity_score answer)),
      (PyNum.round 1 (sentiment_confidence answer)),
      (PyNum.Int (prof_score answer)).
    eexists. rewrite (field_of_part _ _ _ _ Hcq), (field_of_part _ _ _ _ Hcl),
      (field_of_part _ _ _ _ Hse), (field_of_part _ _ _ _ Hpr).
    split; [reflexivity|]. split; [reflexivity|]. split; [reflexivity|].
    split; [reflexivity|]. split; [exact Hov|].
    split; [apply int_bounds, quality_score_bounds|].
    split; [apply int_bounds, clarity_score_bounds|].
    split; [apply round_bounds, clamp_bounds|].
    split; [apply int_bounds, prof_score_bounds|].
    cbn [PyNum.to_Q].
    apply round_float_1_bounds, weighted_sum_bounds;
      try (apply (int_bounds _ (quality_score_bounds _))
           || apply (int_bounds _ (clarity_score_bounds _))
           || apply (int_bounds _ (prof_score_bounds _))
           || apply (int_bounds _ (fluency_score_bounds _ _))
           || apply round_bounds, relevance_bounds
           || apply round_bounds, clamp_bounds
           || done).
Qed.

Lemma get_feedback_empty_analysis :
  get_feedback _get_empty_analysis = Raise (KeyError "filler_word_count").
Proof. reflexivity. Qed.

Lemma analyze_answer_blank_placeholder answer question video_data duration :
  is_blank answer = true →
  analyze_answer answer question video_data duration
  = Ok _get_empty_analysis.
Proof. intros Hblank. unfold analyze_answer. by rewrite Hblank. Qed.

(** A submission to a session that has a current question, with an answer
    that passes the guard. *)
Lemma submit_answer_nonblank now store session_id data s q :
  store !! session_id = Some s →
  App.questions s !! App.current_question s = Some q →
  is_blank (default "" (App.sub_answer data)) = false →
  ∃ score analysis feedback,
    App.submit_answer now store session_id data
    = (App.Accepted (VNum score) (take 3 feedback)
         (bool_decide (length (App.questions s)
                       ≤ S (App.current_question s))),
       <[session_id :=
           {| App.resume_text := App.resume_text s;
              App.jd_text := App.jd_text s;
              App.questions := App.questions s;
              App.answers :=
                App.answers s
                ++ [{| App.a_question := App.q_question q;
                       App.a_answer := default "" (App.sub_answer data);
                       App.a_duration :=
                         default (VInt 0) (App.sub_duration data);
                       App.a_analysis := analysis;
                       App.a_feedback := feedback;
                       App.a_timestamp := now |}];
              App.current_question := S (App.current_question s);
              App.created_at := App.created_at s |}]> store)
    ∧ analyze_answer (default "" (App.sub_answer data)) (App.q_question q)
        None 0 = Ok analysis
    ∧ get_feedback analysis = Ok feedback
    ∧ analysis !! "overall_score" = Some (VNum score)
    ∧ (0 <= PyNum.to_Q score <= 100)%Q
    ∧ 1 ≤ length feedback ≤ 5.
Proof.
  intros Hs Hq Hblank.
  destruct (analyze_answer_total (default "" (App.sub_answer data))
              (App.q_question q) None 0 I) as [b Hb].
  destruct (bundle_scores _ _ _ _ _ Hb)
    as (_ & _ & _ & _ & o & _ & _ & _ & _ & Hov & _ & _ & _ & _ & Ho).
  destruct (get_feedback_nonblank _ _ _ _ _ Hblank Hb)
    as (feedback & Hfb & Hlen).
  exists o, b, feedback. unfold App.submit_answer.
  rewrite Hs. cbv zeta. rewrite Hq, Hb, Hfb. unfold Py.getitem.
  rewrite Hov. done.
Qed.

(** X21. A submission with an empty or white-space answer (or with no
    [answer] at all) to a session that has a current question is answered
    with the status 500 for [KeyError('filler_word_count')], and the
    session store is left as it was: no answer is recorded and the current
    question does not advance. *)
Theorem submit_answer_blank now store session_id data s q :
  store !! session_id = Some s →
  App.questions s !! App.current_question s = Some q →
  PyStr.all_chars PyStr.is_space (default "" (App.sub_answer data)) = true →
  App.submit_answer now store session_id data
  = (App.ServerError (App.Analyzer (KeyError "filler_word_count")), store).
Proof.
  intros Hs Hq Hblank%is_blank_iff. unfold App.submit_answer.
  rewrite Hs. cbv zeta. rewrite Hq.
  rewrite (analyze_answer_blank_placeholder _ _ _ _ Hblank).
  by rewrite get_feedback_empty_analysis.
Qed.

(** X22. A submission with an answer that is not blank, to a session that
    has a current question, is accepted: the response carries the overall
    score of the analysis, a number between 0 and 100, and the first three
    of the feedback strings, at least one; [is_complete] tells whether the
    question was the last; the store records the answer with its analysis
    and full feedback at the end of the session's answers and moves the
    session to the next question. *)
Theorem submit_answer_accepts now store session_id data s q :
  store !! session_id = Some s →
  App.questions s !! App.current_question s = Some q →
  is_blank (default "" (App.sub_answer data)) = false →
  ∃ score top record s',
    App.submit_answer now store session_id data
    = (App.Accepted (VNum score) top
         (bool_decide (length (App.questions s)
                       ≤ S (App.current_question s))),
       <[session_id := s']> store)
    ∧ (0 <= PyNum.to_Q score <= 100)%Q
    ∧ 1 ≤ length top ≤ 3
    ∧ top = take 3 (App.a_feedback record)
    ∧ App.a_analysis record !! "overall_score" = Some (VNum score)
    ∧ analyze_answer (default "" (App.sub_answer data)) (App.q_question q)
        None 0 = Ok (App.a_analysis record)
    ∧ get_feedback (App.a_analysis record) = Ok (App.a_feedback record)
    ∧ App.a_answer record = default "" (App.sub_answer data)
    ∧ App.a_question record = App.q_question q
    ∧ App.answers s' = App.answers s ++ [record]
    ∧ App.current_question s' = S (App.current_question s)
    ∧ App.questions s' = App.questions s.
Proof.
  intros Hs Hq Hblank.
  destruct (submit_answer_nonblank now _ _ _ _ _ Hs Hq Hblank)
    as (score & analysis & feedback & -> & Hb & Hfb & Hov & Ho & Hlen).
  eexists score, (take 3 feedback), _, _. split; [reflexivity|].
  split; [exact Ho|]. split; [rewrite length_take; lia|].
  repeat split; assumption || reflexivity.
Qed.

(** What a submission can do to the store: nothing, or record one answer
    in the session and move it to the next question. *)
Lemma submit_answer_store now store session_id data :
  (App.submit_answer now store session_id data).2 = store
  ∨ ∃ s record,
      store !! session_id = Some s
      ∧ (App.submit_answer now store session_id data).2
        = <[session_id :=
              {| App.resume_text := App.resume_text s;
                 App.jd_text := App.jd_text s;
                 App.questions := App.questions s;
                 App.answers := App.answers s ++ [record];
                 App.current_question := S (App.current_question s);
                 App.created_at := App.created_at s |}]> store.
Proof.
  unfold App.submit_answer.
  destruct (store !! session_id) as [s|] eqn:Hs; [|by left]. cbv zeta.
  destruct (App.questions s !! App.current_question s) as [q|];
    [|by left].
  destruct (analyze_answer _ _ _ _) as [analysis|]; [|by left].
  destruct (get_feedback analysis) as [feedback|]; [|by left].
  destruct (Py.getitem analysis "overall_score") as [score|]; [|by left].
  right. eexists s, _. split; [reflexivity|]. reflexivity.
Qed.

(** X23. Whatever is submitted, [submit_answer] keeps the store in order:
    no session is added or removed, the sessions other than the addressed
    one are untouched, the questions, the documents and the creation time
    of a session never change, and a session whose number of recorded
    answers equals the index of its current question keeps that. *)
Theorem submit_answer_keeps_sessions now store session_id data :
  let store' := (App.submit_answer now store session_id data).2 in
  dom store' = dom store
  ∧ (∀ other, other ≠ session_id → store' !! other = store !! other)
  ∧ (∀ sid s', store' !! sid = Some s' →
       ∃ s, store !! sid = Some s
            ∧ App.questions s' = App.questions s
            ∧ App.resume_text s' = App.resume_text s
            ∧ App.jd_text s' = App.jd_text s
            ∧ App.created_at s' = App.created_at s
            ∧ App.current_question s ≤ App.current_question s'
            ∧ (App.in_step s → App.in_step s')).
Proof.
  intros store'. subst store'.
  destruct (submit_answer_store now store session_id data)
    as [->|(s & record & Hs & ->)].
  { split; [done|]. split; [done|]. intros sid s' Hs'. by exists s'. }
  split.
  { apply dom_insert_lookup_L. by rewrite Hs. }
  split.
  { intros other Hne. by rewrite lookup_insert_ne. }
  intros sid s' Hs'. destruct (decide (sid = session_id)) as [->|Hne].
  - rewrite lookup_insert_eq in Hs'. injection Hs' as <-.
    exists s. cbn. repeat split; try done; [lia|].
    unfold App.in_step. cbn. rewrite length_app. cbn. lia.
  - rewrite lookup_insert_ne in Hs' by done. by exists s'.
Qed.

Lemma submit_answer_out_of_range now store session_id data s :
  store !! session_id = Some s →
  length (App.questions s) ≤ App.current_question s →
  App.submit_answer now store session_id data
  = (App.ServerError App.IndexError, store).
Proof.
  intros Hs Hlen. unfold App.submit_answer. rewrite Hs. cbv zeta.
  by rewrite (lookup_ge_None_2 _ _ Hlen).
Qed.

Lemma get_question_completed_inv store session_id :
  App.get_question store session_id = App.Completed →
  ∃ s, store !! session_id = Some s
       ∧ length (App.questions s) ≤ App.current_question s.
Proof.
  unfold App.get_question.
  destruct (negb _ || _); [done|].
  destruct (store !! session_id) as [s|]; [|done]. cbv zeta.
  case_bool_decide as Hlen; [by eauto|].
  by destruct (App.questions s !! App.current_question s).
Qed.

(** X24. [get_question] never answers with the status 500: its test of the
    index protects the subscript.  [submit_answer] has no such test: once
    [get_question] reports the interview completed, every submission to
    the session is answered with the status 500 for an [IndexError], and
    the store is left as it was. *)
Theorem completed_session_refuses store session_id :
  (∀ e, App.get_question store session_id ≠ App.QuestionError e)
  ∧ (App.get_question store session_id = App.Completed →
     ∀ now data,
       App.submit_answer now store session_id data
       = (App.ServerError App.IndexError, store)).
Proof.
  split.
  - intros e. unfold App.get_question.
    destruct (negb _ || _); [done|].
    destruct (store !! session_id) as [s|]; [|done]. cbv zeta.
    case_bool_decide as Hlen; [done|].
    destruct (App.questions s !! App.current_question s) eqn:Hq; [done|].
    apply lookup_ge_None_1 in Hq. lia.
  - intros (s & Hs & Hlen)%get_question_completed_inv now data.
    by apply (submit_answer_out_of_range _ _ _ _ s).
Qed.

Lemma submit_all_progress session_id bodies :
  ∀ store s,
    store !! session_id = Some s →
    Forall (λ body : string * App.submission,
              is_blank (default "" (App.sub_answer body.2)) = false)
      bodies →
    App.current_question s + length bodies ≤ length (App.questions s) →
    ∃ s',
      (App.submit_all store session_id bodies).2
      = <[session_id := s']> store
      ∧ App.questions s' = App.questions s
      ∧ App.current_question s' = App.current_question s + length bodies
      ∧ length (App.answers s') = length (App.answers s) + length bodies
      ∧ length (App.submit_all store session_id bodies).1 = length bodies
      ∧ ∀ i r,
          (App.submit_all store session_id bodies).1 !! i = Some r →
          ∃ score top,
            r = App.Accepted score top
                  (bool_decide (length (App.questions s)
                                ≤ S (App.current_question s + i)))
            ∧ 1 ≤ length top ≤ 3.
Proof.
  induction bodies as [|[now data] rest IH]; intros store s Hs Hbodies Hlen.
  - exists s. cbn. rewrite insert_id by done.
    repeat split; try done; lia.
  - apply Forall_cons in Hbodies as [Hblank Hrest]. cbn in Hblank, Hlen.
    destruct (lookup_lt_is_Some_2 (App.questions s) (App.current_question s))
      as [q Hq]; [lia|].
    destruct (submit_answer_nonblank now _ _ _ _ _ Hs Hq Hblank)
      as (score & analysis & feedback & Hsubmit & _ & _ & _ & _ & Hfb).
    cbn [App.submit_all]. rewrite Hsubmit.
    match goal with
    | |- context [App.submit_all (<[session_id := ?next]> store)] =>
        set (s1 := next)
    end.
    destruct (IH (<[session_id := s1]> store) s1) as
      (s' & Hstore & Hquestions & Hcurrent & Hanswers & Hresponses & Heach).
    { by rewrite lookup_insert_eq. }
    { done. }
    { subst s1. cbn. lia. }
    destruct (App.submit_all (<[session_id := s1]> store) session_id rest)
      as [responses store2].
    cbn [fst snd] in *. exists s'.
    split; [by rewrite Hstore, insert_insert_eq|].
    split; [by rewrite Hquestions|].
    split; [rewrite Hcurrent; subst s1; cbn; lia|].
    split; [rewrite Hanswers; subst s1; cbn; rewrite length_app; cbn; lia|].
    split; [cbn; lia|].
    intros [|i] r Hr.
    + injection Hr as <-. eexists _, _. rewrite Nat.add_0_r.
      split; [reflexivity|]. rewrite length_take. lia.
    + destruct (Heach i r Hr) as (score' & top & -> & Htop).
      exists score', top. split; [|done]. subst s1. cbn.
      by rewrite Nat.add_succ_r.
Qed.

(** X25. Answering every question of a newly stored session with an
    answer that is not blank completes the interview: each submission is
    accepted with one to three feedback strings, [is_complete] is true in
    the last response and in no earlier one, the session holds one
    recorded answer for each question, and [get_question] then reports the
    interview completed. *)
Theorem submit_all_completes store session_id resume jd all_questions
    created bodies :
  session_id ≠ "" →
  store !! session_id
  = Some (App.new_session resume jd all_questions created) →
  length bodies = length all_questions →
  Forall (λ body : string * App.submission,
            is_blank (default "" (App.sub_answer body.2)) = false) bodies →
  ∃ s',
    (App.submit_all store session_id bodies).2 = <[session_id := s']> store
    ∧ App.questions s' = all_questions
    ∧ length (App.answers s') = length all_questions
    ∧ App.current_question s' = length all_questions
    ∧ length (App.submit_all store session_id bodies).1
      = length all_questions
    ∧ (∀ i r,
         (App.submit_all store session_id bodies).1 !! i = Some r →
         ∃ score top,
           r = App.Accepted score top
                 (bool_decide (length all_questions = S i))
           ∧ 1 ≤ length top ≤ 3)
    ∧ App.get_question (App.submit_all store session_id bodies).2
        session_id = App.Completed.
Proof.
  intros Hid Hs Hlen Hbodies.
  destruct (submit_all_progress session_id bodies store _ Hs Hbodies)
    as (s' & Hstore & Hquestions & Hcurrent & Hanswers & Hresponses & Heach).
  { cbn. lia. }
  cbn in Hquestions, Hcurrent, Hanswers. exists s'.
  split; [done|]. split; [done|]. split; [lia|]. split; [lia|].
  split; [lia|]. split.
  - intros i r Hr. destruct (Heach i r Hr) as (score & top & -> & Htop).
    exists score, top. split; [|done]. f_equal. cbn.
    apply lookup_lt_Some in Hr. apply bool_decide_ext. lia.
  - rewrite Hstore. unfold App.get_question.
    assert (Hempty : negb (PyStr.truthy session_id)
                     || bool_decide (session_id = "") = false).
    { destruct session_id; [done|]. cbn. by apply bool_decide_eq_false_2. }
    rewrite Hempty, lookup_insert_eq. cbv zeta.
    rewrite bool_decide_eq_true_2; [done|]. rewrite Hquestions. lia.
Qed.

End Callers.

(** ** The interview system *)

Section InterviewQuestions.

Context `{Collaborators}.

(** X26. What [run_interview] stores for a question depends on the text
    heard: with nothing heard, or the empty text, the placeholder analysis
    and the single feedback [No answer provided], without calling
    [get_feedback]; with a text of white space only the step raises
    [KeyError('filler_word_count')], as the text passes the test
    [if answer_text] and [get_feedback] is given the placeholder; with any
    other text the analysis [analyze_answer] returns for it and the one to
    five strings of [get_feedback].  Whatever is stored is a bundle of
    [analyze_answer]. *)
Theorem record_answer_cases (q : Interview.q_data)
    (answer_text : option string) (audio : pydict) :
  match answer_text with
  | Some (String c rest as text) =>
      if is_blank text
      then Interview.record_answer q answer_text audio
           = Raise (KeyError "filler_word_count")
      else ∃ analysis feedback,
             Interview.record_answer q answer_text audio
             = Ok {| Interview.question := Interview.question q;
                     Interview.category := Interview.category q;
                     Interview.difficulty := Interview.difficulty q;
                     Interview.focus_area := Interview.focus_area q;
                     Interview.answer := text;
                     Interview.analysis := analysis;
                     Interview.feedback := feedback;
                     Interview.audio_analysis := Some audio |}
             ∧ analyze_answer text (Interview.question q) None 0
               = Ok analysis
             ∧ get_feedback analysis = Ok feedback
             ∧ 1 ≤ length feedback ≤ 5
  | _ =>
      Interview.record_answer q answer_text audio
      = Ok (Interview.unanswered q)
      ∧ Interview.feedback (Interview.unanswered q) = ["No answer provided"]
      ∧ Interview.analysis (Interview.unanswered q) = _get_empty_analysis
  end
  ∧ ∀ q', Interview.record_answer q answer_text audio = Ok q' →
          Interview.analysed q'
          ∧ Interview.question q' = Interview.question q.
Proof.
  assert (Hplaceholder : Interview.analysed (Interview.unanswered q)).
  { right. exists "", "", None, 0%Q. reflexivity. }
  destruct answer_text as [[|c rest]|].
  - split; [done|]. by intros q' [= <-].
  - set (text := String c rest). unfold Interview.record_answer.
    change (PyStr.truthy text) with true. cbv iota.
    destruct (is_blank text) eqn:Hblank.
    + rewrite (analyze_answer_blank_placeholder _ _ _ _ Hblank).
      change (Ok _get_empty_analysis ≫= ?f) with (f _get_empty_analysis).
      cbv beta. rewrite get_feedback_empty_analysis. done.
    + destruct (analyze_answer_total text (Interview.question q) None 0 I)
        as [b Hb].
      destruct (bundle_scores _ _ _ _ _ Hb)
        as (_ & _ & _ & _ & o & _ & _ & _ & _ & Hov & _).
      destruct (get_feedback_nonblank _ _ _ _ _ Hblank Hb)
        as (feedback & Hfb & Hlen).
      rewrite Hb. change (Ok b ≫= ?f) with (f b). cbv beta.
      rewrite Hfb. change (Ok feedback ≫= ?f) with (f feedback). cbv beta.
      unfold Py.getitem. rewrite Hov.
      split; [by exists b, feedback|].
      intros q' [= <-]. split; [|done]. right.
      by exists text, (Interview.question q), None, 0%Q.
  - split; [done|]. by intros q' [= <-].
Qed.

End InterviewQuestions.

(** ** Final scores, strengths and improvements *)


Lemma rate_number v high low strength improvement lists :
  is_number v →
  ∃ lists',
    Interview.rate v high low strength improvement lists = Ok lists'
    ∧ (lists' = (lists.1 ++ [strength], lists.2)
       ∨ lists' = (lists.1, lists.2 ++ [improvement])
       ∨ lists' = lists).
Proof.
  intros [n Hn]%as_num_number. unfold Interview.rate. rewrite Hn.
  change (Ok n ≫= ?f) with (f n). cbv beta.
  destruct (Interview.geb n _); [eauto|].
  destruct (PyNum.ltb n _); eauto.
Qed.

Lemma rate_lengths v high low strength improvement lists :
  is_number v →
  ∃ lists',
    Interview.rate v high low strength improvement lists = Ok lists'
    ∧ length lists'.1 + length lists'.2
      ≤ S (length lists.1 + length lists.2)
    ∧ ∀ x, x ∈ lists.2 → x ∈ lists'.2.
Proof.
  intros Hv.
  destruct (rate_number v high low strength improvement lists Hv)
    as (lists' & Hrate & Hcases).
  exists lists'. split; [done|].
  destruct Hcases as [->| [->| ->]]; cbn; rewrite ?length_app; cbn;
    (split; [lia|]); intros x Hx; rewrite ?elem_of_app; auto.
Qed.

Lemma identify_strengths_improvements_total (self : Interview.interview_data) :
  (∀ key v, key ∈ Interview.score_keys →
            Interview.metrics self !! key = Some v → is_number v) →
  (∀ v, Interview.video_analysis self !! "eye_contact_percentage" = Some v →
        is_number v) →
  ∃ self',
    Interview._identify_strengths_improvements self = Ok self'
    ∧ Interview.questions self' = Interview.questions self
    ∧ Interview.overall_score self' = Interview.overall_score self
    ∧ Interview.metrics self' = Interview.metrics self
    ∧ Interview.video_analysis self' = Interview.video_analysis self
    ∧ 1 ≤ length (Interview.strengths self') ≤ 5
    ∧ 1 ≤ length (Interview.improvements self') ≤ 5
    ∧ length (Interview.strengths self')
      + length (Interview.improvements self') ≤ 6
    ∧ (Interview.video_analysis self !! "eye_contact_percentage" = None →
       "Maintain better eye contact with the camera"
       ∈ Interview.improvements self').
Proof.
  intros Hmetrics Heye.
  assert (Hscore : ∀ key, key ∈ Interview.score_keys →
            is_number (default (VInt 0) (Interview.metrics self !! key))).
  { intros key Hkey.
    destruct (Interview.metrics self !! key) as [v|] eqn:Hv; [|exact I].
    exact (Hmetrics key v Hkey Hv). }
  assert (Hpct : is_number
            (default (VInt 0)
               (Interview.video_analysis self !! "eye_contact_percentage"))).
  { destruct (Interview.video_analysis self !! "eye_contact_percentage")
      as [v|]; [|exact I]. exact (Heye v eq_refl). }
  unfold Interview._identify_strengths_improvements. cbv zeta.
  destruct (rate_lengths
              (default (VInt 0) (Interview.metrics self !! "content_score"))
              75 60
              "Strong content quality with good examples and details"
              "Provide more specific examples and quantifiable achievements"
              ([], []))
    as (l1 & -> & Hl1 & _).
  { apply Hscore. unfold Interview.score_keys. set_solver. }
  change (Ok l1 ≫= ?f) with (f l1). cbv beta.
  destruct (rate_lengths
              (default (VInt 0) (Interview.metrics self !! "clarity_score"))
              75 60 "Clear and articulate communication"
              "Improve clarity by reducing filler words and organizing thoughts better"
              l1)
    as (l2 & -> & Hl2 & _).
  { apply Hscore. unfold Interview.score_keys. set_solver. }
  change (Ok l2 ≫= ?f) with (f l2). cbv beta.
  destruct (rate_lengths
              (default (VInt 0)
                 (Interview.metrics self !! "confidence_score"))
              75 60 "Confident and positive demeanor"
              "Build confidence through more preparation and practice" l2)
    as (l3 & -> & Hl3 & _).
  { apply Hscore. unfold Interview.score_keys. set_solver. }
  change (Ok l3 ≫= ?f) with (f l3). cbv beta.
  destruct (rate_lengths
              (default (VInt 0)
                 (Interview.metrics self !! "professionalism_score"))
              75 60 "Professional language and tone"
              "Use more professional language and avoid casual expressions"
              l3)
    as (l4 & -> & Hl4 & _).
  { apply Hscore. unfold Interview.score_keys. set_solver. }
  change (Ok l4 ≫= ?f) with (f l4). cbv beta.
  destruct (rate_lengths
              (default (VInt 0)
                 (Interview.video_analysis self
                  !! "eye_contact_percentage"))
              70 50 "Good eye contact and engagement"
              "Maintain better eye contact with the camera" l4 Hpct)
    as (l5 & Hrate & Hl5 & _).
  rewrite Hrate. change (Ok l5 ≫= ?f) with (f l5). cbv beta.
  eexists. split; [reflexivity|]. cbn in Hl1.
  cbn [Interview.questions Interview.overall_score Interview.metrics
       Interview.video_analysis Interview.strengths Interview.improvements].
  split; [done|]. split; [done|]. split; [done|]. split; [done|].
  assert (Hmissing :
            Interview.video_analysis self !! "eye_contact_percentage" = None →
            "Maintain better eye contact with the camera" ∈ l5.2).
  { intros Hnone. rewrite Hnone in Hrate. cbn in Hrate.
    injection Hrate as <-. cbn. rewrite elem_of_app, list_elem_of_singleton.
    by right. }
  destruct l5 as [[|s5 strengths5] [|i5 improvements5]];
    cbn [fst snd length] in *;
    (split; [lia|]); (split; [lia|]); (split; [lia|]);
    intros Hnone; specialize (Hmissing Hnone);
    solve [by apply elem_of_nil in Hmissing | exact Hmissing].
Qed.

(** X27. On metrics that are numbers, [_identify_strengths_improvements]
    does not raise and changes only the two lists: each gets between one
    and five entries, together at most six, as each of the five rated
    scores adds to at most one of them.  With a video analysis that holds
    no [eye_contact_percentage], as the empty one of an interview without
    video, the improvements always hold the advice on eye contact. *)
Theorem strengths_improvements_filled (self : Interview.interview_data) :
  (∀ key v, key ∈ Interview.score_keys →
            Interview.metrics self !! key = Some v → is_number v) →
  (∀ v, Interview.video_analysis self !! "eye_contact_percentage" = Some v →
        is_number v) →
  ∃ self',
    Interview._identify_strengths_improvements self = Ok self'
    ∧ Interview.questions self' = Interview.questions self
    ∧ Interview.overall_score self' = Interview.overall_score self
    ∧ Interview.metrics self' = Interview.metrics self
    ∧ Interview.video_analysis self' = Interview.video_analysis self
    ∧ 1 ≤ length (Interview.strengths self') ≤ 5
    ∧ 1 ≤ length (Interview.improvements self') ≤ 5
    ∧ length (Interview.strengths self')
      + length (Interview.improvements self') ≤ 6
    ∧ (Interview.video_analysis self !! "eye_contact_percentage" = None →
       "Maintain better eye contact with the camera"
       ∈ Interview.improvements self').
Proof. apply identify_strengths_improvements_total. Qed.




Section FinalScores.

Context `{Collaborators}.







End FinalScores.

(** ** Action items *)

Lemma below_total data part name limit :
  (∀ v, data !! part = Some v → ∃ d, v = VDict d) →
  (∀ v, field data part name = Some v → is_number v) →
  ∃ b, Report.below data part name limit = Ok b.
Proof.
  unfold Report.below, Py.get_default, Py.get, Py.lt, field.
  intros Hdict Hnumber. destruct (data !! part) as [v|].
  - destruct (Hdict v eq_refl) as [d ->]. cbn.
    destruct (d !! name) as [x|]; cbn; [|eauto].
    destruct (as_num_number x (Hnumber x eq_refl)) as [n ->]. cbn. eauto.
  - cbn. rewrite lookup_empty. cbn. eauto.
Qed.

Lemma below_missing data part name limit :
  data !! part = None →
  Report.below data part name limit
  = Ok (PyNum.ltb (PyNum.Int 100) (PyNum.Int limit)).
Proof.
  intros Hpart. unfold Report.below. rewrite Hpart. cbn.
  by rewrite lookup_empty.
Qed.

(** X29. On report data whose [metrics] and [video_analysis], when
    present, are dictionaries with numbers for the four readings,
    [_generate_action_items] does not raise and returns between one and
    four items, so the slice [[:5]] never drops one; the three general
    items are returned exactly when none of the four readings is below its
    limit.  Report data that holds neither [metrics] nor [video_analysis],
    as the data [app_fixed.generate_report] passes, always gets the three
    general items. *)
Theorem action_items_range (data : pydict) :
  (∀ part v, part ∈ ["metrics"; "video_analysis"] →
             data !! part = Some v → ∃ d, v = VDict d) →
  (∀ part name limit v, (part, name, limit) ∈ Report.rules →
                        field data part name = Some v → is_number v) →
  ∃ items,
    Report._generate_action_items data = Ok items
    ∧ 1 ≤ length items ≤ 4
    ∧ (items = Report.general_items
       ↔ ∀ part name limit, (part, name, limit) ∈ Report.rules →
                            Report.below data part name limit = Ok false)
    ∧ (data !! "metrics" = None → data !! "video_analysis" = None →
       items = Report.general_items).
Proof.
  intros Hdict Hnumber.
  assert (Hrule : ∀ part name limit, (part, name, limit) ∈ Report.rules →
            ∃ b, Report.below data part name limit = Ok b).
  { intros part name limit Hin. apply below_total.
    - intros v. apply Hdict. unfold Report.rules in Hin.
      repeat (apply elem_of_cons in Hin as [[= -> _ _]|Hin];
              [repeat constructor|]).
      by apply elem_of_nil in Hin.
    - intros v. by apply (Hnumber part name limit). }
  destruct (Hrule "metrics" "content_score" 70%Z) as [b1 H1];
    [unfold Report.rules; repeat constructor|].
  destruct (Hrule "metrics" "clarity_score" 70%Z) as [b2 H2];
    [unfold Report.rules; repeat constructor|].
  destruct (Hrule "metrics" "confidence_score" 70%Z) as [b3 H3];
    [unfold Report.rules; repeat constructor|].
  destruct (Hrule "video_analysis" "eye_contact_percentage" 60%Z)
    as [b4 H4]; [unfold Report.rules; repeat constructor|].
  assert (Hall : (∀ part name limit, (part, name, limit) ∈ Report.rules →
                    Report.below data part name limit = Ok false)
                 ↔ b1 = false ∧ b2 = false ∧ b3 = false ∧ b4 = false).
  { split.
    - intros Hfalse.
      rewrite (Hfalse "metrics" "content_score" 70%Z) in H1
        by (unfold Report.rules; repeat constructor).
      rewrite (Hfalse "metrics" "clarity_score" 70%Z) in H2
        by (unfold Report.rules; repeat constructor).
      rewrite (Hfalse "metrics" "confidence_score" 70%Z) in H3
        by (unfold Report.rules; repeat constructor).
      rewrite (Hfalse "video_analysis" "eye_contact_percentage" 60%Z) in H4
        by (unfold Report.rules; repeat constructor).
      by simplify_eq.
    - intros (-> & -> & -> & ->) part name limit Hin.
      unfold Report.rules in Hin.
      repeat (apply elem_of_cons in Hin as [[= -> -> ->]|Hin]; [done|]).
      by apply elem_of_nil in Hin. }
  unfold Report._generate_action_items. rewrite H1, H2, H3, H4.
  change (Ok ?b ≫= ?f) with (f b). cbv beta zeta.
  eexists. split; [reflexivity|]. rewrite Hall.
  split; [destruct b1, b2, b3, b4; cbn; lia|].
  split.
  - destruct b1, b2, b3, b4; cbn; split;
      solve [done | intros (? & ? & ? & ?); done | intros [=] ].
  - intros Hm Hv.
    rewrite (below_missing _ _ _ _ Hm) in H1.
    rewrite (below_missing _ _ _ _ Hm) in H2.
    rewrite (below_missing _ _ _ _ Hm) in H3.
    rewrite (below_missing _ _ _ _ Hv) in H4.
    injection H1 as <-. injection H2 as <-. injection H3 as <-.
    injection H4 as <-. reflexivity.
Qed.

(** * The further properties on concrete inputs *)

(** X3 on a halting answer that says [yeah]. *)
Lemma casual_like_is_filler_witness :
  (PyStr.contains "like" (PyStr.lower Plain.halting_answer) = true
   ∨ PyStr.contains "yeah" (PyStr.lower Plain.halting_answer) = true)
  ∧ ∃ casual fillers,
      _analyze_professionalism Plain.halting_answer !! "casual_language"
      = Some (VInt casual)
      ∧ _analyze_speech_features Plain.halting_answer 0
          !! "filler_word_count" = Some (VInt fillers)
      ∧ (1 <= casual)%Z ∧ (1 <= fillers)%Z.
Proof.
  assert (Hin : PyStr.contains "like" (PyStr.lower Plain.halting_answer)
                = true
                ∨ PyStr.contains "yeah" (PyStr.lower Plain.halting_answer)
                  = true) by (right; reflexivity).
  split; [exact Hin|].
  exact (casual_like_is_filler Plain.halting_answer 0 Hin).
Defined.


(** X9 on a short answer without a video signal. *)
Lemma overall_score_zero_iff_blank_witness :
  ∃ b,
    analyze_answer Plain.built_answer Plain.built_question None 0 = Ok b
    ∧ ∃ overall,
        b !! "overall_score" = Some (VNum overall)
        ∧ (238 # 10 <= PyNum.to_Q overall <= 100)%Q.
Proof.
  destruct (analyze_answer_nonblank Plain.built_answer Plain.built_question
              None 0 ∅ (PyNum.Int 70) eq_refl eq_refl eq_refl)
    as (b & Hb & _).
  exists b. split; [exact Hb|].
  destruct (overall_score_zero_iff_blank Plain.built_answer
              Plain.built_question None 0 b Hb)
    as (overall & Hov & _ & Hrange).
  exists overall. split; [exact Hov|]. apply Hrange. reflexivity.
Defined.

(** X10 from the placeholder to a bundle of scores 80. *)
Lemma calculate_overall_score_mono_witness :
  (∀ part name, (part, name) ∈ designated_scores →
                score_le _get_empty_analysis Sample.even_bundle part name)
  ∧ ∃ overall overall',
      _calculate_overall_score _get_empty_analysis = Ok overall
      ∧ _calculate_overall_score Sample.even_bundle = Ok overall'
      ∧ (overall <= overall')%Q.
Proof.
  assert (Hle : ∀ part name, (part, name) ∈ designated_scores →
            score_le _get_empty_analysis Sample.even_bundle part name).
  { intros part name Hin. unfold designated_scores in Hin.
    repeat (apply elem_of_cons in Hin as [[= -> ->]|Hin];
            [exists (PyNum.Int 0), (PyNum.Int 80);
             split; [reflexivity|]; split; [reflexivity|]; discriminate|]).
    by apply elem_of_nil in Hin. }
  split; [exact Hle|].
  exact (calculate_overall_score_mono _get_empty_analysis
           Sample.even_bundle Hle).
Defined.

(** X11 on a video signal that only counts frames. *)
Lemma facial_missing_keys_witness :
  size Sample.bare_video ≠ 0%nat
  ∧ Sample.bare_video !! "eye_contact_percentage" = None
  ∧ Sample.bare_video !! "dominant_emotion" = None
  ∧ Sample.bare_video !! "engagement_score" = None
  ∧ _analyze_facial_expressions (Some Sample.bare_video)
    = Ok (<["confidence_level" := VInt 70]>
         (<["nervousness" := VStr "low"]>
         (<["eye_contact" := VStr "good"]>
         (<["eye_contact_percentage" := VInt 60]>
         (<["dominant_emotion" := VStr "neutral"]>
         (<["engagement_score" := VInt 70]> ∅)))))).
Proof.
  assert (Hsize : size Sample.bare_video ≠ 0%nat).
  { unfold Sample.bare_video. rewrite map_size_insert_None by done.
    discriminate. }
  split; [exact Hsize|]. split; [reflexivity|]. split; [reflexivity|].
  split; [reflexivity|].
  exact (facial_missing_keys Sample.bare_video Hsize eq_refl eq_refl
           eq_refl).
Defined.

(** X13 on an attentive video signal. *)
Lemma nervousness_bounds_confidence_witness :
  video_truthy Plain.attentive_video = true
  ∧ ∃ fd,
      facial_analysis Plain.attentive_video = Ok fd
      ∧ fd !! "nervousness" = Some (VStr "low")
      ∧ ∃ confidence,
          fd !! "confidence_level" = Some (VNum confidence)
          ∧ (60 <= PyNum.to_Q confidence)%Q.
Proof.
  split; [reflexivity|].
  assert (Hfd : facial_analysis Plain.attentive_video
                = Ok Sample.attentive_facial) by reflexivity.
  exists Sample.attentive_facial. split; [exact Hfd|].
  split; [reflexivity|].
  destruct (nervousness_bounds_confidence Plain.attentive_video
              Sample.attentive_facial "low" eq_refl Hfd eq_refl)
    as (confidence & Hc & _ & Hlow & _).
  exists confidence. split; [exact Hc|]. apply Hlow. reflexivity.
Defined.

(** X14 on eleven tokens spoken at 195 words per minute. *)
Lemma too_fast_without_deduction_witness :
  (0 < 44 # 13)%Q
  ∧ (190 <= words_per_minute
              (len (word_tokenize (PyStr.lower Plain.halting_answer)))
              (44 # 13) <= 200)%Q
  ∧ _analyze_speech_features Plain.halting_answer (44 # 13)
      !! "speaking_pace" = Some (VStr "too fast")
  ∧ _analyze_speech_features Plain.halting_answer (44 # 13)
      !! "fluency_score"
    = Some (VInt (100 - Z.min (filler_count Plain.halting_answer * 5) 30
                  - Z.min (stutters Plain.halting_answer * 10) 20
                  - Z.min (pause_indicators Plain.halting_answer * 5) 15)).
Proof.
  assert (Hrate : (190 <= words_per_minute
                     (len (word_tokenize
                             (PyStr.lower Plain.halting_answer)))
                     (44 # 13) <= 200)%Q)
    by (split; vm_compute; discriminate).
  split; [reflexivity|]. split; [exact Hrate|].
  exact (too_fast_without_deduction Plain.halting_answer (44 # 13)
           eq_refl Hrate).
Defined.

(** X15 on the bundle of a short answer without examples. *)
Lemma get_feedback_examples_first_witness :
  ∃ b feedback rest,
    analyze_answer Plain.built_answer Plain.built_question None 0 = Ok b
    ∧ b !! "content_quality"
      = Some (VDict (_analyze_content_quality Plain.built_answer
                       Plain.built_question))
    ∧ Py.truthy_opt
        (_analyze_content_quality Plain.built_answer Plain.built_question
         !! "has_specific_examples") = false
    ∧ get_feedback b = Ok feedback
    ∧ feedback
      = "Add specific examples from your experience to illustrate your points"
        :: rest.
Proof.
  destruct (analyze_answer_nonblank Plain.built_answer Plain.built_question
              None 0 ∅ (PyNum.Int 70) eq_refl eq_refl eq_refl)
    as (b & Hb & _ & Hcq & _).
  destruct (get_feedback_nonblank Plain.built_answer Plain.built_question
              None 0 b eq_refl Hb) as (feedback & Hfb & _).
  destruct (get_feedback_examples_first b _ feedback Hcq eq_refl Hfb)
    as [rest Hrest].
  exists b, feedback, rest.
  split; [exact Hb|]. split; [exact Hcq|]. split; [reflexivity|].
  split; [exact Hfb|exact Hrest].
Defined.

(** X21 on a submission of three spaces. *)
Lemma submit_answer_blank_witness :
  Sample.store !! "s1"
  = Some (App.new_session "resume" "job description" [Sample.question]
            "2024-01-01T10:00:00")
  ∧ PyStr.all_chars PyStr.is_space
      (default "" (App.sub_answer Sample.blank_submission)) = true
  ∧ App.submit_answer "2024-01-01T10:05:00" Sample.store "s1"
      Sample.blank_submission
    = (App.ServerError (App.Analyzer (KeyError "filler_word_count")),
       Sample.store).
Proof.
  split; [reflexivity|]. split; [reflexivity|].
  exact (submit_answer_blank "2024-01-01T10:05:00" Sample.store "s1"
           Sample.blank_submission _ Sample.question eq_refl eq_refl
           eq_refl).
Defined.

(** X22 on a submission that answers the question. *)
Lemma submit_answer_accepts_witness :
  is_blank (default "" (App.sub_answer Sample.submission)) = false
  ∧ ∃ score top s',
      App.submit_answer "2024-01-01T10:05:00" Sample.store "s1"
        Sample.submission
      = (App.Accepted (VNum score) top true,
         <["s1" := s']> Sample.store)
      ∧ (0 <= PyNum.to_Q score <= 100)%Q
      ∧ 1 ≤ length top ≤ 3
      ∧ App.current_question s' = 1.
Proof.
  split; [reflexivity|].
  destruct (submit_answer_accepts "2024-01-01T10:05:00" Sample.store "s1"
              Sample.submission _ Sample.question eq_refl eq_refl eq_refl)
    as (score & top & record & s' & Hsubmit & Hscore & Htop & _ & _ & _ & _
        & _ & _ & _ & Hcurrent & _).
  exists score, top, s'. split; [exact Hsubmit|]. split; [exact Hscore|].
  split; [exact Htop|exact Hcurrent].
Defined.

(** X25 on a session of one question. *)
Lemma submit_all_completes_witness :
  "s1" ≠ ""
  ∧ Forall (λ body : string * App.submission,
              is_blank (default "" (App.sub_answer body.2)) = false)
      [("2024-01-01T10:05:00", Sample.submission)]
  ∧ ∃ s',
      (App.submit_all Sample.store "s1"
         [("2024-01-01T10:05:00", Sample.submission)]).2
      = <["s1" := s']> Sample.store
      ∧ length (App.answers s') = 1
      ∧ App.get_question
          (App.submit_all Sample.store "s1"
             [("2024-01-01T10:05:00", Sample.submission)]).2 "s1"
        = App.Completed.
Proof.
  assert (Hid : "s1" ≠ "") by discriminate.
  assert (Hbodies : Forall (λ body : string * App.submission,
                      is_blank (default "" (App.sub_answer body.2)) = false)
                      [("2024-01-01T10:05:00", Sample.submission)]).
  { constructor; [reflexivity|constructor]. }
  split; [exact Hid|]. split; [exact Hbodies|].
  destruct (submit_all_completes Sample.store "s1" "resume"
              "job description" [Sample.question] "2024-01-01T10:00:00"
              [("2024-01-01T10:05:00", Sample.submission)]
              Hid eq_refl eq_refl Hbodies)
    as (s' & Hstore & _ & Hanswers & _ & _ & _ & Hdone).
  exists s'. split; [exact Hstore|]. split; [exact Hanswers|exact Hdone].
Defined.

(** X27 on scored interview data without video. *)
Lemma strengths_improvements_filled_witness :
  ∃ self',
    Interview._identify_strengths_improvements Sample.scored_interview
    = Ok self'
    ∧ 1 ≤ length (Interview.strengths self') ≤ 5
    ∧ 1 ≤ length (Interview.improvements self') ≤ 5
    ∧ "Maintain better eye contact with the camera"
      ∈ Interview.improvements self'.
Proof.
  destruct (strengths_improvements_filled Sample.scored_interview)
    as (self' & Hself' & _ & _ & _ & _ & Hs & Hi & _ & Heye).
  { intros key v _ Hv. unfold Sample.scored_interview in Hv. cbn in Hv.
    repeat (apply lookup_insert_Some in Hv as [[_ <-]|[_ Hv]]; [exact I|]).
    rewrite lookup_empty in Hv. discriminate Hv. }
  { intros v Hv. unfold Sample.scored_interview in Hv. cbn in Hv.
    rewrite lookup_empty in Hv. discriminate Hv. }
  exists self'. split; [exact Hself'|]. split; [exact Hs|].
  split; [exact Hi|]. apply Heye. reflexivity.
Defined.


(** X29 on report data with a low content score and no video analysis. *)
Lemma action_items_range_witness :
  ∃ items,
    Report._generate_action_items Sample.report_data = Ok items
    ∧ 1 ≤ length items ≤ 4.
Proof.
  destruct (action_items_range Sample.report_data)
    as (items & Hitems & Hlen & _).
  { intros part v _ Hv. unfold Sample.report_data in Hv.
    apply lookup_insert_Some in Hv as [[_ <-]|[_ Hv]]; [eauto|].
    rewrite lookup_empty in Hv. discriminate Hv. }
  { intros part name limit v _ Hv. unfold field, Sample.report_data in Hv.
    destruct (decide (part = "metrics")) as [->|Hne].
    - rewrite lookup_insert_eq in Hv.
      apply lookup_insert_Some in Hv as [[_ <-]|[_ Hv]]; [exact I|].
      rewrite lookup_empty in Hv. discriminate Hv.
    - rewrite lookup_insert_ne, lookup_empty in Hv by done.
      discriminate Hv. }
  exists items. split; [exact Hitems|exact Hlen].
Defined.
